(** * FleetOTA: vehicle simulator and update-eligibility classifier

    A shallow embedding of [vehicle-simulator/vehicle_generator.py],
    [lambda-functions/update-manager/lambda_function.py] and
    [lambda-functions/telemetry-processor/lambda_function.py], followed
    by the properties of the specification that concern them and by
    further properties of the code.

    Conventions of the embedding.
    - A Python [int] is a [Z]; a Python [float] is an exact rational [Q]
      (no rounding error, no NaN, no infinity).
    - A Python [str] is a [string] whose characters are the code points
      below 256; comparison of strings is comparison of code points.
    - A raised exception is the [Raise] constructor of [result].
    - The [random] module is a tape of draws of [random.random()]; every
      other distribution is derived from it the way the module does.
    - The S3 and CloudWatch clients are the calls made so far and, for
      each call by its number, the exception the service answers with;
      a reading of the clock is an argument of the function that takes
      it. *)

From Stdlib Require Import ZArith QArith Qround Lqa Lia.
From Stdlib Require Import String Ascii List Bool Permutation DecimalString.
Import ListNotations.

Set Warnings "-register-all".

Local Open Scope Z_scope.
Local Open Scope string_scope.

(* ================================================================== *)
(** ** Python values and exceptions *)

Module Py.

Inductive exn : Type :=
| AttributeError
| TypeError
| ValueError
| IndexError
| KeyError
| ZeroDivisionError
| IOError.

Inductive result (A : Type) : Type :=
| Ok (a : A)
| Raise (e : exn).

Arguments Ok {A} a.
Arguments Raise {A} e.

Definition bind {A B : Type} (m : result A) (k : A -> result B) : result B :=
  match m with
  | Ok a => k a
  | Raise e => Raise e
  end.

(** [max(a, b)] and [min(a, b)] of the interpreter: the first argument is
    returned unless the second is strictly beyond it. *)
Definition max_Q (a b : Q) : Q := if Qlt_le_dec a b then b else a.
Definition min_Q (a b : Q) : Q := if Qlt_le_dec b a then b else a.
Definition max_Z (a b : Z) : Z := if (a <? b)%Z then b else a.

(** [round(x, ndigits)]: the nearest multiple of [10^-ndigits], ties to
    the even one. *)
Definition round_half_even (y : Q) : Z :=
  let f := Qfloor y in
  match Qcompare (y - inject_Z f) (1 # 2) with
  | Lt => f
  | Gt => f + 1
  | Eq => if Z.even f then f else f + 1
  end.

Definition round (x : Q) (ndigits : nat) : Q :=
  let scale := inject_Z (10 ^ Z.of_nat ndigits) in
  (inject_Z (round_half_even (x * scale)) / scale)%Q.

(** [str(n)] for an integer. *)
Definition str_of_int (n : Z) : string := NilZero.string_of_int (Z.to_int n).

(** [c.isdigit()] for one character: the ASCII digits and, below 256, the
    superscripts two, three and one (U+00B2, U+00B3, U+00B9). *)
Definition isdigit (c : ascii) : bool :=
  let n := N_of_ascii c in
  (((48 <=? n) && (n <=? 57)) || (n =? 178) || (n =? 179) || (n =? 185))%N.

(** [int(c)] for one character: only a decimal digit is a literal; below
    256 these are the ASCII digits. *)
Definition int_of_char (c : ascii) : result Z :=
  let n := N_of_ascii c in
  if ((48 <=? n) && (n <=? 57))%N then Ok (Z.of_N n - 48) else Raise ValueError.

(** [l[i]] on a list. *)
Definition list_index {A : Type} (l : list A) (i : nat) : result A :=
  match nth_error l i with
  | Some a => Ok a
  | None => Raise IndexError
  end.

(** [s[:n]] and [s[n:]] on a string, for [n >= 0]. *)
Fixpoint slice_to (n : nat) (s : string) : string :=
  match n, s with
  | S n', String c s' => String c (slice_to n' s')
  | _, _ => EmptyString
  end.

Fixpoint slice_from (n : nat) (s : string) : string :=
  match n, s with
  | S n', String _ s' => slice_from n' s'
  | _, _ => s
  end.

(** [c in s] for a character. *)
Fixpoint char_in (c : ascii) (s : string) : bool :=
  match s with
  | EmptyString => false
  | String d s' => Ascii.eqb c d || char_in c s'
  end.

(** *** JSON documents, as [json.loads] returns them

    An object is the list of its items in insertion order; its keys are
    pairwise distinct. *)
Inductive json : Type :=
| JNull
| JBool (b : bool)
| JInt (n : Z)
| JFloat (x : Q)
| JStr (s : string)
| JArr (l : list json)
| JObj (items : list (string * json)).

Fixpoint assoc_find {V : Type} (k : string) (items : list (string * V))
  : option V :=
  match items with
  | [] => None
  | (k', v) :: items' => if String.eqb k k' then Some v else assoc_find k items'
  end.

(** [j.get(key, default)]: only a dict has the method. *)
Definition json_get (j : json) (key : string) (dflt : json) : result json :=
  match j with
  | JObj items =>
      match assoc_find key items with
      | Some v => Ok v
      | None => Ok dflt
      end
  | _ => Raise AttributeError
  end.

(** The numeric value of [bool], [int] and [float]. *)
Definition num_of (j : json) : option Q :=
  match j with
  | JBool b => Some (if b then 1%Q else 0%Q)
  | JInt n => Some (inject_Z n)
  | JFloat x => Some x
  | _ => None
  end.

(** [a == b] *)
Fixpoint py_eq (a b : json) {struct a} : bool :=
  match a, b with
  | JNull, JNull => true
  | JStr s, JStr t => String.eqb s t
  | JArr l, JArr m =>
      (fix all2 (l m : list json) {struct l} : bool :=
         match l, m with
         | [], [] => true
         | x :: l', y :: m' => py_eq x y && all2 l' m'
         | _, _ => false
         end) l m
  | JObj kv, JObj kw =>
      Nat.eqb (List.length kv) (List.length kw)
      && (fix each (kv : list (string * json)) {struct kv} : bool :=
            match kv with
            | [] => true
            | (k, v) :: kv' =>
                match assoc_find k kw with
                | Some w => py_eq v w
                | None => false
                end && each kv'
            end) kv
  | _, _ =>
      match num_of a, num_of b with
      | Some x, Some y => Qeq_bool x y
      | _, _ => false
      end
  end.

Definition is_cmp (c op : comparison) : bool :=
  match c, op with
  | Lt, Lt | Gt, Gt | Eq, Eq => true
  | _, _ => false
  end.

(** [a < b] for [op = Lt] and [a > b] for [op = Gt]: numbers with numbers,
    strings with strings, lists with lists; [TypeError] otherwise. *)
Fixpoint py_order (op : comparison) (a b : json) {struct a} : result bool :=
  match a, b with
  | JStr s, JStr t => Ok (is_cmp (String.compare s t) op)
  | JArr l, JArr m =>
      (fix go (l m : list json) {struct l} : result bool :=
         match l, m with
         | x :: l', y :: m' => if py_eq x y then go l' m' else py_order op x y
         | [], [] => Ok false
         | [], _ :: _ => Ok (is_cmp Lt op)
         | _ :: _, [] => Ok (is_cmp Gt op)
         end) l m
  | _, _ =>
      match num_of a, num_of b with
      | Some x, Some y => Ok (is_cmp (Qcompare x y) op)
      | _, _ => Raise TypeError
      end
  end.

Definition py_lt : json -> json -> result bool := py_order Lt.
Definition py_gt : json -> json -> result bool := py_order Gt.

(** Whether [hash(j)] succeeds: lists and dicts are unhashable. *)
Definition hashable (j : json) : bool :=
  match j with
  | JArr _ | JObj _ => false
  | _ => true
  end.

(** *** A [dict] keyed by JSON values, in insertion order

    Keys are compared with [==], so [1], [1.0] and [True] are one key;
    assigning to a key that is present keeps the key first inserted. *)
Section Dict.
Context {V : Type}.

Fixpoint dict_find (k : json) (d : list (json * V)) : option V :=
  match d with
  | [] => None
  | (k', v) :: d' => if py_eq k k' then Some v else dict_find k d'
  end.

Fixpoint dict_set (k : json) (v : V) (d : list (json * V))
  : list (json * V) :=
  match d with
  | [] => [(k, v)]
  | (k', v') :: d' =>
      if py_eq k k' then (k', v) :: d' else (k', v') :: dict_set k v d'
  end.

(** [k in d] *)
Definition dict_contains (k : json) (d : list (json * V)) : result bool :=
  if hashable k
  then Ok (match dict_find k d with Some _ => true | None => false end)
  else Raise TypeError.

(** [d[k]] *)
Definition dict_getitem (k : json) (d : list (json * V)) : result V :=
  if hashable k
  then match dict_find k d with Some v => Ok v | None => Raise KeyError end
  else Raise TypeError.

(** [d[k] = v] *)
Definition dict_setitem (k : json) (v : V) (d : list (json * V))
  : result (list (json * V)) :=
  if hashable k then Ok (dict_set k v d) else Raise TypeError.
End Dict.

End Py.

Import Py.

Declare Scope result_scope.
Delimit Scope result_scope with result.
Notation "x <- m ;; k" := (Py.bind m (fun x => k))
  (at level 61, m at next level, right associativity) : result_scope.

(* ================================================================== *)
(** ** The [random] module *)

Module Random.

(** The generator: an infinite tape of the values [random.random()] will
    return, and the position of the next one. *)
Record rng : Type := mk_rng { tape : nat -> Q; pos : nat }.

(** Every draw of [random.random()] lies in [[0, 1)]. *)
Definition unit_tape (g : rng) : Prop :=
  forall n : nat, (0 <= tape g n /\ tape g n < 1)%Q.

Definition Rand (A : Type) : Type := rng -> A * rng.

Definition ret {A : Type} (a : A) : Rand A := fun g => (a, g).

Definition bind {A B : Type} (m : Rand A) (k : A -> Rand B) : Rand B :=
  fun g => let (a, g') := m g in k a g'.

(** [random.random()] *)
Definition random : Rand Q :=
  fun g => (tape g (pos g), mk_rng (tape g) (S (pos g))).

(** [random.uniform(a, b)] is [a + (b - a) * random()]. *)
Definition uniform (a b : Q) : Rand Q :=
  bind random (fun u => ret (a + (b - a) * u)%Q).

(** [_randbelow(n)]: an integer of [[0, n)], here the integer part of
    [random() * n]. *)
Definition randbelow (n : Z) : Rand Z :=
  bind random (fun u => ret (Qfloor (u * inject_Z n))).

(** [random.randint(a, b)] is [a + _randbelow(b - a + 1)]. *)
Definition randint (a b : Z) : Rand Z :=
  bind (randbelow (b - a + 1)) (fun k => ret (a + k)).

(** [random.choice(seq)] on a string and on a list; [dflt] stands for the
    element read when the index is out of range, which no draw of
    [[0, 1)] produces. *)
Definition choice_char (s : string) : Rand ascii :=
  bind (randbelow (Z.of_nat (String.length s)))
       (fun k => ret (match String.get (Z.to_nat k) s with
                      | Some c => c
                      | None => "000"%char
                      end)).

Definition choice {A : Type} (dflt : A) (l : list A) : Rand A :=
  bind (randbelow (Z.of_nat (List.length l)))
       (fun k => ret (nth (Z.to_nat k) l dflt)).

(** [''.join(random.choices(s, k=k))] *)
Fixpoint choices_str (s : string) (k : nat) : Rand string :=
  match k with
  | O => ret EmptyString
  | S k' => bind (choice_char s) (fun c =>
            bind (choices_str s k') (fun r => ret (String c r)))
  end.

(** The generator whose every draw is [u]. *)
Definition const_rng (u : Q) : rng := mk_rng (fun _ => u) 0.

End Random.

Import Random.

Declare Scope rand_scope.
Delimit Scope rand_scope with rand.
Notation "x <~ m ;; k" := (Random.bind m (fun x => k))
  (at level 61, m at next level, right associativity) : rand_scope.

(* ================================================================== *)
(** ** [class VINGenerator] *)

Module VINGenerator.

Definition WMI_CODES : list (string * string) :=
  [ ("TESLA", "5YJ"); ("FORD", "1FA"); ("GM", "1G1"); ("TOYOTA", "5TD");
    ("HONDA", "1HG"); ("VOLKSWAGEN", "WVW"); ("BMW", "WBA");
    ("MERCEDES", "WDD") ].

Definition VIN_WEIGHTS : list Z :=
  [8; 7; 6; 5; 4; 3; 2; 10; 0; 9; 8; 7; 6; 5; 4; 3; 2].

Definition VIN_TRANSLITERATION : list (ascii * Z) :=
  [ ("A", 1); ("B", 2); ("C", 3); ("D", 4); ("E", 5); ("F", 6); ("G", 7);
    ("H", 8);
    ("J", 1); ("K", 2); ("L", 3); ("M", 4); ("N", 5); ("P", 7); ("R", 9);
    ("S", 2);
    ("T", 3); ("U", 4); ("V", 5); ("W", 6); ("X", 7); ("Y", 8); ("Z", 9)
  ]%char.

(** [d.get(key, default)] on the two class tables. *)
Fixpoint translit_get (tbl : list (ascii * Z)) (c : ascii) (dflt : Z) : Z :=
  match tbl with
  | [] => dflt
  | (k, v) :: tbl' => if Ascii.eqb c k then v else translit_get tbl' c dflt
  end.

Fixpoint wmi_get (tbl : list (string * string)) (m : string) (dflt : string)
  : string :=
  match tbl with
  | [] => dflt
  | (k, v) :: tbl' => if String.eqb m k then v else wmi_get tbl' m dflt
  end.

(** The loop of [calculate_check_digit]: [i] is the index [enumerate]
    gives to the head of [s], [total] the sum so far. *)
Fixpoint check_digit_loop (i : nat) (s : string) (total : Z) : result Z :=
  match s with
  | EmptyString => Ok total
  | String char s' =>
      (value <- (if isdigit char then int_of_char char
                 else Ok (translit_get VIN_TRANSLITERATION char 0)) ;;
       weight <- list_index VIN_WEIGHTS i ;;
       check_digit_loop (S i) s' (total + value * weight))%result
  end.

Definition calculate_check_digit (vin_without_check : string) : result string :=
  (total <- check_digit_loop 0 vin_without_check 0 ;;
   let check_digit := total mod 11 in
   Ok (if (check_digit =? 10)%Z then "X" else str_of_int check_digit))%result.

(** [''.join([str(random.randint(0, 9)) for _ in range(n)])] *)
Fixpoint serial_digits (n : nat) : Rand string :=
  match n with
  | O => Random.ret EmptyString
  | S n' => (d <~ randint 0 9 ;;
             r <~ serial_digits n' ;;
             Random.ret (str_of_int d ++ r))%rand
  end.

Definition generate (manufacturer : string) : Rand (result string) :=
  (let wmi := wmi_get WMI_CODES manufacturer "5YJ" in
   vds <~ choices_str "ABCDEFGHJKLMNPRSTUVWXYZ0123456789" 5 ;;
   year_code <~ choice_char "LMNPRSTUVWXYZ" ;;
   plant_code <~ choice_char "ABCDEFGHJKLMNPRSTUVWXYZ" ;;
   serial <~ serial_digits 6 ;;
   let vin_without_check :=
     wmi ++ vds ++ String year_code "" ++ String plant_code "" ++ serial in
   Random.ret
     (check_digit <- calculate_check_digit
                       (slice_to 8 vin_without_check
                        ++ slice_from 9 vin_without_check) ;;
      Ok (slice_to 8 vin_without_check ++ check_digit
          ++ slice_from 8 vin_without_check))%result)%rand.

(** What a reader of the identifier does to verify it: the check digit of
    the sixteen characters around position 9. *)
Definition recompute_check_digit (vin : string) : result string :=
  calculate_check_digit (slice_to 8 vin ++ slice_from 9 vin).

(** *** The check digit as the specification words it *)

Definition is_ascii_digit (c : ascii) : bool :=
  let n := N_of_ascii c in ((48 <=? n) && (n <=? 57))%N.

Definition in_table (c : ascii) : bool :=
  existsb (fun kv => Ascii.eqb c (fst kv)) VIN_TRANSLITERATION.

(** A digit counts for itself, a letter of the table for its entry, any
    other character for 0. *)
Definition char_value (c : ascii) : Z :=
  if is_ascii_digit c then Z.of_N (N_of_ascii c) - 48
  else if in_table c then translit_get VIN_TRANSLITERATION c 0
  else 0.

Fixpoint weighted_sum (i : nat) (s : string) : Z :=
  match s with
  | EmptyString => 0
  | String c s' => char_value c * nth i VIN_WEIGHTS 0 + weighted_sum (S i) s'
  end.

Fixpoint string_forallb (p : ascii -> bool) (s : string) : bool :=
  match s with
  | EmptyString => true
  | String c s' => p c && string_forallb p s'
  end.

(** No character of [s] is a digit for [isdigit] without being one of
    [0]..[9]. *)
Definition plain_digits (s : string) : bool :=
  string_forallb (fun c => implb (isdigit c) (is_ascii_digit c)) s.

Definition CHECK_CHARS : list string :=
  ["0"; "1"; "2"; "3"; "4"; "5"; "6"; "7"; "8"; "9"; "X"].

(** The alphabet of an identifier: no [I], [O] or [Q]. *)
Definition no_IOQ (s : string) : bool :=
  string_forallb (fun c => negb (char_in c "IOQ")) s.

(** The characters of an identifier: the 33 of the generator. *)
Definition in_alphabet (s : string) : bool :=
  string_forallb (fun c => char_in c "ABCDEFGHJKLMNPRSTUVWXYZ0123456789") s.

(** The superscript two, U+00B2. *)
Definition superscript_two : ascii := ascii_of_N 178.

End VINGenerator.


(* ================================================================== *)
(** ** [class GPSSimulator] *)

Module GPSSimulator.

Record t : Type := mk {
  latitude : Q;
  longitude : Q;
  speed_kmh : Q
}.

Definition CITY_CENTERS : list (string * (Q * Q)) :=
  [ ("San Francisco", (37.7749, -122.4194));
    ("Los Angeles", (34.0522, -118.2437));
    ("Chicago", (41.8781, -87.6298));
    ("New York", (40.7128, -74.0060));
    ("Austin", (30.2672, -97.7431));
    ("Seattle", (47.6062, -122.3321));
    ("Detroit", (42.3314, -83.0458)) ]%Q.

(** [GPSSimulator(initial_lat, initial_lon)] *)
Definition init (initial_lat initial_lon : Q) : Rand t :=
  (speed <~ uniform 30 90 ;;
   Random.ret (mk initial_lat initial_lon speed))%rand.

(** [update_position]: the returned pair and the simulator after the
    call. *)
Definition update_position (self : t) (time_elapsed_seconds : Q)
  : Rand ((Q * Q) * t) :=
  (speed_change <~ uniform (-5) 5 ;;
   let speed := max_Q 0 (min_Q 120 (speed_kmh self + speed_change)) in
   let distance_km := (speed * time_elapsed_seconds / 3600)%Q in
   let distance_deg := (distance_km / 111)%Q in
   angle <~ uniform 0 360 ;;
   dlat <~ uniform (-1) 1 ;;
   let lat := (latitude self + distance_deg * dlat * 0.1)%Q in
   dlon <~ uniform (-1) 1 ;;
   let lon := (longitude self + distance_deg * dlon * 0.1)%Q in
   let lat := max_Q (-85) (min_Q 85 lat) in
   let lon := max_Q (-180) (min_Q 180 lon) in
   Random.ret ((round lat 6, round lon 6), mk lat lon speed))%rand.

Definition get_random_city_coordinates : Rand (Q * Q) :=
  (city <~ choice (0, 0)%Q (map snd CITY_CENTERS) ;;
   offset_lat <~ uniform (-0.45) 0.45 ;;
   offset_lon <~ uniform (-0.45) 0.45 ;;
   Random.ret (fst city + offset_lat, snd city + offset_lon)%Q)%rand.

(** The calls of a sequence of [update_position], oldest first: what each
    returned and the simulator it left. *)
Fixpoint update_trace (self : t) (elapsed : list Q) : Rand (list ((Q * Q) * t)) :=
  match elapsed with
  | [] => Random.ret []
  | e :: elapsed' =>
      (r <~ update_position self e ;;
       rest <~ update_trace (snd r) elapsed' ;;
       Random.ret (r :: rest))%rand
  end.

(** The ranges of the stored state after a call. *)
Definition in_bounds (self : t) : Prop :=
  (-85 <= latitude self /\ latitude self <= 85
   /\ -180 <= longitude self /\ longitude self <= 180
   /\ 0 <= speed_kmh self /\ speed_kmh self <= 120)%Q.

End GPSSimulator.

(* ================================================================== *)
(** ** [class Vehicle] *)

Module Vehicle.

Inductive VehicleStatus : Type := ONLINE | OFFLINE | UPDATING | ERROR.

Definition status_value (s : VehicleStatus) : string :=
  match s with
  | ONLINE => "online"
  | OFFLINE => "offline"
  | UPDATING => "updating"
  | ERROR => "error"
  end.

Definition status_eqb (a b : VehicleStatus) : bool :=
  match a, b with
  | ONLINE, ONLINE | OFFLINE, OFFLINE | UPDATING, UPDATING | ERROR, ERROR => true
  | _, _ => false
  end.

Inductive ConnectivityType : Type := LTE | FIVEG | WIFI | SATELLITE.

Definition connectivity_value (c : ConnectivityType) : string :=
  match c with
  | LTE => "4G_LTE"
  | FIVEG => "5G"
  | WIFI => "WiFi"
  | SATELLITE => "Satellite"
  end.

Definition FIRMWARE_VERSIONS : list string :=
  ["1.2.0"; "1.2.1"; "1.3.0"; "1.3.1"; "1.4.0"; "2.0.0"].

Definition VEHICLE_MODELS : list string :=
  ["Model-S"; "Model-3"; "Model-X"; "Model-Y"; "Cybertruck"].

Record t : Type := mk {
  vehicle_id : Z;
  vin : string;
  model : string;
  year : Z;
  gps : GPSSimulator.t;
  firmware_version : string;
  battery_percent : Q;
  battery_health : Q;
  odometer_km : Q;
  status : VehicleStatus;
  connectivity : ConnectivityType;
  signal_strength : Z;
  last_update_check : string;  (* the [isoformat()] of the datetime *)
  update_available : bool;
  update_downloaded : bool
}.

Definition set_gps (g : GPSSimulator.t) (v : t) : t :=
  mk (vehicle_id v) (vin v) (model v) (year v) g (firmware_version v)
     (battery_percent v) (battery_health v) (odometer_km v) (status v)
     (connectivity v) (signal_strength v) (last_update_check v)
     (update_available v) (update_downloaded v).

Definition set_battery_percent (b : Q) (v : t) : t :=
  mk (vehicle_id v) (vin v) (model v) (year v) (gps v) (firmware_version v)
     b (battery_health v) (odometer_km v) (status v)
     (connectivity v) (signal_strength v) (last_update_check v)
     (update_available v) (update_downloaded v).

Definition set_odometer_km (o : Q) (v : t) : t :=
  mk (vehicle_id v) (vin v) (model v) (year v) (gps v) (firmware_version v)
     (battery_percent v) (battery_health v) o (status v)
     (connectivity v) (signal_strength v) (last_update_check v)
     (update_available v) (update_downloaded v).

Definition set_status (s : VehicleStatus) (v : t) : t :=
  mk (vehicle_id v) (vin v) (model v) (year v) (gps v) (firmware_version v)
     (battery_percent v) (battery_health v) (odometer_km v) s
     (connectivity v) (signal_strength v) (last_update_check v)
     (update_available v) (update_downloaded v).

Definition set_connectivity (c : ConnectivityType) (s : Z) (v : t) : t :=
  mk (vehicle_id v) (vin v) (model v) (year v) (gps v) (firmware_version v)
     (battery_percent v) (battery_health v) (odometer_km v) (status v)
     c s (last_update_check v)
     (update_available v) (update_downloaded v).

(** [Vehicle(vehicle_id)]; [now] is the [isoformat()] of what
    [datetime.now()] returns. *)
Definition init (vehicle_id : Z) (now : string) : Rand (result t) :=
  (vin <~ VINGenerator.generate "TESLA" ;;
   match vin with
   | Raise e => Random.ret (Raise e)
   | Ok vin =>
       model <~ choice "" VEHICLE_MODELS ;;
       year <~ randint 2020 2025 ;;
       coords <~ GPSSimulator.get_random_city_coordinates ;;
       gps <~ GPSSimulator.init (fst coords) (snd coords) ;;
       firmware_version <~ choice "" (firstn 4 FIRMWARE_VERSIONS) ;;
       battery_percent <~ uniform 20 100 ;;
       battery_health <~ uniform 85 100 ;;
       odometer_km <~ randint 1000 150000 ;;
       connectivity <~ choice LTE [LTE; FIVEG; WIFI; SATELLITE] ;;
       signal_strength <~ randint (-90) (-40) ;;
       u <~ random ;;
       Random.ret
         (Ok (mk vehicle_id vin model year gps firmware_version
                 battery_percent battery_health (inject_Z odometer_km)
                 ONLINE connectivity signal_strength now
                 (if Qlt_le_dec u 0.3 then true else false) false))
   end)%rand.

Definition simulate_battery_drain (self : t) (time_elapsed_seconds : Q)
  : Rand t :=
  if status_eqb (status self) ONLINE then
    (r <~ uniform 0.1 0.5 ;;
     let drain_rate := (r * (time_elapsed_seconds / 60))%Q in
     let self := set_battery_percent
                   (max_Q 5 (battery_percent self - drain_rate)) self in
     if Qlt_le_dec (battery_percent self) 30 then
       (u <~ random ;;
        if Qlt_le_dec u 0.1 then
          (c <~ uniform 10 30 ;;
           Random.ret (set_battery_percent
                         (min_Q 100 (battery_percent self + c)) self))
        else Random.ret self)
     else Random.ret self)%rand
  else Random.ret self.

Definition _generate_warnings (self : t) : list string :=
  let warnings : list string := [] in
  let warnings := if Qlt_le_dec (battery_percent self) 15
                  then (warnings ++ ["LOW_BATTERY"])%list else warnings in
  let warnings := if (signal_strength self <? -80)%Z
                  then (warnings ++ ["WEAK_SIGNAL"])%list else warnings in
  let warnings := if Qlt_le_dec (battery_health self) 70
                  then (warnings ++ ["BATTERY_HEALTH_DEGRADED"])%list
                  else warnings in
  warnings.

(** [generate_telemetry]: the payload and the vehicle after the call;
    [now] is the [isoformat()] of what [datetime.now()] returns. *)
Definition generate_telemetry (self : t) (now : string) : Rand (json * t) :=
  (pos <~ GPSSimulator.update_position (gps self) 60 ;;
   let lat := fst (fst pos) in
   let lon := snd (fst pos) in
   let self := set_gps (snd pos) self in
   self <~ simulate_battery_drain self 60 ;;
   let self := set_odometer_km
                 (odometer_km self + GPSSimulator.speed_kmh (gps self) / 60)%Q
                 self in
   u <~ random ;;
   self <~ (if Qlt_le_dec u 0.05 then
              (c <~ choice LTE [LTE; FIVEG; WIFI; SATELLITE] ;;
               s <~ randint (-90) (-40) ;;
               Random.ret (set_connectivity c s self))
            else Random.ret self) ;;
   u <~ random ;;
   self <~ (if Qlt_le_dec u 0.02 then Random.ret (set_status OFFLINE self)
            else if status_eqb (status self) OFFLINE then
              (u <~ random ;;
               if Qlt_le_dec u 0.3 then Random.ret (set_status ONLINE self)
               else Random.ret self)
            else Random.ret self) ;;
   heading <~ randint 0 359 ;;
   voltage <~ uniform 350 400 ;;
   temperature <~ uniform 15 45 ;;
   data_usage <~ uniform 10 500 ;;
   health_score <~ uniform 85 100 ;;
   let telemetry :=
     JObj
       [ ("vehicle_id", JInt (vehicle_id self));
         ("vin", JStr (vin self));
         ("timestamp", JStr now);
         ("model", JStr (model self));
         ("year", JInt (year self));
         ("gps",
          JObj [ ("latitude", JFloat lat);
                 ("longitude", JFloat lon);
                 ("speed_kmh",
                  JFloat (round (GPSSimulator.speed_kmh (gps self)) 2));
                 ("heading", JInt heading) ]);
         ("battery",
          JObj [ ("percent", JFloat (round (battery_percent self) 2));
                 ("health", JFloat (round (battery_health self) 2));
                 ("voltage", JFloat (round voltage 2));
                 ("temperature_celsius", JFloat (round temperature 1)) ]);
         ("connectivity",
          JObj [ ("type", JStr (connectivity_value (connectivity self)));
                 ("signal_strength_dbm", JInt (signal_strength self));
                 ("data_usage_mb", JFloat (round data_usage 2));
                 ("connected",
                  JBool (negb (status_eqb (status self) OFFLINE))) ]);
         ("status", JStr (status_value (status self)));
         ("odometer_km", JFloat (round (odometer_km self) 1));
         ("firmware",
          JObj [ ("current_version", JStr (firmware_version self));
                 ("update_available", JBool (update_available self));
                 ("update_downloaded", JBool (update_downloaded self));
                 ("last_update_check", JStr (last_update_check self)) ]);
         ("diagnostics",
          JObj [ ("error_codes", JArr []);
                 ("warnings", JArr (map JStr (_generate_warnings self)));
                 ("health_score", JFloat (round health_score 1)) ]) ] in
   Random.ret (telemetry, self))%rand.

(** What is done to a vehicle between two observations. *)
Inductive action : Type :=
| Drain (time_elapsed_seconds : Q)       (* [simulate_battery_drain(t)] *)
| Telemetry (now : string)               (* [generate_telemetry()] *)
| SetStatus (s : VehicleStatus).         (* an assignment from outside *)

Definition elapsed_ok (a : action) : Prop :=
  match a with
  | Drain e => (0 <= e)%Q
  | _ => True
  end.

Definition step (self : t) (a : action) : Rand t :=
  match a with
  | Drain e => simulate_battery_drain self e
  | Telemetry now =>
      (r <~ generate_telemetry self now ;; Random.ret (snd r))%rand
  | SetStatus s => Random.ret (set_status s self)
  end.

Fixpoint run (self : t) (actions : list action) : Rand t :=
  match actions with
  | [] => Random.ret self
  | a :: actions' => (self <~ step self a ;; run self actions')%rand
  end.

Definition battery_ok (self : t) : Prop :=
  (5 <= battery_percent self /\ battery_percent self <= 100)%Q.

End Vehicle.

(* ================================================================== *)
(** ** The update manager ([lambda_function.py]) *)

Module UpdateManager.

Definition LATEST_FIRMWARE_VERSION : string := "2.0.0".
Definition MINIMUM_BATTERY_PERCENT : Z := 50.
Definition UPDATE_PRIORITY_VERSIONS : list string := ["1.2.0"; "1.2.1"].

(** The object store as [download_telemetry] sees it: for a bucket and a
    key, the parsed document, or the exception of the download or of
    [json.loads]. *)
Definition s3_store : Type := string -> string -> result json.

Definition download_telemetry (s3 : s3_store) (bucket_name object_key : string)
  : result json :=
  s3 bucket_name object_key.

Record fleet_status : Type := mk {
  total_vehicles : Z;
  update_eligible : Z;
  update_in_progress : Z;
  up_to_date : Z;
  insufficient_battery : Z;
  offline : Z;
  firmware_distribution : list (json * Z);        (* [defaultdict(int)] *)
  vehicles_by_status : list (string * list json)  (* [defaultdict(list)] *)
}.

Definition initial_status : fleet_status := mk 0 0 0 0 0 0 [] [].

(** [d[k] += 1] on a [defaultdict(int)] *)
Definition counter_incr (k : json) (d : list (json * Z))
  : result (list (json * Z)) :=
  if hashable k
  then Ok (dict_set k (match dict_find k d with Some n => n | None => 0 end + 1) d)
  else Raise TypeError.

(** [d[k].append(x)] on a [defaultdict(list)] with string keys *)
Fixpoint list_append (k : string) (x : json) (d : list (string * list json))
  : list (string * list json) :=
  match d with
  | [] => [(k, [x])]
  | (k', l) :: d' =>
      if String.eqb k k' then (k', (l ++ [x])%list) :: d'
      else (k', l) :: list_append k x d'
  end.

(** [d[k]] read without inserting: the empty list for an absent key. *)
Definition list_of (k : string) (d : list (string * list json)) : list json :=
  match assoc_find k d with
  | Some l => l
  | None => []
  end.

Definition count_total (fs : fleet_status) : fleet_status :=
  mk (total_vehicles fs + 1) (update_eligible fs) (update_in_progress fs)
     (up_to_date fs) (insufficient_battery fs) (offline fs)
     (firmware_distribution fs) (vehicles_by_status fs).

Definition set_firmware_distribution (d : list (json * Z)) (fs : fleet_status)
  : fleet_status :=
  mk (total_vehicles fs) (update_eligible fs) (update_in_progress fs)
     (up_to_date fs) (insufficient_battery fs) (offline fs)
     d (vehicles_by_status fs).

Definition count_updating (vehicle_id : json) (fs : fleet_status) : fleet_status :=
  mk (total_vehicles fs) (update_eligible fs) (update_in_progress fs + 1)
     (up_to_date fs) (insufficient_battery fs) (offline fs)
     (firmware_distribution fs)
     (list_append "updating" vehicle_id (vehicles_by_status fs)).

Definition count_offline (vehicle_id : json) (fs : fleet_status) : fleet_status :=
  mk (total_vehicles fs) (update_eligible fs) (update_in_progress fs)
     (up_to_date fs) (insufficient_battery fs) (offline fs + 1)
     (firmware_distribution fs)
     (list_append "offline" vehicle_id (vehicles_by_status fs)).

Definition count_up_to_date (vehicle_id : json) (fs : fleet_status) : fleet_status :=
  mk (total_vehicles fs) (update_eligible fs) (update_in_progress fs)
     (up_to_date fs + 1) (insufficient_battery fs) (offline fs)
     (firmware_distribution fs)
     (list_append "up_to_date" vehicle_id (vehicles_by_status fs)).

Definition count_low_battery (vehicle_id : json) (fs : fleet_status) : fleet_status :=
  mk (total_vehicles fs) (update_eligible fs) (update_in_progress fs)
     (up_to_date fs) (insufficient_battery fs + 1) (offline fs)
     (firmware_distribution fs)
     (list_append "low_battery" vehicle_id (vehicles_by_status fs)).

Definition count_eligible (vehicle_id : json) (fs : fleet_status) : fleet_status :=
  mk (total_vehicles fs) (update_eligible fs + 1) (update_in_progress fs)
     (up_to_date fs) (insufficient_battery fs) (offline fs)
     (firmware_distribution fs)
     (list_append "eligible" vehicle_id (vehicles_by_status fs)).

Section AnalyzeFleet.
Variable s3 : s3_store.
Variable bucket_name : string.

(** The body of the [try] of the first loop, for one file key. *)
Definition keep_latest (vehicles : list (json * json)) (file_key : string)
  : result (list (json * json)) :=
  (telemetry <- download_telemetry s3 bucket_name file_key ;;
   vehicle_id <- json_get telemetry "vehicle_id" JNull ;;
   present <- dict_contains vehicle_id vehicles ;;
   if negb present then dict_setitem vehicle_id telemetry vehicles
   else
     new_ts <- json_get telemetry "timestamp" (JStr "") ;;
     kept <- dict_getitem vehicle_id vehicles ;;
     old_ts <- json_get kept "timestamp" (JStr "") ;;
     newer <- py_gt new_ts old_ts ;;
     if newer then dict_setitem vehicle_id telemetry vehicles
     else Ok vehicles)%result.

(** One iteration of the first loop: [except Exception: continue]. *)
Definition dedup_step (vehicles : list (json * json)) (file_key : string)
  : list (json * json) :=
  match keep_latest vehicles file_key with
  | Ok vehicles' => vehicles'
  | Raise _ => vehicles
  end.

Definition dedup (telemetry_files : list string) : list (json * json) :=
  fold_left dedup_step telemetry_files [].

(** The block [# Extract vehicle info] of the second loop: the firmware
    version, the battery percent, the status and the update flag. *)
Definition extract_info (telemetry : json)
  : result (json * json * json * json) :=
  (firmware <- json_get telemetry "firmware" (JObj []) ;;
   firmware_version <- json_get firmware "current_version" (JStr "unknown") ;;
   battery <- json_get telemetry "battery" (JObj []) ;;
   battery_percent <- json_get battery "percent" (JInt 0) ;;
   status <- json_get telemetry "status" (JStr "unknown") ;;
   firmware' <- json_get telemetry "firmware" (JObj []) ;;
   update_available <- json_get firmware' "update_available" (JBool false) ;;
   Ok (firmware_version, battery_percent, status, update_available))%result.

(** One iteration of the second loop. *)
Definition analyze_vehicle (fs : fleet_status) (item : json * json)
  : result fleet_status :=
  (let vehicle_id := fst item in
   let telemetry := snd item in
   let fs := count_total fs in
   info <- extract_info telemetry ;;
   let '(firmware_version, battery_percent, status, update_available) :=
     info in
   distribution <- counter_incr firmware_version (firmware_distribution fs) ;;
   let fs := set_firmware_distribution distribution fs in
   if py_eq status (JStr "updating") then Ok (count_updating vehicle_id fs)
   else if py_eq status (JStr "offline") then Ok (count_offline vehicle_id fs)
   else if py_eq firmware_version (JStr LATEST_FIRMWARE_VERSION)
   then Ok (count_up_to_date vehicle_id fs)
   else
     low <- py_lt battery_percent (JInt MINIMUM_BATTERY_PERCENT) ;;
     if low then Ok (count_low_battery vehicle_id fs)
     else Ok (count_eligible vehicle_id fs))%result.

Fixpoint analyze_loop (fs : fleet_status) (vehicles : list (json * json))
  : result fleet_status :=
  match vehicles with
  | [] => Ok fs
  | item :: vehicles' =>
      (fs <- analyze_vehicle fs item ;; analyze_loop fs vehicles')%result
  end.

Definition analyze_fleet (telemetry_files : list string) : result fleet_status :=
  analyze_loop initial_status (dedup telemetry_files).
End AnalyzeFleet.

(** [a / b] on integers. *)
Definition true_div (a b : Z) : result Q :=
  if (b =? 0)%Z then Raise ZeroDivisionError
  else Ok (inject_Z a / inject_Z b)%Q.

(** The value of the metric [UpdateEligibilityRate] in
    [publish_update_metrics]. *)
Definition update_eligibility_rate (fs : fleet_status) : result Q :=
  (q <- true_div (update_eligible fs) (max_Z (total_vehicles fs) 1) ;;
   Ok (q * 100)%Q)%result.

(** *** The classification as the specification words it *)

Inductive bucket : Type :=
| UPDATING | OFFLINE | UP_TO_DATE | INSUFFICIENT_BATTERY | ELIGIBLE.

Definition bucket_eqb (a b : bucket) : bool :=
  match a, b with
  | UPDATING, UPDATING | OFFLINE, OFFLINE | UP_TO_DATE, UP_TO_DATE
  | INSUFFICIENT_BATTERY, INSUFFICIENT_BATTERY | ELIGIBLE, ELIGIBLE => true
  | _, _ => false
  end.

Definition all_buckets : list bucket :=
  [UPDATING; OFFLINE; UP_TO_DATE; INSUFFICIENT_BATTERY; ELIGIBLE].

(** The field of a snapshot, or [dflt] when the snapshot or the enclosing
    object lacks it. *)
Definition field (snapshot : json) (outer inner : option string) (dflt : json)
  : json :=
  let lookup (j : json) (k : string) : option json :=
    match j with JObj items => assoc_find k items | _ => None end in
  match outer, inner with
  | Some o, Some i =>
      match lookup snapshot o with
      | Some sub => match lookup sub i with Some v => v | None => dflt end
      | None => dflt
      end
  | Some o, None =>
      match lookup snapshot o with Some v => v | None => dflt end
  | None, _ => dflt
  end.

Definition snapshot_status (snapshot : json) : json :=
  field snapshot (Some "status") None (JStr "unknown").
Definition snapshot_firmware (snapshot : json) : json :=
  field snapshot (Some "firmware") (Some "current_version") (JStr "unknown").
Definition snapshot_battery (snapshot : json) : json :=
  field snapshot (Some "battery") (Some "percent") (JInt 0).
Definition snapshot_update_available (snapshot : json) : json :=
  field snapshot (Some "firmware") (Some "update_available") (JBool false).

(** [j] is the string [s]. *)
Definition is_str (j : json) (s : string) : bool :=
  match j with
  | JStr t => String.eqb t s
  | _ => false
  end.

(** First match wins: updating, offline, latest firmware, battery under
    the threshold, eligible. *)
Definition classify (snapshot : json) : bucket :=
  if is_str (snapshot_status snapshot) "updating" then UPDATING
  else if is_str (snapshot_status snapshot) "offline" then OFFLINE
  else if is_str (snapshot_firmware snapshot) LATEST_FIRMWARE_VERSION
  then UP_TO_DATE
  else
    match num_of (snapshot_battery snapshot) with
    | Some p =>
        if Qlt_le_dec p (inject_Z MINIMUM_BATTERY_PERCENT)
        then INSUFFICIENT_BATTERY else ELIGIBLE
    | None => ELIGIBLE
    end.

(** The counter and the identifier list of a bucket in the report. *)
Definition bucket_count (fs : fleet_status) (b : bucket) : Z :=
  match b with
  | UPDATING => update_in_progress fs
  | OFFLINE => offline fs
  | UP_TO_DATE => up_to_date fs
  | INSUFFICIENT_BATTERY => insufficient_battery fs
  | ELIGIBLE => update_eligible fs
  end.

Definition bucket_key (b : bucket) : string :=
  match b with
  | UPDATING => "updating"
  | OFFLINE => "offline"
  | UP_TO_DATE => "up_to_date"
  | INSUFFICIENT_BATTERY => "low_battery"
  | ELIGIBLE => "eligible"
  end.

Definition bucket_members (fs : fleet_status) (b : bucket) : list json :=
  list_of (bucket_key b) (vehicles_by_status fs).

(** The vehicles of a deduplicated fleet that the wording puts in [b]. *)
Definition classified_as (b : bucket) (vehicles : list (json * json))
  : list json :=
  map fst (filter (fun item => bucket_eqb (classify (snd item)) b) vehicles).

(** Every field the classification reads is absent or of the type the
    snapshot format gives it: [firmware] and [battery] are objects, the
    firmware version is hashable, the battery percent is a number. *)
Definition fields_typed (snapshot : json) : bool :=
  match snapshot with
  | JObj items =>
      match assoc_find "firmware" items with
      | None => true
      | Some (JObj fw) =>
          match assoc_find "current_version" fw with
          | None => true
          | Some v => hashable v
          end
      | Some _ => false
      end
      &&
      match assoc_find "battery" items with
      | None => true
      | Some (JObj bt) =>
          match assoc_find "percent" bt with
          | None => true
          | Some p => match num_of p with Some _ => true | None => false end
          end
      | Some _ => false
      end
  | _ => false
  end.

(** *** Deduplication as the specification words it *)

Definition is_object (j : json) : bool :=
  match j with JObj _ => true | _ => false end.

Definition snapshot_id (snapshot : json) : json :=
  field snapshot (Some "vehicle_id") None JNull.

Definition snapshot_timestamp (snapshot : json) : json :=
  field snapshot (Some "timestamp") None (JStr "").

Definition timestamp_string (snapshot : json) : string :=
  match snapshot_timestamp snapshot with
  | JStr s => s
  | _ => ""
  end.

Definition same_vehicle (a b : json) : bool :=
  py_eq (snapshot_id a) (snapshot_id b).

(** A snapshot with a usable identifier and a timestamp string. *)
Definition stamped (snapshot : json) : bool :=
  is_object snapshot
  && hashable (snapshot_id snapshot)
  && match snapshot_timestamp snapshot with JStr _ => true | _ => false end.

(** The documents of a batch, in processing order; a key whose download
    fails contributes none. *)
Definition snapshots (s3 : s3_store) (bucket_name : string)
  (telemetry_files : list string) : list json :=
  flat_map (fun file_key =>
              match download_telemetry s3 bucket_name file_key with
              | Ok t => [t]
              | Raise _ => []
              end) telemetry_files.

(** A well-formed [dict]: hashable keys, no key twice. *)
Fixpoint dict_wf {V : Type} (d : list (json * V)) : Prop :=
  match d with
  | [] => True
  | (k, _) :: d' => hashable k = true /\ dict_find k d' = None /\ dict_wf d'
  end.

(** The snapshot lacks the field [key]. *)
Definition lacks (snapshot : json) (key : string) : Prop :=
  match snapshot with
  | JObj items => assoc_find key items = None
  | _ => False
  end.

(** The snapshot lacks [outer], or [outer] is an object lacking [inner]. *)
Definition lacks_nested (snapshot : json) (outer inner : string) : Prop :=
  match snapshot with
  | JObj items =>
      match assoc_find outer items with
      | None => True
      | Some sub => lacks sub inner
      end
  | _ => False
  end.

(** The update of the report for a vehicle put in bucket [b]. *)
Definition count_in (b : bucket) (vehicle_id : json) (fs : fleet_status)
  : fleet_status :=
  match b with
  | UPDATING => count_updating vehicle_id fs
  | OFFLINE => count_offline vehicle_id fs
  | UP_TO_DATE => count_up_to_date vehicle_id fs
  | INSUFFICIENT_BATTERY => count_low_battery vehicle_id fs
  | ELIGIBLE => count_eligible vehicle_id fs
  end.

(** The report agrees with the classification of [vehicles]. *)
Definition reports (fs : fleet_status) (vehicles : list (json * json)) : Prop :=
  total_vehicles fs = Z.of_nat (List.length vehicles)
  /\ forall b : bucket,
       bucket_members fs b = classified_as b vehicles
       /\ bucket_count fs b = Z.of_nat (List.length (classified_as b vehicles)).

End UpdateManager.

(* ================================================================== *)
(** ** Concrete inputs used by the examples *)

Module Samples.

Definition gps0 : GPSSimulator.t := GPSSimulator.mk 37.7749 (-122.4194) 60.

Definition vehicle0 (s : Vehicle.VehicleStatus) : Vehicle.t :=
  Vehicle.mk 1 "5YJAAAAA5LA000000" "Model-S" 2022 gps0 "1.3.0" 80 95 12000
             s Vehicle.LTE (-60) "2025-09-01T10:00:00" false false.

Definition snap (id : Z) (timestamp status firmware : string) (battery : Z)
  : json :=
  JObj [ ("vehicle_id", JInt id);
         ("timestamp", JStr timestamp);
         ("status", JStr status);
         ("battery", JObj [("percent", JInt battery)]);
         ("firmware", JObj [("current_version", JStr firmware)]) ].

(** A snapshot without identifier, battery and firmware. *)
Definition anonymous (timestamp : string) : json :=
  JObj [("timestamp", JStr timestamp); ("status", JStr "online")].

Definition snap_a : json := snap 1 "2025-09-01T10:00:00" "online" "1.3.0" 80.
Definition snap_b : json := snap 1 "2025-09-01T10:05:00" "offline" "1.0.0" 10.
Definition snap_c : json := snap 2 "2025-09-01T10:00:00" "online" "2.0.0" 20.
Definition snap_d : json := snap 3 "2025-09-01T10:00:00" "online" "1.3.0" 20.
Definition snap_e : json := snap 1 "2025-09-01T10:05:00" "online" "1.3.0" 80.
Definition snap_f : json := anonymous "2025-09-01T10:00:00".

Definition store : UpdateManager.s3_store :=
  fun _ object_key =>
    if String.eqb object_key "a" then Ok snap_a
    else if String.eqb object_key "b" then Ok snap_b
    else if String.eqb object_key "c" then Ok snap_c
    else if String.eqb object_key "d" then Ok snap_d
    else if String.eqb object_key "e" then Ok snap_e
    else if String.eqb object_key "f" then Ok snap_f
    else if String.eqb object_key "g" then Ok (JObj [])
    else if String.eqb object_key "h" then
      Ok (JObj [ ("vehicle_id", JInt 4);
                 ("battery", JObj [("percent", JStr "full")]) ])
    else Raise IOError.

Definition files : list string := ["a"; "b"; "c"; "d"; "f"].

End Samples.

(* ================================================================== *)
(** ** Further observations on the identifier and the movement model *)

Module Observed.

(** Every character of [s] is one of [0]..[9]. *)
Definition all_digits (s : string) : bool :=
  VINGenerator.string_forallb VINGenerator.is_ascii_digit s.

(** [isdigit] accepts [c] only if it is one of [0]..[9]. *)
Definition plain_char (c : ascii) : bool :=
  implb (isdigit c) (VINGenerator.is_ascii_digit c).

(** [p] lies within 0.45 degree, on each axis, of a city of the
    catalog. *)
Definition near_city (p : Q * Q) : Prop :=
  exists c : Q * Q,
    In c (map snd GPSSimulator.CITY_CENTERS)
    /\ (fst c - 0.45 <= fst p /\ fst p <= fst c + 0.45)%Q
    /\ (snd c - 0.45 <= snd p /\ snd p <= snd c + 0.45)%Q.

End Observed.

(* ================================================================== *)
(** ** Further observations on a vehicle *)

Module TickFacts.

(** An action of the vehicle itself, not an assignment from outside. *)
Definition own_action (a : Vehicle.action) : Prop :=
  match a with
  | Vehicle.SetStatus _ => False
  | _ => True
  end.

Definition online_or_offline (s : Vehicle.VehicleStatus) : Prop :=
  s = Vehicle.ONLINE \/ s = Vehicle.OFFLINE.

(** The bucket of a vehicle as its own state gives it: its status, its
    firmware and the battery level it reports, rounded to 2 decimals. *)
Definition bucket_of_vehicle (v : Vehicle.t) : UpdateManager.bucket :=
  match Vehicle.status v with
  | Vehicle.UPDATING => UpdateManager.UPDATING
  | Vehicle.OFFLINE => UpdateManager.OFFLINE
  | _ =>
      if String.eqb (Vehicle.firmware_version v)
                    UpdateManager.LATEST_FIRMWARE_VERSION
      then UpdateManager.UP_TO_DATE
      else if Qlt_le_dec (round (Vehicle.battery_percent v) 2)
                         (inject_Z UpdateManager.MINIMUM_BATTERY_PERCENT)
           then UpdateManager.INSUFFICIENT_BATTERY
           else UpdateManager.ELIGIBLE
  end.

End TickFacts.

(* ================================================================== *)
(** ** The CloudWatch client, as the two lambda functions use it *)

Module CloudWatch.

(** One entry of [MetricData]; a dimension is its [Name] and [Value]. *)
Record metric : Type := mk_metric {
  MetricName : string;
  Value : json;
  Unit : string;
  Timestamp : string;
  Dimensions : list (string * json)
}.

(** The client: the requests made so far, and for each request, by its
    number, the exception the service answers with, if any. *)
Record client : Type := mk_client {
  requests : list (string * list metric);
  fails : nat -> option exn
}.

Definition put_metric_data (c : client) (Namespace : string)
  (MetricData : list metric) : result unit * client :=
  let c' := mk_client (requests c ++ [(Namespace, MetricData)])%list (fails c) in
  match fails c (List.length (requests c)) with
  | Some e => (Raise e, c')
  | None => (Ok tt, c')
  end.

(** The values of the metrics of a batch that carry the name [name]. *)
Definition values_of (name : string) (data : list metric) : list json :=
  map Value (filter (fun m => String.eqb (MetricName m) name) data).

End CloudWatch.

(* ================================================================== *)
(** ** The update manager: the report and its publication *)

Module FleetReport.
Import UpdateManager CloudWatch.

(** [d[v]] on the [defaultdict(int)], read without inserting. *)
Definition version_count (v : json) (d : list (json * Z)) : Z :=
  match dict_find v d with
  | Some n => n
  | None => 0
  end.

Definition sum_counts (d : list (json * Z)) : Z :=
  fold_right Z.add 0 (map snd d).

(** The vehicles of a deduplicated fleet whose snapshot gives the
    firmware version [v]. *)
Definition on_version (v : json) (vehicles : list (json * json))
  : list (json * json) :=
  filter (fun item => py_eq (snapshot_firmware (snd item)) v) vehicles.

(** The histogram agrees with the vehicles analysed so far. *)
Definition histogram_of (fs : fleet_status) (done : list (json * json))
  : Prop :=
  dict_wf (firmware_distribution fs)
  /\ sum_counts (firmware_distribution fs) = total_vehicles fs
  /\ (forall v n, In (v, n) (firmware_distribution fs) -> 1 <= n)
  /\ forall v : json,
       hashable v = true ->
       version_count v (firmware_distribution fs)
       = Z.of_nat (List.length (on_version v done)).

(** A file key the first loop of [analyze_fleet] can use: the download
    gives an object whose identifier is hashable. *)
Definition usable (s3 : s3_store) (bucket_name file_key : string) : bool :=
  match download_telemetry s3 bucket_name file_key with
  | Ok t => is_object t && hashable (snapshot_id t)
  | Raise _ => false
  end.

Definition fleet_metric (name : string) (value : json) (unit timestamp : string)
  : metric :=
  mk_metric name value unit timestamp [("Fleet", JStr "All")].

(** The list [metric_data] of [publish_update_metrics]; [timestamp] is
    what [datetime.now()] returns. *)
Definition metric_data (timestamp : string) (fs : fleet_status)
  : result (list metric) :=
  (rate <- update_eligibility_rate fs ;;
   Ok ([ fleet_metric "TotalVehicles" (JInt (total_vehicles fs))
           "Count" timestamp;
         fleet_metric "UpdateEligible" (JInt (update_eligible fs))
           "Count" timestamp;
         fleet_metric "UpdateInProgress" (JInt (update_in_progress fs))
           "Count" timestamp;
         fleet_metric "VehiclesUpToDate" (JInt (up_to_date fs))
           "Count" timestamp;
         fleet_metric "VehiclesOffline" (JInt (offline fs))
           "Count" timestamp;
         fleet_metric "LowBatteryVehicles" (JInt (insufficient_battery fs))
           "Count" timestamp;
         fleet_metric "UpdateEligibilityRate" (JFloat rate)
           "Percent" timestamp ]
       ++ map (fun item : json * Z =>
                 mk_metric "VehiclesByFirmware" (JInt (snd item)) "Count"
                   timestamp
                   [("Fleet", JStr "All"); ("FirmwareVersion", fst item)])
              (firmware_distribution fs))%list)%result.

Definition publish_update_metrics (cloudwatch_client : client)
  (timestamp : string) (fs : fleet_status) : result unit * client :=
  match metric_data timestamp fs with
  | Ok data => put_metric_data cloudwatch_client "FleetOTA" data
  | Raise e => (Raise e, cloudwatch_client)
  end.

(** The name under which the counter of a bucket is published. *)
Definition bucket_metric (b : bucket) : string :=
  match b with
  | UPDATING => "UpdateInProgress"
  | OFFLINE => "VehiclesOffline"
  | UP_TO_DATE => "VehiclesUpToDate"
  | INSUFFICIENT_BATTERY => "LowBatteryVehicles"
  | ELIGIBLE => "UpdateEligible"
  end.

(** The sum of the integers of a list of values; a value of another kind
    counts for nothing. *)
Definition sum_ints (l : list json) : Z :=
  fold_right (fun j acc => match j with JInt n => n + acc | _ => acc end) 0 l.

End FleetReport.

(* ================================================================== *)
(** ** Concrete reports and clients used by the examples *)

Module ReportSamples.
Import UpdateManager CloudWatch.

(** The report of [analyze_fleet] on [Samples.files]. *)
Definition report : fleet_status :=
  mk 4 0 0 1 2 1
     [(JStr "1.0.0", 1); (JStr "2.0.0", 1); (JStr "1.3.0", 1);
      (JStr "unknown", 1)]
     [("offline", [JInt 1]); ("up_to_date", [JInt 2]);
      ("low_battery", [JInt 3; JNull])].

(** A client with no request yet, whose service accepts every request. *)
Definition quiet : client := mk_client [] (fun _ => None).

(** A client with no request yet, whose service refuses the request of
    number [n] with [IOError]. *)
Definition refusing (n : nat) : client :=
  mk_client [] (fun i => if Nat.eqb i n then Some IOError else None).

End ReportSamples.

(* ================================================================== *)
(** ** The S3 client, as the simulator uses it *)

Module S3.

(** A call of [put_object]; [Body] is the document whose
    [json.dumps(data, indent=2)] is sent. *)
Record request : Type := mk_request {
  Bucket : string;
  Key : string;
  Body : json;
  ContentType : string;
  Metadata : list (string * json)
}.

(** The client: the calls made so far, and for each call, by its number,
    the exception the service answers with, if any. *)
Record client : Type := mk_client {
  calls : list request;
  fails : nat -> option exn
}.

Definition put_object (c : client) (r : request) : result unit * client :=
  let c' := mk_client (calls c ++ [r])%list (fails c) in
  match fails c (List.length (calls c)) with
  | Some e => (Raise e, c')
  | None => (Ok tt, c')
  end.

End S3.

(* ================================================================== *)
(** ** [class FleetSimulator] *)

Module FleetSimulator.

Record t : Type := mk {
  num_vehicles : Z;
  s3_bucket : string;
  aws_region : string;
  s3_client : S3.client;
  vehicles : list Vehicle.t;
  telemetry_sent : Z;
  upload_errors : Z
}.

(** What the clock returns while one vehicle is handled. *)
Record reading : Type := mk_reading {
  isoformat : string;  (* [datetime.now().isoformat()] of the payload *)
  hour_path : string;  (* [datetime.now().strftime('%Y%m%d/%H')] *)
  millis : Z           (* [int(time.time() * 1000)] *)
}.

(** [range(start, stop)] *)
Definition range (start stop : Z) : list Z :=
  map (fun k : nat => start + Z.of_nat k) (seq 0 (Z.to_nat (stop - start))).

(** [[Vehicle(i) for i in ids]]; [now i] is the clock reading when
    vehicle [i] is built. *)
Fixpoint make_vehicles (ids : list Z) (now : Z -> string)
  : Rand (result (list Vehicle.t)) :=
  match ids with
  | [] => Random.ret (Ok [])
  | i :: ids' =>
      (v <~ Vehicle.init i (now i) ;;
       match v with
       | Raise e => Random.ret (Raise e)
       | Ok v =>
           rest <~ make_vehicles ids' now ;;
           Random.ret (match rest with
                       | Ok l => Ok (v :: l)
                       | Raise e => Raise e
                       end)
       end)%rand
  end.

(** [FleetSimulator(num_vehicles, s3_bucket, aws_region)]; [connect] is
    what [boto3.client('s3', ...)] returns or raises. *)
Definition init (num_vehicles : Z) (s3_bucket aws_region : string)
  (connect : result S3.client) (now : Z -> string) : Rand (result t) :=
  match connect with
  | Raise e => Random.ret (Raise e)
  | Ok client =>
      (vs <~ make_vehicles (range 1 (num_vehicles + 1)) now ;;
       Random.ret (match vs with
                   | Ok vs => Ok (mk num_vehicles s3_bucket aws_region client
                                     vs 0 0)
                   | Raise e => Raise e
                   end))%rand
  end.

Definition set_vehicles (vs : list Vehicle.t) (self : t) : t :=
  mk (num_vehicles self) (s3_bucket self) (aws_region self) (s3_client self)
     vs (telemetry_sent self) (upload_errors self).

(** [upload_to_s3]: the flag returned and the simulator after the call. *)
Definition upload_to_s3 (self : t) (data : json) (vehicle_id : Z)
  (timestamp : string) (millis : Z) : bool * t :=
  let key := ("telemetry/" ++ timestamp ++ "/vehicle_"
              ++ str_of_int vehicle_id ++ "_" ++ str_of_int millis
              ++ ".json")%string in
  let attempt : result unit * S3.client :=
    match (vin <- json_get data "vin" (JStr "") ;;
           ts <- json_get data "timestamp" (JStr "") ;;
           Ok (vin, ts))%result with
    | Ok (vin, ts) =>
        S3.put_object (s3_client self)
          (S3.mk_request (s3_bucket self) key data "application/json"
             [ ("vehicle_id", JStr (str_of_int vehicle_id));
               ("vin", vin);
               ("timestamp", ts) ])
    | Raise e => (Raise e, s3_client self)
    end in
  match fst attempt with
  | Ok _ =>
      (true,
       mk (num_vehicles self) (s3_bucket self) (aws_region self)
          (snd attempt) (vehicles self)
          (telemetry_sent self + 1) (upload_errors self))
  | Raise _ =>
      (false,
       mk (num_vehicles self) (s3_bucket self) (aws_region self)
          (snd attempt) (vehicles self)
          (telemetry_sent self) (upload_errors self + 1))
  end.

(** The counters [successful_uploads] and [failed_uploads] of a pass. *)
Record tally : Type := mk_tally {
  successful_uploads : Z;
  failed_uploads : Z
}.

(** The loop [for vehicle in self.vehicles] of [run_simulation], from
    the vehicle of index [i] on: the vehicles after their tick, the
    simulator and the counters.  [clock i] is what the clock returns
    while the vehicle of index [i] is handled. *)
Fixpoint for_vehicles (todo : list Vehicle.t) (clock : nat -> reading)
  (i : nat) (self : t) (counts : tally)
  : Rand (list Vehicle.t * t * tally) :=
  match todo with
  | [] => Random.ret ([], self, counts)
  | vehicle :: todo' =>
      (r <~ Vehicle.generate_telemetry vehicle (isoformat (clock i)) ;;
       let telemetry := fst r in
       let vehicle := snd r in
       let up := upload_to_s3 self telemetry (Vehicle.vehicle_id vehicle)
                   (hour_path (clock i)) (millis (clock i)) in
       let counts :=
         if fst up
         then mk_tally (successful_uploads counts + 1) (failed_uploads counts)
         else mk_tally (successful_uploads counts) (failed_uploads counts + 1)
       in
       rest <~ for_vehicles todo' clock (S i) (snd up) counts ;;
       Random.ret (vehicle :: fst (fst rest), snd (fst rest), snd rest))%rand
  end.

(** What a pass over [todo] does to the counters and to the calls of
    the client. *)
Definition accounted (todo vs' : list Vehicle.t)
  (self self' : t) (counts counts' : tally) : Prop :=
  map Vehicle.vehicle_id vs' = map Vehicle.vehicle_id todo
  /\ successful_uploads counts' + failed_uploads counts'
     = successful_uploads counts + failed_uploads counts
       + Z.of_nat (List.length todo)
  /\ successful_uploads counts <= successful_uploads counts'
  /\ failed_uploads counts <= failed_uploads counts'
  /\ telemetry_sent self' - telemetry_sent self
     = successful_uploads counts' - successful_uploads counts
  /\ upload_errors self' - upload_errors self
     = failed_uploads counts' - failed_uploads counts
  /\ vehicles self' = vehicles self
  /\ s3_bucket self' = s3_bucket self
  /\ exists sent : list S3.request,
       S3.calls (s3_client self') = (S3.calls (s3_client self) ++ sent)%list
       /\ map (fun r => (S3.Bucket r, UpdateManager.snapshot_id (S3.Body r)))
              sent
          = map (fun v => (s3_bucket self, JInt (Vehicle.vehicle_id v))) todo.

(** One pass of the [while] loop of [run_simulation]. *)
Definition iteration (self : t) (clock : nat -> reading) : Rand (t * tally) :=
  (r <~ for_vehicles (vehicles self) clock 0 self (mk_tally 0 0) ;;
   Random.ret (set_vehicles (fst (fst r)) (snd (fst r)), snd r))%rand.

(** The passes of the [while] loop; the clock decides how many there
    are, and [clocks] holds its readings pass by pass. *)
Fixpoint iterations (self : t) (clocks : list (nat -> reading)) : Rand t :=
  match clocks with
  | [] => Random.ret self
  | clock :: clocks' =>
      (r <~ iteration self clock ;; iterations (fst r) clocks')%rand
  end.

(** *** [_print_summary] *)

(** What [_print_summary] computes and prints. *)
Record summary : Type := mk_summary {
  Vehicles : Z;
  Telemetry_uploaded : Z;
  Upload_errors : Z;
  Success_rate : Q;
  Online : Z;
  Offline : Z;
  Avg_battery : Q;
  Firmware_distribution : list (string * Z * Q)
}.

(** [sum(1 for v in vs if v.status == s)] *)
Definition count_status (s : Vehicle.VehicleStatus) (vs : list Vehicle.t)
  : Z :=
  fold_left Z.add
    (map (fun _ => 1)
         (filter (fun v => Vehicle.status_eqb (Vehicle.status v) s) vs)) 0.

(** [sum(v.battery_percent for v in vs)] *)
Definition sum_battery (vs : list Vehicle.t) : Q :=
  fold_left Qplus (map Vehicle.battery_percent vs) 0%Q.

(** [x / n] for a float and an integer. *)
Definition float_div (x : Q) (n : Z) : result Q :=
  if (n =? 0)%Z then Raise ZeroDivisionError else Ok (x / inject_Z n)%Q.

(** [d[k] = v] on a [dict] with string keys. *)
Fixpoint str_dict_set (k : string) (v : Z) (d : list (string * Z))
  : list (string * Z) :=
  match d with
  | [] => [(k, v)]
  | (k', v') :: d' =>
      if String.eqb k k' then (k', v) :: d' else (k', v') :: str_dict_set k v d'
  end.

(** The loop that fills [firmware_counts]. *)
Definition firmware_counts (vs : list Vehicle.t) : list (string * Z) :=
  fold_left
    (fun d v =>
       str_dict_set (Vehicle.firmware_version v)
         (match assoc_find (Vehicle.firmware_version v) d with
          | Some n => n
          | None => 0
          end + 1) d)
    vs [].

(** [a < b] on the tuples [(version, count)]. *)
Definition item_lt (a b : string * Z) : bool :=
  match String.compare (fst a) (fst b) with
  | Lt => true
  | Gt => false
  | Eq => (snd a <? snd b)%Z
  end.

Fixpoint insert (x : string * Z) (l : list (string * Z))
  : list (string * Z) :=
  match l with
  | [] => [x]
  | y :: l' => if item_lt x y then x :: y :: l' else y :: insert x l'
  end.

(** [sorted(items)]: the stable sort by [<]. *)
Definition sorted (l : list (string * Z)) : list (string * Z) :=
  fold_left (fun acc x => insert x acc) l [].

Fixpoint shares (items : list (string * Z)) (n : Z)
  : result (list (string * Z * Q)) :=
  match items with
  | [] => Ok []
  | (version, count) :: items' =>
      (q <- UpdateManager.true_div count n ;;
       rest <- shares items' n ;;
       Ok ((version, count, q * 100)%Q :: rest))%result
  end.

Definition _print_summary (self : t) : result summary :=
  (let n := Z.of_nat (List.length (vehicles self)) in
   rate <- UpdateManager.true_div (telemetry_sent self)
             (telemetry_sent self + upload_errors self) ;;
   let online := count_status Vehicle.ONLINE (vehicles self) in
   let offline := count_status Vehicle.OFFLINE (vehicles self) in
   avg_battery <- float_div (sum_battery (vehicles self)) n ;;
   distribution <- shares (sorted (firmware_counts (vehicles self))) n ;;
   Ok (mk_summary n (telemetry_sent self) (upload_errors self)
         (rate * 100)%Q online offline avg_battery distribution))%result.

(** [run_simulation]: the passes, then the summary of the [finally]
    clause, whose exception, if any, is the one of the call. *)
Definition run_simulation (self : t) (clocks : list (nat -> reading))
  : Rand (result summary * t) :=
  (self <~ iterations self clocks ;;
   Random.ret (_print_summary self, self))%rand.

(** The counts of a firmware listing, added up. *)
Definition sum_counts (d : list (string * Z)) : Z :=
  fold_right Z.add 0 (map snd d).

(** The versions and counts of the lines [Firmware Distribution] of a
    summary. *)
Definition listed (s : summary) : list (string * Z) :=
  map fst (Firmware_distribution s).

(** The strings of [l] are in ascending order. *)
Fixpoint ascending (l : list string) : bool :=
  match l with
  | a :: (b :: _) as l' => String.leb a b && ascending l'
  | _ => true
  end.

End FleetSimulator.

(* ================================================================== *)
(** ** Concrete simulators used by the examples *)

Module FleetSamples.
Import FleetSimulator.

Definition accepting : S3.client := S3.mk_client [] (fun _ => None).

(** A client whose service refuses every call with [IOError]. *)
Definition refusing : S3.client := S3.mk_client [] (fun _ => Some IOError).

Definition vehicle (id : Z) (s : Vehicle.VehicleStatus) (battery : Q)
  : Vehicle.t :=
  Vehicle.mk id "5YJAAAAA5LA000000" "Model-3" 2023 Samples.gps0 "1.2.1"
             battery 90 5000 s Vehicle.WIFI (-70) "2025-09-01T10:00:00"
             true false.

Definition fleet : list Vehicle.t :=
  [ vehicle 1 Vehicle.ONLINE 80;
    vehicle 2 Vehicle.OFFLINE 40;
    Samples.vehicle0 Vehicle.ONLINE ].

(** A simulator before its first pass, and one after some uploads. *)
Definition fresh : t :=
  mk 3 "fleetota-telemetry" "us-east-1" accepting fleet 0 0.

Definition busy : t :=
  mk 3 "fleetota-telemetry" "us-east-1" refusing fleet 5 1.

Definition clock (i : nat) : reading :=
  mk_reading "2025-09-01T10:01:00" "20250901/10"
             (1756720860000 + Z.of_nat i).

Definition later (i : nat) : reading :=
  mk_reading "2025-09-01T10:02:00" "20250901/10"
             (1756720920000 + Z.of_nat i).

End FleetSamples.

(* ================================================================== *)
(** ** The telemetry processor ([lambda_function.py]) *)

Module TelemetryProcessor.
Import CloudWatch.

(** The S3 client as [download_telemetry] sees it: for the bucket and
    the key the event names, the parsed document, or the exception of
    [get_object], of the decoding or of [json.loads]. *)
Definition s3_reader : Type := json -> json -> result json.

(** [j[key]] for a string key. *)
Definition json_getitem (j : json) (key : string) : result json :=
  match j with
  | JObj items =>
      match assoc_find key items with
      | Some v => Ok v
      | None => Raise KeyError
      end
  | _ => Raise TypeError
  end.

(** The values [for x in j] goes through: the elements of a list, the
    keys of a dict, the characters of a string. *)
Definition py_iter (j : json) : result (list json) :=
  match j with
  | JArr l => Ok l
  | JObj items => Ok (map (fun kv : string * json => JStr (fst kv)) items)
  | JStr s =>
      Ok (map (fun c : ascii => JStr (String c EmptyString))
              (list_ascii_of_string s))
  | _ => Raise TypeError
  end.

(** [abs(j)] *)
Definition py_abs (j : json) : result json :=
  match j with
  | JBool b => Ok (JInt (if b then 1 else 0))
  | JInt n => Ok (JInt (Z.abs n))
  | JFloat x => Ok (JFloat (if Qlt_le_dec x 0 then (- x)%Q else x))
  | _ => Raise TypeError
  end.

(** The truth value of [j]. *)
Definition truthy (j : json) : bool :=
  match j with
  | JNull => false
  | JBool b => b
  | JInt n => negb (n =? 0)%Z
  | JFloat x => negb (Qeq_bool x 0)
  | JStr s => negb (String.eqb s EmptyString)
  | JArr l => match l with [] => false | _ :: _ => true end
  | JObj items => match items with [] => false | _ :: _ => true end
  end.

(** [str(j)]; [repr] gives the text of a float, a list and a dict. *)
Definition py_str (repr : json -> string) (j : json) : string :=
  match j with
  | JNull => "None"
  | JBool true => "True"
  | JBool false => "False"
  | JInt n => str_of_int n
  | JStr s => s
  | _ => repr j
  end.

Definition download_telemetry (s3 : s3_reader) (bucket_name object_key : json)
  : result json :=
  (telemetry_data <- s3 bucket_name object_key ;;
   _ <- json_get telemetry_data "vehicle_id" JNull ;;
   Ok telemetry_data)%result.

(** The dict [metrics] of [process_telemetry]. *)
Record metrics : Type := mk_metrics {
  vehicle_id : json;
  vin : json;
  timestamp : json;
  battery_percent : json;
  battery_health : json;
  speed_kmh : json;
  latitude : json;
  longitude : json;
  signal_strength : json;
  connected : json;
  status : json;
  firmware_version : json;
  update_available : json
}.

Definition process_telemetry (telemetry_data : json) : result metrics :=
  (vehicle_id <- json_get telemetry_data "vehicle_id" JNull ;;
   vin <- json_get telemetry_data "vin" JNull ;;
   timestamp <- json_get telemetry_data "timestamp" JNull ;;
   battery <- json_get telemetry_data "battery" (JObj []) ;;
   battery_percent <- json_get battery "percent" (JInt 0) ;;
   battery <- json_get telemetry_data "battery" (JObj []) ;;
   battery_health <- json_get battery "health" (JInt 0) ;;
   gps <- json_get telemetry_data "gps" (JObj []) ;;
   speed_kmh <- json_get gps "speed_kmh" (JInt 0) ;;
   gps <- json_get telemetry_data "gps" (JObj []) ;;
   latitude <- json_get gps "latitude" JNull ;;
   gps <- json_get telemetry_data "gps" (JObj []) ;;
   longitude <- json_get gps "longitude" JNull ;;
   connectivity <- json_get telemetry_data "connectivity" (JObj []) ;;
   signal_strength <- json_get connectivity "signal_strength_dbm" (JInt 0) ;;
   connectivity <- json_get telemetry_data "connectivity" (JObj []) ;;
   connected <- json_get connectivity "connected" (JBool false) ;;
   status <- json_get telemetry_data "status" (JStr "unknown") ;;
   firmware <- json_get telemetry_data "firmware" (JObj []) ;;
   firmware_version <- json_get firmware "current_version" (JStr "unknown") ;;
   firmware <- json_get telemetry_data "firmware" (JObj []) ;;
   update_available <- json_get firmware "update_available" (JBool false) ;;
   Ok (mk_metrics vehicle_id vin timestamp battery_percent battery_health
         speed_kmh latitude longitude signal_strength connected status
         firmware_version update_available))%result.

Section Handler.
Variable repr : json -> string.    (* the text of floats, lists and dicts *)
Variable exn_text : exn -> string. (* [str(e)] *)
Variable s3 : s3_reader.

(** The list [metric_data] of [publish_metrics]; [now] is what
    [datetime.now()] returns. *)
Definition metric_data (now : string) (m : metrics) : result (list metric) :=
  (let id := JStr (py_str repr (vehicle_id m)) in
   strength <- py_abs (signal_strength m) ;;
   Ok [ mk_metric "BatteryPercent" (battery_percent m) "Percent" now
          [("VehicleID", id); ("VIN", vin m)];
        mk_metric "BatteryHealth" (battery_health m) "Percent" now
          [("VehicleID", id)];
        mk_metric "VehicleSpeed" (speed_kmh m) "None" now
          [("VehicleID", id)];
        mk_metric "SignalStrength" strength "None" now
          [("VehicleID", id)];
        mk_metric "VehicleOnline"
          (JInt (if py_eq (status m) (JStr "online") then 1 else 0))
          "Count" now [("Fleet", JStr "All")];
        mk_metric "UpdateAvailable"
          (JInt (if truthy (update_available m) then 1 else 0))
          "Count" now [("VehicleID", id)] ])%result.

Definition publish_metrics (cloudwatch_client : client) (now : string)
  (m : metrics) : result unit * client :=
  match metric_data now m with
  | Ok data => put_metric_data cloudwatch_client "FleetOTA" data
  | Raise e => (Raise e, cloudwatch_client)
  end.

(** The statements of the loop body before [publish_metrics]. *)
Definition read_record (record : json) : result (json * metrics) :=
  (s3_part <- json_getitem record "s3" ;;
   bucket <- json_getitem s3_part "bucket" ;;
   bucket_name <- json_getitem bucket "name" ;;
   s3_part <- json_getitem record "s3" ;;
   object <- json_getitem s3_part "object" ;;
   object_key <- json_getitem object "key" ;;
   telemetry_data <- download_telemetry s3 bucket_name object_key ;;
   m <- process_telemetry telemetry_data ;;
   Ok (telemetry_data, m))%result.

(** The body of the loop of [lambda_handler]. *)
Definition handle_record (cloudwatch_client : client) (now : string)
  (record : json) : result unit * client :=
  match read_record record with
  | Raise e => (Raise e, cloudwatch_client)
  | Ok (telemetry_data, m) =>
      match publish_metrics cloudwatch_client now m with
      | (Raise e, c) => (Raise e, c)
      | (Ok _, c) =>
          (match json_get telemetry_data "vehicle_id" JNull with
           | Ok _ => Ok tt
           | Raise e => Raise e
           end, c)
      end
  end.

(** The loop of [lambda_handler] from the record of index [i] on;
    [clock i] is what [datetime.now()] returns for that record. *)
Fixpoint for_records (records : list json) (clock : nat -> string) (i : nat)
  (cloudwatch_client : client) : result unit * client :=
  match records with
  | [] => (Ok tt, cloudwatch_client)
  | record :: records' =>
      match handle_record cloudwatch_client (clock i) record with
      | (Ok _, c) => for_records records' clock (S i) c
      | (Raise e, c) => (Raise e, c)
      end
  end.

(** The response; [body] is the value handed to [json.dumps]. *)
Record response : Type := mk_response {
  statusCode : Z;
  body : string
}.

(** The records [lambda_handler] goes through. *)
Definition records_of (event : json) : result (list json) :=
  (records <- json_getitem event "Records" ;; py_iter records)%result.

Definition lambda_handler (cloudwatch_client : client)
  (clock : nat -> string) (event : json) : response * client :=
  let attempt :=
    match records_of event with
    | Ok records => for_records records clock 0 cloudwatch_client
    | Raise e => (Raise e, cloudwatch_client)
    end in
  match fst attempt with
  | Ok _ => (mk_response 200 "Telemetry processed successfully", snd attempt)
  | Raise e => (mk_response 500 ("Error: " ++ exn_text e), snd attempt)
  end.

(** A record the loop body can take as far as [put_metric_data]. *)
Definition readable (record : json) : bool :=
  match read_record record with
  | Ok (_, m) =>
      match py_abs (signal_strength m) with
      | Ok _ => true
      | Raise _ => false
      end
  | Raise _ => false
  end.

(** A request of the telemetry processor: six metrics in the namespace
    [FleetOTA]. *)
Definition six_metrics (request : string * list metric) : Prop :=
  fst request = "FleetOTA" /\ List.length (snd request) = 6%nat.

End Handler.

End TelemetryProcessor.

(* ================================================================== *)
(** ** Concrete events used by the examples *)

Module EventSamples.
Import TelemetryProcessor.

Definition record (key : string) : json :=
  JObj [("s3", JObj [ ("bucket", JObj [("name", JStr "fleetota-telemetry")]);
                      ("object", JObj [("key", JStr key)]) ])].

Definition event (keys : list string) : json :=
  JObj [("Records", JArr (map record keys))].

(** A snapshot whose signal strength is [null]. *)
Definition silent : json :=
  JObj [ ("vehicle_id", JInt 9);
         ("connectivity", JObj [("signal_strength_dbm", JNull)]) ].

Definition reader : s3_reader :=
  fun _ object_key =>
    if py_eq object_key (JStr "a") then Ok Samples.snap_a
    else if py_eq object_key (JStr "silent") then Ok silent
    else Raise IOError.

Definition text_of (e : exn) : string :=
  match e with
  | AttributeError => "AttributeError"
  | TypeError => "TypeError"
  | ValueError => "ValueError"
  | IndexError => "IndexError"
  | KeyError => "KeyError"
  | ZeroDivisionError => "ZeroDivisionError"
  | IOError => "IOError"
  end.

Definition run (keys : list string) : response * CloudWatch.client :=
  lambda_handler (fun _ => "?") text_of reader ReportSamples.quiet
    (fun _ => "2025-09-01T10:06:00") (event keys).

End EventSamples.

(* ================================================================== *)
(** ** The report, read against the batch *)

Module BatchReport.
Import UpdateManager.

(** The vehicle of identifier [id] is listed in the bucket [b] of the
    report: the identifier list of [b] holds a value equal to [id], as
    [==] has it. *)
Definition listed (fs : fleet_status) (b : bucket) (id : json) : Prop :=
  exists key : json, In key (bucket_members fs b) /\ py_eq key id = true.

(** Every document of the batch that is an object has the fields the
    classification reads absent or of the type the snapshot format
    gives them. *)
Definition typed_batch (s3 : s3_store) (bucket_name : string)
  (files : list string) : Prop :=
  forall t : json,
    In t (snapshots s3 bucket_name files) ->
    is_object t = true -> fields_typed t = true.

End BatchReport.

(* ================================================================== *)
(** ** Partial snapshots used by the examples *)

Module PartialSamples.

(** A snapshot without status, firmware and timestamp, whose battery
    percent is a string. *)
Definition worded_battery : json :=
  JObj [ ("vehicle_id", JInt 4);
         ("battery", JObj [("percent", JStr "full")]) ].

(** A snapshot without firmware, whose battery is [null]. *)
Definition null_battery : json :=
  JObj [ ("vehicle_id", JInt 5);
         ("timestamp", JStr "2025-09-01T10:00:00");
         ("status", JStr "online");
         ("battery", JNull) ].

(** [Samples.store] with [null_battery] under the key [n]. *)
Definition store : UpdateManager.s3_store :=
  fun bucket_name object_key =>
    if String.eqb object_key "n" then Ok null_battery
    else Samples.store bucket_name object_key.

End PartialSamples.

(* ================================================================== *)
(** * Properties *)

(** ** Check digit *)

Section CheckDigit.
Import VINGenerator.

Lemma list_index_weights (i : nat) :
  (i < 17)%nat -> list_index VIN_WEIGHTS i = Ok (nth i VIN_WEIGHTS 0).
Proof.
  intros Hi. unfold list_index.
  do 17 (destruct i as [|i]; [reflexivity|]). lia.
Qed.

Lemma loop_value (c : ascii) :
  implb (isdigit c) (is_ascii_digit c) = true ->
  (if isdigit c then int_of_char c
   else Ok (translit_get VIN_TRANSLITERATION c 0)) = Ok (char_value c).
Proof.
  intros H. unfold char_value, int_of_char.
  fold (is_ascii_digit c).
  destruct (isdigit c) eqn:Hd; simpl in H.
  - now rewrite H.
  - assert (Ha : is_ascii_digit c = false).
    { unfold isdigit in Hd. unfold is_ascii_digit.
      repeat (apply orb_false_iff in Hd; destruct Hd as [Hd _]). exact Hd. }
    rewrite Ha. destruct (in_table c) eqn:Ht; [reflexivity|].
    f_equal. unfold in_table in Ht. simpl in Ht.
    repeat (apply orb_false_iff in Ht; destruct Ht as [?E Ht]).
    simpl. now rewrite E, E0, E1, E2, E3, E4, E5, E6, E7, E8, E9, E10, E11,
      E12, E13, E14, E15, E16, E17, E18, E19, E20, E21.
Qed.

Lemma check_digit_loop_sum (s : string) :
  forall (i : nat) (total : Z),
    plain_digits s = true ->
    (i + String.length s <= 17)%nat ->
    check_digit_loop i s total = Ok (total + weighted_sum i s).
Proof.
  induction s as [|c s IH]; intros i total Hp Hlen.
  - simpl. now rewrite Z.add_0_r.
  - unfold plain_digits in Hp. simpl in Hp.
    apply andb_true_iff in Hp. destruct Hp as [Hc Hs].
    simpl in Hlen. cbn [check_digit_loop].
    rewrite (loop_value c Hc). cbn [Py.bind].
    rewrite list_index_weights by lia. cbn [Py.bind].
    rewrite IH; [cbn [weighted_sum]; f_equal; ring | exact Hs | lia].
Qed.

Lemma digit_char_cases (m : Z) :
  0 <= m < 11 ->
  In (if (m =? 10)%Z then "X" else str_of_int m) CHECK_CHARS.
Proof.
  intros Hm.
  assert (H : m = 0 \/ m = 1 \/ m = 2 \/ m = 3 \/ m = 4 \/ m = 5 \/ m = 6
              \/ m = 7 \/ m = 8 \/ m = 9 \/ m = 10) by lia.
  repeat (destruct H as [H|H]; [subst m; vm_compute; tauto|]).
  subst m; vm_compute; tauto.
Qed.

Lemma check_chars_length (d : string) :
  In d CHECK_CHARS -> String.length d = 1%nat.
Proof.
  unfold CHECK_CHARS. simpl.
  intros H. repeat (destruct H as [H|H]; [now subst d|]). contradiction.
Qed.

Lemma calculate_check_digit_plain (s : string) :
  plain_digits s = true ->
  (String.length s <= 17)%nat ->
  calculate_check_digit s =
    Ok (let m := weighted_sum 0 s mod 11 in
        if (m =? 10)%Z then "X" else str_of_int m).
Proof.
  intros Hp Hlen. unfold calculate_check_digit.
  rewrite check_digit_loop_sum by (auto; simpl; lia). reflexivity.
Qed.

(** C9, as amended.  On a string of at most 17 characters in which
    [isdigit] accepts nothing but [0]..[9], [calculate_check_digit]
    returns: the result is the weighted sum modulo 11 of the character
    values, where a character that is neither a digit nor a key of the
    transliteration table has value 0, and it is one character of
    [0]..[9], [X]. *)
Theorem calculate_check_digit_total (s : string) :
  plain_digits s = true ->
  (String.length s <= 17)%nat ->
  exists d : string,
    calculate_check_digit s = Ok d
    /\ d = (let m := weighted_sum 0 s mod 11 in
            if (m =? 10)%Z then "X" else str_of_int m)
    /\ In d CHECK_CHARS
    /\ String.length d = 1%nat
    /\ (forall c : ascii,
           is_ascii_digit c = false -> in_table c = false ->
           char_value c = 0).
Proof.
  intros Hp Hlen. eexists. split; [|split; [reflexivity|]].
  - now apply calculate_check_digit_plain.
  - assert (Hin : In (let m := weighted_sum 0 s mod 11 in
                      if (m =? 10)%Z then "X" else str_of_int m)
                     CHECK_CHARS).
    { apply digit_char_cases. apply Z.mod_pos_bound. lia. }
    split; [exact Hin|]. split; [now apply check_chars_length|].
    intros c Hd Ht. unfold char_value. now rewrite Hd, Ht.
Qed.

Lemma calculate_check_digit_total_witness :
  exists d : string,
    calculate_check_digit "5YJSA1E14MF12345" = Ok d
    /\ d = (let m := weighted_sum 0 "5YJSA1E14MF12345" mod 11 in
            if (m =? 10)%Z then "X" else str_of_int m)
    /\ In d CHECK_CHARS
    /\ String.length d = 1%nat
    /\ (forall c : ascii,
           is_ascii_digit c = false -> in_table c = false ->
           char_value c = 0).
Proof.
  apply (calculate_check_digit_total "5YJSA1E14MF12345").
  - reflexivity.
  - simpl. lia.
Defined.

(** C9, as stated, fails: the one-character string made of the
    superscript two is no longer than 17, its character is neither an
    ASCII digit nor a key of the table, and the call raises
    [ValueError]. *)
Lemma calculate_check_digit_superscript :
  let s := String superscript_two "" in
  (String.length s <= 17)%nat
  /\ is_ascii_digit superscript_two = false
  /\ in_table superscript_two = false
  /\ calculate_check_digit s = Raise ValueError.
Proof. vm_compute. repeat split; try reflexivity. lia. Qed.

End CheckDigit.

(** ** Identifier generation *)

Section Generate.
Import VINGenerator.

(** C2 fails on the code.  With every draw equal to 0 the generated
    identifier for TESLA is [5YJAAAAA5LA000000]: position 9 holds [5],
    while the check digit of the sixteen other characters is [3].  The
    digit stored was computed on fifteen characters only, the model-year
    character left out and the following ones shifted by one weight. *)
Theorem generate_check_digit_mismatch :
  fst (generate "TESLA" (const_rng 0)) = Ok "5YJAAAAA5LA000000"
  /\ String.get 8 "5YJAAAAA5LA000000" = Some "5"%char
  /\ recompute_check_digit "5YJAAAAA5LA000000" = Ok "3"
  /\ calculate_check_digit ("5YJAAAAA" ++ "A000000") = Ok "5".
Proof. vm_compute. repeat split; reflexivity. Qed.

Lemma randbelow_range (n : Z) (g : rng) :
  unit_tape g -> 0 < n ->
  0 <= fst (randbelow n g) < n.
Proof.
  intros Hg Hn. unfold randbelow, Random.bind, random, Random.ret.
  cbn [fst]. destruct (Hg (pos g)) as [H0 H1].
  set (u := tape g (pos g)) in *.
  assert (Hn' : (0 < inject_Z n)%Q).
  { change (inject_Z 0 < inject_Z n)%Q. rewrite <- Zlt_Qlt. exact Hn. }
  split.
  - rewrite <- (Qfloor_Z 0). apply Qfloor_resp_le.
    apply Qmult_le_0_compat; lra.
  - rewrite Zlt_Qlt.
    apply Qle_lt_trans with (u * inject_Z n)%Q; [apply Qfloor_le|].
    setoid_replace (inject_Z n) with (1 * inject_Z n)%Q at 2 by ring.
    apply Qmult_lt_compat_r; assumption.
Qed.

Lemma get_char_in (s : string) :
  forall k : nat,
    (k < String.length s)%nat ->
    exists c, String.get k s = Some c /\ char_in c s = true.
Proof.
  induction s as [|c s IH]; intros k Hk; simpl in Hk; [lia|].
  destruct k as [|k]; simpl.
  - exists c. split; [reflexivity|]. now rewrite Ascii.eqb_refl.
  - destruct (IH k) as (d & Hd & Hin); [lia|].
    exists d. split; [exact Hd|]. rewrite Hin. apply orb_true_r.
Qed.

Lemma choice_char_in (s : string) (g : rng) :
  unit_tape g -> (0 < String.length s)%nat ->
  char_in (fst (choice_char s g)) s = true
  /\ tape (snd (choice_char s g)) = tape g.
Proof.
  intros Hg Hs. split; [|reflexivity].
  pose proof (randbelow_range (Z.of_nat (String.length s)) g Hg) as Hr.
  unfold choice_char, Random.bind at 1.
  destruct (randbelow (Z.of_nat (String.length s)) g) as [k g1].
  cbn [fst] in *. unfold Random.ret. cbn [fst].
  destruct (get_char_in s (Z.to_nat k)) as (c & Hc & Hin); [lia|].
  now rewrite Hc.
Qed.

Lemma forallb_weaken (p q : ascii -> bool) (s : string) :
  (forall c, p c = true -> q c = true) ->
  string_forallb p s = true -> string_forallb q s = true.
Proof.
  intros Hpq. induction s as [|c s IH]; simpl; [reflexivity|].
  intros H. apply andb_true_iff in H. destruct H as [H1 H2].
  now rewrite (Hpq c H1), IH.
Qed.

Lemma forallb_append (p : ascii -> bool) (a b : string) :
  string_forallb p (a ++ b)
  = string_forallb p a && string_forallb p b.
Proof.
  induction a as [|c a IH]; simpl; [reflexivity|].
  now rewrite IH, andb_assoc.
Qed.

Lemma forallb_slice_to (p : ascii -> bool) (s : string) :
  forall n, string_forallb p s = true ->
            string_forallb p (slice_to n s) = true.
Proof.
  induction s as [|c s IH]; intros [|n]; simpl; try reflexivity.
  intros H. apply andb_true_iff in H. destruct H as [H1 H2].
  now rewrite H1, IH.
Qed.

Lemma forallb_slice_from (p : ascii -> bool) (s : string) :
  forall n, string_forallb p s = true ->
            string_forallb p (slice_from n s) = true.
Proof.
  induction s as [|c s IH]; intros [|n]; simpl; try reflexivity.
  - now intros ->.
  - intros H. apply andb_true_iff in H. destruct H as [H1 H2]. now apply IH.
Qed.

Lemma length_append (a b : string) :
  String.length (a ++ b) = (String.length a + String.length b)%nat.
Proof. induction a as [|c a IH]; simpl; [reflexivity | now rewrite IH]. Qed.

Lemma length_slice_to (s : string) :
  forall n, String.length (slice_to n s) = Nat.min n (String.length s).
Proof.
  induction s as [|c s IH]; intros [|n]; simpl; try reflexivity.
  now rewrite IH.
Qed.

Lemma length_slice_from (s : string) :
  forall n, String.length (slice_from n s) = (String.length s - n)%nat.
Proof.
  induction s as [|c s IH]; intros [|n]; simpl; try reflexivity.
  now rewrite IH.
Qed.

Ltac bind_unfold :=
  cbv beta iota zeta delta [Random.bind Random.ret randint].

Lemma choices_str_in (s : string) (k : nat) :
  (0 < String.length s)%nat ->
  forall g : rng,
    unit_tape g ->
    string_forallb (fun c => char_in c s) (fst (choices_str s k g)) = true
    /\ String.length (fst (choices_str s k g)) = k
    /\ tape (snd (choices_str s k g)) = tape g.
Proof.
  intros Hs. induction k as [|k IH]; intros g Hg; [now repeat split|].
  cbn [choices_str]. bind_unfold.
  destruct (choice_char_in s g Hg Hs) as [Hc Ht].
  destruct (choice_char s g) as [c g1]. cbn [fst snd] in Hc, Ht.
  assert (Hg1 : unit_tape g1) by (intros n; rewrite Ht; apply Hg).
  destruct (IH g1 Hg1) as (Hf & Hl & Ht').
  destruct (choices_str s k g1) as [r g2]. cbn [fst snd] in *.
  cbn [fst snd string_forallb String.length].
  rewrite Hc, Hf, Hl. repeat split. congruence.
Qed.

Lemma digit_in_alphabet (d : Z) :
  0 <= d <= 9 ->
  in_alphabet (str_of_int d) = true /\ String.length (str_of_int d) = 1%nat.
Proof.
  intros Hd.
  assert (H : d = 0 \/ d = 1 \/ d = 2 \/ d = 3 \/ d = 4 \/ d = 5 \/ d = 6
              \/ d = 7 \/ d = 8 \/ d = 9) by lia.
  repeat (destruct H as [H|H]; [subst d; now vm_compute|]).
  subst d; now vm_compute.
Qed.

Lemma serial_digits_in (n : nat) :
  forall g : rng,
    unit_tape g ->
    in_alphabet (fst (serial_digits n g)) = true
    /\ String.length (fst (serial_digits n g)) = n
    /\ tape (snd (serial_digits n g)) = tape g.
Proof.
  induction n as [|n IH]; intros g Hg; [now repeat split|].
  cbn [serial_digits]. bind_unfold.
  pose proof (randbelow_range (9 - 0 + 1) g Hg) as Hr.
  assert (Ht : tape (snd (randbelow (9 - 0 + 1) g)) = tape g)
    by reflexivity.
  destruct (randbelow (9 - 0 + 1) g) as [k g1]. cbn [fst snd] in Hr, Ht.
  assert (Hg1 : unit_tape g1) by (intros m; rewrite Ht; apply Hg).
  destruct (IH g1 Hg1) as (Hf & Hl & Ht').
  destruct (serial_digits n g1) as [r g2]. cbn [fst snd] in *.
  destruct (digit_in_alphabet (0 + k)) as [Hd Hdl]; [lia|].
  unfold in_alphabet in *. rewrite forallb_append, Hd, Hf.
  rewrite length_append, Hdl, Hl. repeat split. congruence.
Qed.

Lemma wmi_in_alphabet (manufacturer : string) :
  in_alphabet (wmi_get WMI_CODES manufacturer "5YJ") = true
  /\ String.length (wmi_get WMI_CODES manufacturer "5YJ") = 3%nat.
Proof.
  unfold WMI_CODES. cbn [wmi_get].
  repeat match goal with
         | |- context [String.eqb manufacturer ?k] =>
             destruct (String.eqb manufacturer k)
         end; now vm_compute.
Qed.

Lemma alphabet_char (c : ascii) :
  char_in c "ABCDEFGHJKLMNPRSTUVWXYZ0123456789" = true ->
  negb (char_in c "IOQ") = true
  /\ implb (isdigit c) (is_ascii_digit c) = true.
Proof.
  cbn [char_in]. intros H.
  repeat (apply orb_true_iff in H;
          destruct H as [H|H];
          [apply Ascii.eqb_eq in H; subst c; now vm_compute|]).
  discriminate.
Qed.

Lemma check_char_in_alphabet (d : string) :
  In d CHECK_CHARS -> in_alphabet d = true.
Proof.
  unfold CHECK_CHARS. simpl.
  intros H. repeat (destruct H as [H|H]; [now subst d|]). contradiction.
Qed.

(** The part of C2 that holds: for every manufacturer and all draws of
    [[0, 1)], [generate] returns 17 characters of the generator's
    alphabet, none of them [I], [O] or [Q]. *)
Lemma generate_shape (manufacturer : string) (g : rng) :
  unit_tape g ->
  exists vin : string,
    fst (generate manufacturer g) = Ok vin
    /\ String.length vin = 17%nat
    /\ in_alphabet vin = true
    /\ no_IOQ vin = true.
Proof.
  intros Hg. unfold generate. bind_unfold.
  destruct (wmi_in_alphabet manufacturer) as [Hw Hwl].
  set (wmi := wmi_get WMI_CODES manufacturer "5YJ") in *.
  destruct (choices_str_in "ABCDEFGHJKLMNPRSTUVWXYZ0123456789" 5
              ltac:(simpl; lia) g Hg) as (Hv & Hvl & Ht1).
  destruct (choices_str "ABCDEFGHJKLMNPRSTUVWXYZ0123456789" 5 g)
    as [vds g1]. cbn [fst snd] in Hv, Hvl, Ht1.
  assert (Hg1 : unit_tape g1) by (intros n; rewrite Ht1; apply Hg).
  destruct (choice_char_in "LMNPRSTUVWXYZ" g1 Hg1 ltac:(simpl; lia))
    as [Hy Ht2].
  destruct (choice_char "LMNPRSTUVWXYZ" g1) as [y g2].
  cbn [fst snd] in Hy, Ht2.
  assert (Hg2 : unit_tape g2) by (intros n; rewrite Ht2; apply Hg1).
  destruct (choice_char_in "ABCDEFGHJKLMNPRSTUVWXYZ" g2 Hg2
              ltac:(simpl; lia)) as [Hp Ht3].
  destruct (choice_char "ABCDEFGHJKLMNPRSTUVWXYZ" g2) as [pc g3].
  cbn [fst snd] in Hp, Ht3.
  assert (Hg3 : unit_tape g3) by (intros n; rewrite Ht3; apply Hg2).
  destruct (serial_digits_in 6 g3 Hg3) as (Hs & Hsl & _).
  destruct (serial_digits 6 g3) as [serial g4]. cbn [fst snd] in Hs, Hsl.
  cbn [fst].
  set (v := wmi ++ vds ++ String y "" ++ String pc "" ++ serial).
  assert (Hyin : char_in y "ABCDEFGHJKLMNPRSTUVWXYZ0123456789" = true).
  { cbn [char_in] in Hy.
    repeat (apply orb_true_iff in Hy;
            destruct Hy as [Hy|Hy];
            [apply Ascii.eqb_eq in Hy; subst y; now vm_compute|]).
    discriminate. }
  assert (Hpin : char_in pc "ABCDEFGHJKLMNPRSTUVWXYZ0123456789" = true).
  { cbn [char_in] in Hp.
    repeat (apply orb_true_iff in Hp;
            destruct Hp as [Hp|Hp];
            [apply Ascii.eqb_eq in Hp; subst pc; now vm_compute|]).
    discriminate. }
  assert (Hva : in_alphabet v = true).
  { unfold in_alphabet in *. subst v.
    rewrite !forallb_append, Hw, Hv, Hs. cbn [string_forallb].
    now rewrite Hyin, Hpin. }
  assert (Hvlen : String.length v = 16%nat).
  { subst v. rewrite !length_append, Hwl, Hvl, Hsl. reflexivity. }
  set (body := slice_to 8 v ++ slice_from 9 v).
  assert (Hba : in_alphabet body = true).
  { unfold in_alphabet in *. subst body. rewrite forallb_append.
    now rewrite forallb_slice_to, forallb_slice_from. }
  assert (Hbl : (String.length body <= 17)%nat).
  { subst body. rewrite length_append, length_slice_to, length_slice_from.
    lia. }
  assert (Hbp : plain_digits body = true).
  { unfold plain_digits. revert Hba. unfold in_alphabet.
    apply forallb_weaken. intros c Hc. now apply alphabet_char. }
  rewrite (calculate_check_digit_plain body Hbp Hbl). cbn [Py.bind].
  set (cd := let m := weighted_sum 0 body mod 11 in
             if (m =? 10)%Z then "X" else str_of_int m).
  assert (Hcd : In cd CHECK_CHARS).
  { apply digit_char_cases. apply Z.mod_pos_bound. lia. }
  assert (Hfa : in_alphabet (slice_to 8 v ++ cd ++ slice_from 8 v) = true).
  { pose proof (check_char_in_alphabet cd Hcd) as Hc.
    unfold in_alphabet in *. rewrite !forallb_append.
    rewrite forallb_slice_to, forallb_slice_from by assumption.
    now rewrite Hc. }
  eexists. split; [reflexivity|]. split; [|split].
  - rewrite !length_append, length_slice_to, length_slice_from.
    rewrite (check_chars_length cd Hcd). lia.
  - exact Hfa.
  - unfold no_IOQ. revert Hfa. unfold in_alphabet.
    apply forallb_weaken. intros c Hc. now apply alphabet_char.
Qed.

Lemma choices_str_tape (s : string) (k : nat) :
  forall g : rng, tape (snd (choices_str s k g)) = tape g.
Proof.
  induction k as [|k IH]; intros g; [reflexivity|].
  cbn [choices_str]. bind_unfold.
  assert (Ht : tape (snd (choice_char s g)) = tape g) by reflexivity.
  destruct (choice_char s g) as [c g1]. cbn [snd] in Ht.
  specialize (IH g1). destruct (choices_str s k g1) as [r g2].
  cbn [snd] in *. congruence.
Qed.

Lemma serial_digits_tape (n : nat) :
  forall g : rng, tape (snd (serial_digits n g)) = tape g.
Proof.
  induction n as [|n IH]; intros g; [reflexivity|].
  cbn [serial_digits]. bind_unfold.
  assert (Ht : tape (snd (randbelow (9 - 0 + 1) g)) = tape g)
    by reflexivity.
  destruct (randbelow (9 - 0 + 1) g) as [k g1]. cbn [snd] in Ht.
  specialize (IH g1). destruct (serial_digits n g1) as [r g2].
  cbn [snd] in *. congruence.
Qed.

Lemma generate_tape (manufacturer : string) (g : rng) :
  tape (snd (generate manufacturer g)) = tape g.
Proof.
  unfold generate. bind_unfold.
  pose proof (choices_str_tape "ABCDEFGHJKLMNPRSTUVWXYZ0123456789" 5 g)
    as H1.
  destruct (choices_str "ABCDEFGHJKLMNPRSTUVWXYZ0123456789" 5 g)
    as [vds g1]. cbn [snd] in H1.
  assert (H2 : tape (snd (choice_char "LMNPRSTUVWXYZ" g1)) = tape g1)
    by reflexivity.
  destruct (choice_char "LMNPRSTUVWXYZ" g1) as [y g2]. cbn [snd] in H2.
  assert (H3 : tape (snd (choice_char "ABCDEFGHJKLMNPRSTUVWXYZ" g2))
               = tape g2) by reflexivity.
  destruct (choice_char "ABCDEFGHJKLMNPRSTUVWXYZ" g2) as [pc g3].
  cbn [snd] in H3.
  pose proof (serial_digits_tape 6 g3) as H4.
  destruct (serial_digits 6 g3) as [serial g4]. cbn [snd] in *.
  congruence.
Qed.

End Generate.

(** ** Movement model *)

Section Movement.
Import GPSSimulator.

Lemma clamp_bounds (lo hi x : Q) :
  (lo <= hi)%Q ->
  (lo <= max_Q lo (min_Q hi x) /\ max_Q lo (min_Q hi x) <= hi)%Q.
Proof.
  intros H. unfold max_Q, min_Q.
  destruct (Qlt_le_dec x hi) as [H1|H1];
    [destruct (Qlt_le_dec lo x) | destruct (Qlt_le_dec lo hi)];
    split; lra.
Qed.

Lemma update_position_step (self : t) (e : Q) (g : rng) :
  let r := fst (update_position self e g) in
  in_bounds (snd r)
  /\ fst r = (round (latitude (snd r)) 6, round (longitude (snd r)) 6).
Proof.
  unfold update_position, Random.bind, uniform, random, Random.ret.
  cbn [fst snd latitude longitude speed_kmh]. split; [|reflexivity].
  unfold in_bounds. cbn [latitude longitude speed_kmh].
  pose proof (clamp_bounds (-85) 85) as Hlat.
  pose proof (clamp_bounds (-180) 180) as Hlon.
  pose proof (clamp_bounds 0 120) as Hsp.
  repeat split;
    first [ apply Hlat; lra | apply Hlon; lra | apply Hsp; lra ].
Qed.

(** C6.  Whatever the simulator, the elapsed times and the draws, every
    call of a sequence of [update_position] leaves a latitude in
    [-85, 85], a longitude in [-180, 180] and a speed in [0, 120], and
    returns that latitude and that longitude rounded to 6 decimals. *)
Theorem update_position_bounds (elapsed : list Q) :
  forall (self : t) (g : rng),
    Forall (fun r : (Q * Q) * t =>
              in_bounds (snd r)
              /\ fst r = (round (latitude (snd r)) 6,
                          round (longitude (snd r)) 6))
           (fst (update_trace self elapsed g)).
Proof.
  induction elapsed as [|e elapsed IH]; intros self g.
  - constructor.
  - cbn [update_trace]. unfold Random.bind.
    pose proof (update_position_step self e g) as Hstep.
    destruct (update_position self e g) as [r g1]. cbn [fst] in Hstep.
    specialize (IH (snd r) g1).
    destruct (update_trace (snd r) elapsed g1) as [rest g2].
    cbn [fst] in IH. unfold Random.ret. cbn [fst].
    constructor; assumption.
Qed.

End Movement.

(** ** Vehicle state machine *)

Section VehicleTicks.
Import Vehicle.

Ltac rand_unfold :=
  cbv beta iota zeta
      delta [Random.bind Random.ret uniform randint randbelow choice random].

Lemma update_position_tape (self : GPSSimulator.t) (e : Q) (g : rng) :
  tape (snd (GPSSimulator.update_position self e g)) = tape g.
Proof. reflexivity. Qed.

Lemma simulate_battery_drain_ok (self : t) (e : Q) (g : rng) :
  unit_tape g -> battery_ok self -> (0 <= e)%Q ->
  battery_ok (fst (simulate_battery_drain self e g))
  /\ tape (snd (simulate_battery_drain self e g)) = tape g
  /\ status (fst (simulate_battery_drain self e g)) = status self.
Proof.
  intros Hg [Hlo Hhi] He. unfold simulate_battery_drain.
  destruct (status_eqb (status self) ONLINE); [|now repeat split].
  rand_unfold.
  cbn [battery_percent set_battery_percent tape pos fst snd].
  set (r := (0.1 + (0.5 - 0.1) * tape g (pos g))%Q).
  assert (Hd : (0 <= r * (e / 60))%Q).
  { apply Qmult_le_0_compat.
    - subst r. destruct (Hg (pos g)). lra.
    - apply Qle_shift_div_l; lra. }
  set (d := (r * (e / 60))%Q) in *.
  assert (Hb : (5 <= max_Q 5 (battery_percent self - d)
                /\ max_Q 5 (battery_percent self - d) <= 100)%Q).
  { unfold max_Q. destruct (Qlt_le_dec 5 (battery_percent self - d)); lra. }
  set (b := max_Q 5 (battery_percent self - d)) in *.
  unfold battery_ok.
  destruct (Qlt_le_dec b 30) as [Hlow|Hlow];
    [|cbn [battery_percent set_battery_percent tape pos fst snd];
      split; [exact Hb | split; reflexivity]].
  cbn [tape pos].
  destruct (Qlt_le_dec (tape g (S (pos g))) 0.1);
    cbn [battery_percent set_battery_percent tape pos fst snd];
    [|split; [exact Hb | split; reflexivity]].
  destruct (Hg (S (S (pos g)))).
  unfold min_Q.
  destruct (Qlt_le_dec (b + (10 + (30 - 10) * tape g (S (S (pos g))))) 100);
    (split; [split; lra | split; reflexivity]).
Qed.

Lemma generate_telemetry_ok (self : t) (now : string) (g : rng) :
  unit_tape g -> battery_ok self ->
  battery_ok (snd (fst (generate_telemetry self now g)))
  /\ tape (snd (generate_telemetry self now g)) = tape g.
Proof.
  intros Hg Hb. unfold generate_telemetry. rand_unfold.
  destruct (GPSSimulator.update_position (gps self) 60 g) as [p g1] eqn:Ep.
  assert (Ht1 : tape g1 = tape g).
  { change g1 with (snd (p, g1)). rewrite <- Ep. reflexivity. }
  assert (Hg1 : unit_tape g1) by (intros n; rewrite Ht1; apply Hg).
  destruct (simulate_battery_drain_ok (set_gps (snd p) self) 60 g1 Hg1 Hb)
    as (Hb2 & Ht2 & _); [lra|].
  destruct (simulate_battery_drain (set_gps (snd p) self) 60 g1) as [v2 g2].
  cbn [fst snd] in Hb2, Ht2.
  cbn [tape pos]. unfold battery_ok in *.
  repeat match goal with
         | |- context [if ?c then _ else _] => destruct c
         end;
    cbn [fst snd tape pos battery_percent set_status set_connectivity
         set_odometer_km];
    (split; [exact Hb2 | congruence]).
Qed.

(** At initialization the battery level is in [20, 100] and the vehicle
    is ONLINE. *)
Lemma init_battery_ok (vehicle_id : Z) (now : string) (g : rng) (self : t) :
  unit_tape g ->
  fst (init vehicle_id now g) = Ok self ->
  battery_ok self /\ status self = ONLINE.
Proof.
  intros Hg. unfold init.
  cbv beta iota zeta delta [Random.bind].
  pose proof (generate_tape "TESLA" g) as Ht.
  destruct (VINGenerator.generate "TESLA" g) as [[vin|e] g1];
    [|discriminate].
  cbn [snd] in Ht.
  cbv beta iota zeta
      delta [Random.bind Random.ret uniform randint randbelow choice random
             GPSSimulator.get_random_city_coordinates GPSSimulator.init].
  cbn [fst snd tape pos]. intros [= <-].
  unfold battery_ok. cbn [battery_percent status].
  split; [|reflexivity].
  rewrite Ht.
  match goal with
  | |- context [tape g ?n] => destruct (Hg n)
  end.
  split; lra.
Qed.

Lemma step_ok (self : t) (a : action) (g : rng) :
  unit_tape g -> battery_ok self -> elapsed_ok a ->
  battery_ok (fst (step self a g)) /\ tape (snd (step self a g)) = tape g.
Proof.
  intros Hg Hb Ha. destruct a as [e|now|s]; cbn [step].
  - destruct (simulate_battery_drain_ok self e g Hg Hb Ha) as (H1 & H2 & _).
    now split.
  - unfold Random.bind, Random.ret.
    destruct (generate_telemetry_ok self now g Hg Hb) as [H1 H2].
    destruct (generate_telemetry self now g) as [[payload v] g1].
    now split.
  - now split.
Qed.

(** C5.  From a battery level in [5, 100], any sequence of
    [simulate_battery_drain] calls with non-negative elapsed times, of
    [generate_telemetry] calls and of status changes from outside leaves
    the battery level in [5, 100], for all draws of [[0, 1)]. *)
Theorem battery_stays_in_range (actions : list action) :
  forall (self : t) (g : rng),
    unit_tape g -> battery_ok self -> Forall elapsed_ok actions ->
    battery_ok (fst (run self actions g)).
Proof.
  induction actions as [|a actions IH]; intros self g Hg Hb Ha.
  - exact Hb.
  - inversion Ha as [|? ? Ha1 Ha2]; subst.
    cbn [run]. unfold Random.bind.
    destruct (step_ok self a g Hg Hb Ha1) as [Hb1 Ht1].
    destruct (step self a g) as [v1 g1]. cbn [fst snd] in Hb1, Ht1.
    apply IH; [intros n; rewrite Ht1; apply Hg | exact Hb1 | exact Ha2].
Qed.

Lemma battery_stays_in_range_witness :
  battery_ok
    (fst (run (Samples.vehicle0 ONLINE)
              [Drain 60; Telemetry "2025-09-01T10:01:00"; Drain 3600;
               SetStatus OFFLINE; Telemetry "2025-09-01T11:02:00"; Drain 0]
              (const_rng (1 # 20)))).
Proof.
  apply battery_stays_in_range.
  - intros n. simpl. split; [discriminate | reflexivity].
  - unfold battery_ok. simpl. split; discriminate.
  - repeat constructor; simpl; discriminate.
Defined.

(** C3, as stated, fails: with every draw equal to 0 one tick takes an
    UPDATING vehicle, and an ERROR vehicle, to OFFLINE. *)
Lemma updating_goes_offline :
  status (snd (fst (generate_telemetry (Samples.vehicle0 UPDATING)
                      "2025-09-01T10:01:00" (const_rng 0)))) = OFFLINE
  /\ status (snd (fst (generate_telemetry (Samples.vehicle0 ERROR)
                         "2025-09-01T10:01:00" (const_rng 0)))) = OFFLINE.
Proof. split; vm_compute; reflexivity. Qed.

(** C3, as amended.  One tick of an UPDATING or ERROR vehicle is decided
    by one draw of the tape: below 0.02 the vehicle becomes OFFLINE,
    otherwise its status is unchanged; it never becomes ONLINE. *)
Theorem updating_error_tick (self : t) (now : string) (g : rng) :
  status self = UPDATING \/ status self = ERROR ->
  let self' := snd (fst (generate_telemetry self now g)) in
  (exists n : nat,
      status self' = if Qlt_le_dec (tape g n) 0.02 then OFFLINE
                     else status self)
  /\ status self' <> ONLINE.
Proof.
  intros Hs. unfold generate_telemetry. rand_unfold.
  destruct (GPSSimulator.update_position (gps self) 60 g) as [p g1] eqn:Ep.
  assert (Ht1 : tape g1 = tape g).
  { change g1 with (snd (p, g1)). rewrite <- Ep. reflexivity. }
  assert (Hd : simulate_battery_drain (set_gps (snd p) self) 60 g1
               = (set_gps (snd p) self, g1)).
  { unfold simulate_battery_drain. cbn [status set_gps].
    destruct Hs as [-> | ->]; reflexivity. }
  rewrite Hd. clear Hd.
  cbn [tape pos]. rewrite Ht1.
  assert (Hne : status_eqb (status self) OFFLINE = false)
    by (destruct Hs as [-> | ->]; reflexivity).
  assert (Hon : status self <> ONLINE)
    by (destruct Hs as [-> | ->]; discriminate).
  destruct (Qlt_le_dec (tape g (pos g1)) 0.05) as [Hc|Hc];
    cbn [tape pos status set_connectivity set_odometer_km set_gps fst snd].
  - split.
    + exists (S (S (S (pos g1)))).
      destruct (Qlt_le_dec (tape g (S (S (S (pos g1))))) 0.02);
        cbn [status set_status set_connectivity set_odometer_km set_gps
             fst snd]; [reflexivity|].
      rewrite Hne. reflexivity.
    + destruct (Qlt_le_dec (tape g (S (S (S (pos g1))))) 0.02);
        cbn [status set_status set_connectivity set_odometer_km set_gps
             fst snd]; [discriminate|].
      rewrite Hne. exact Hon.
  - split.
    + exists (S (pos g1)).
      destruct (Qlt_le_dec (tape g (S (pos g1))) 0.02);
        cbn [status set_status set_connectivity set_odometer_km set_gps
             fst snd]; [reflexivity|].
      rewrite Hne. reflexivity.
    + destruct (Qlt_le_dec (tape g (S (pos g1))) 0.02);
        cbn [status set_status set_connectivity set_odometer_km set_gps
             fst snd]; [discriminate|].
      rewrite Hne. exact Hon.
Qed.

Lemma updating_error_tick_witness :
  let self' := snd (fst (generate_telemetry (Samples.vehicle0 UPDATING)
                           "2025-09-01T10:01:00" (const_rng (1 # 2)))) in
  (exists n : nat,
      status self' = if Qlt_le_dec (tape (const_rng (1 # 2)) n) 0.02
                     then OFFLINE
                     else status (Samples.vehicle0 UPDATING))
  /\ status self' <> ONLINE.
Proof.
  apply (updating_error_tick (Samples.vehicle0 UPDATING)).
  left. reflexivity.
Defined.

End VehicleTicks.

(** ** Equality and order of JSON values *)

Section JsonOrder.

Lemma hashable_cases (a : json) :
  hashable a = true ->
  a = JNull \/ (exists s, a = JStr s) \/ (exists x, num_of a = Some x).
Proof.
  destruct a; simpl; try discriminate; intros _; eauto.
Qed.

Lemma py_eq_null_r (a : json) : py_eq a JNull = true -> a = JNull.
Proof. destruct a as [| [] | | | | |]; simpl; congruence. Qed.

Lemma py_eq_str_r (a : json) (s : string) :
  py_eq a (JStr s) = true -> a = JStr s.
Proof.
  destruct a as [| [] | | | t | |]; simpl; try discriminate.
  intros H. apply String.eqb_eq in H. now subst.
Qed.

Lemma py_eq_num_r (a b : json) (y : Q) :
  num_of b = Some y ->
  py_eq a b = true -> exists x, num_of a = Some x /\ Qeq_bool x y = true.
Proof.
  intros Hb H.
  destruct a as [| ba | na | xa | sa | la | oa];
    destruct b as [| bb | nb | xb | sb | lb | ob];
    simpl in Hb; try discriminate; simpl in H; try discriminate;
    injection Hb as <-; eexists; (split; [reflexivity | exact H]).
Qed.

Lemma py_eq_num_l (a b : json) (x : Q) :
  num_of a = Some x ->
  py_eq a b = true -> exists y, num_of b = Some y /\ Qeq_bool x y = true.
Proof.
  intros Ha H.
  destruct a as [| ba | na | xa | sa | la | oa];
    destruct b as [| bb | nb | xb | sb | lb | ob];
    simpl in Ha; try discriminate; simpl in H; try discriminate;
    injection Ha as <-; eexists; (split; [reflexivity | exact H]).
Qed.

Lemma py_eq_num (a b : json) (x y : Q) :
  num_of a = Some x -> num_of b = Some y -> py_eq a b = Qeq_bool x y.
Proof.
  intros Ha Hb.
  destruct a as [| ba | na | xa | sa | la | oa];
    destruct b as [| bb | nb | xb | sb | lb | ob];
    simpl in Ha, Hb; try discriminate;
    injection Ha as <-; injection Hb as <-; reflexivity.
Qed.

Lemma py_eq_refl (a : json) : hashable a = true -> py_eq a a = true.
Proof.
  intros H. destruct (hashable_cases a H) as [-> | [[s ->] | [x Hx]]].
  - reflexivity.
  - simpl. apply String.eqb_refl.
  - rewrite (py_eq_num a a x x Hx Hx). apply Qeq_bool_refl.
Qed.

Lemma py_eq_hashable (a b : json) :
  hashable b = true -> py_eq a b = true -> hashable a = true.
Proof.
  intros Hb H. destruct (hashable_cases b Hb) as [-> | [[s ->] | [y Hy]]].
  - now rewrite (py_eq_null_r a H).
  - now rewrite (py_eq_str_r a s H).
  - destruct (py_eq_num_r a b y Hy H) as (x & Hx & _).
    destruct a; simpl in Hx; try discriminate; reflexivity.
Qed.

Lemma py_eq_sym (a b : json) :
  hashable b = true -> py_eq a b = true -> py_eq b a = true.
Proof.
  intros Hb H. destruct (hashable_cases b Hb) as [-> | [[s ->] | [y Hy]]].
  - now rewrite (py_eq_null_r a H).
  - rewrite (py_eq_str_r a s H). simpl. apply String.eqb_refl.
  - destruct (py_eq_num_r a b y Hy H) as (x & Hx & Hxy).
    rewrite (py_eq_num b a y x Hy Hx). now apply Qeq_bool_sym.
Qed.

Lemma py_eq_trans (a b c : json) :
  hashable b = true ->
  py_eq a b = true -> py_eq b c = true -> py_eq a c = true.
Proof.
  intros Hb Hab Hbc.
  destruct (hashable_cases b Hb) as [-> | [[s ->] | [y Hy]]].
  - now rewrite (py_eq_null_r a Hab).
  - now rewrite (py_eq_str_r a s Hab).
  - destruct (py_eq_num_r a b y Hy Hab) as (x & Hx & Hxy).
    destruct (py_eq_num_l b c y Hy Hbc) as (z & Hz & Hyz).
    rewrite (py_eq_num a c x z Hx Hz).
    now apply Qeq_bool_trans with y.
Qed.

Lemma py_eq_hashable_r (a b : json) :
  hashable a = true -> py_eq a b = true -> hashable b = true.
Proof.
  intros Ha H. destruct (hashable_cases a Ha) as [-> | [[s ->] | [x Hx]]].
  - destruct b as [| [] | | | | |]; simpl in *; congruence.
  - destruct b as [| [] | | | | |]; simpl in *; congruence.
  - destruct (py_eq_num_l a b x Hx H) as (y & Hy & _).
    destruct b; simpl in Hy; try discriminate; reflexivity.
Qed.

Lemma py_eq_comm (a b : json) :
  hashable a = true \/ hashable b = true -> py_eq a b = py_eq b a.
Proof.
  intros H.
  destruct (py_eq a b) eqn:E1; destruct (py_eq b a) eqn:E2; try reflexivity.
  - assert (Hb : hashable b = true).
    { destruct H; [eapply py_eq_hashable_r; eauto | assumption]. }
    rewrite (py_eq_sym a b Hb E1) in E2. discriminate.
  - assert (Ha : hashable a = true).
    { destruct H; [assumption | eapply py_eq_hashable_r; eauto]. }
    rewrite (py_eq_sym b a Ha E2) in E1. discriminate.
Qed.

End JsonOrder.

(** ** Order of strings *)

Section StringOrder.

Lemma string_compare_refl (s : string) : String.compare s s = Eq.
Proof.
  induction s as [|c s IH]; simpl; [reflexivity|].
  unfold Ascii.compare. now rewrite N.compare_refl.
Qed.

Lemma string_lt_trans (a : string) :
  forall b c : string,
    String.compare a b = Lt -> String.compare b c = Lt ->
    String.compare a c = Lt.
Proof.
  induction a as [|a0 a IH]; intros [|b0 b] [|c0 c]; simpl;
    try discriminate; try reflexivity.
  destruct (Ascii.compare a0 b0) eqn:Eab; try discriminate;
    destruct (Ascii.compare b0 c0) eqn:Ebc; try discriminate; intros Hab Hbc.
  - apply Ascii.compare_eq_iff in Eab, Ebc. subst.
    unfold Ascii.compare. rewrite N.compare_refl. eauto.
  - apply Ascii.compare_eq_iff in Eab. subst. now rewrite Ebc.
  - apply Ascii.compare_eq_iff in Ebc. subst. now rewrite Eab.
  - unfold Ascii.compare in *. rewrite N.compare_lt_iff in *.
    assert (H : (N_of_ascii a0 < N_of_ascii c0)%N) by lia.
    apply N.compare_lt_iff in H. now rewrite H.
Qed.

Lemma string_leb_refl (s : string) : String.leb s s = true.
Proof. unfold String.leb. now rewrite string_compare_refl. Qed.

Lemma string_leb_trans (a b c : string) :
  String.leb a b = true -> String.leb b c = true -> String.leb a c = true.
Proof.
  unfold String.leb.
  destruct (String.compare a b) eqn:Eab; try discriminate;
    destruct (String.compare b c) eqn:Ebc; try discriminate; intros _ _.
  - apply String.compare_eq_iff in Eab. subst. now rewrite Ebc.
  - apply String.compare_eq_iff in Eab. subst. now rewrite Ebc.
  - apply String.compare_eq_iff in Ebc. subst. now rewrite Eab.
  - now rewrite (string_lt_trans a b c Eab Ebc).
Qed.

(** [s > t] is the strict converse of [s <= t]. *)
Lemma string_gt_leb (s t : string) :
  is_cmp (String.compare s t) Gt = negb (String.leb s t).
Proof. unfold String.leb. now destruct (String.compare s t). Qed.

Lemma string_gt_leb_conv (s t : string) :
  is_cmp (String.compare s t) Gt = true -> String.leb t s = true.
Proof.
  unfold String.leb. rewrite (String.compare_antisym t s).
  now destruct (String.compare s t).
Qed.

End StringOrder.

(** ** Dictionaries *)

Section DictFacts.
Import UpdateManager.
Context {V : Type}.

Lemma dict_find_congr (k k' : json) (d : list (json * V)) :
  dict_wf d -> hashable k' = true -> py_eq k k' = true ->
  dict_find k d = dict_find k' d.
Proof.
  intros Hd Hk' Hkk'.
  induction d as [|[k0 v0] d IH]; [reflexivity|].
  destruct Hd as (Hk0 & _ & Hd). simpl.
  destruct (py_eq k' k0) eqn:E.
  - now rewrite (py_eq_trans k k' k0 Hk' Hkk' E).
  - destruct (py_eq k k0) eqn:E'; [|now apply IH].
    assert (Hk : hashable k = true) by (eapply py_eq_hashable; eauto).
    pose proof (py_eq_sym k k' Hk' Hkk') as Hs.
    rewrite (py_eq_trans k' k k0 Hk Hs E') in E. discriminate.
Qed.

Lemma dict_find_set (k k' : json) (v : V) (d : list (json * V)) :
  dict_wf d -> hashable k' = true ->
  dict_find k (dict_set k' v d)
  = if py_eq k k' then Some v else dict_find k d.
Proof.
  intros Hd Hk'.
  induction d as [|[k0 v0] d IH]; [reflexivity|].
  destruct Hd as (Hk0 & _ & Hd). simpl.
  destruct (py_eq k' k0) eqn:E; simpl.
  - destruct (py_eq k k') eqn:E1.
    + now rewrite (py_eq_trans k k' k0 Hk' E1 E).
    + destruct (py_eq k k0) eqn:E2; [|reflexivity].
      pose proof (py_eq_sym k' k0 Hk0 E) as Hs.
      rewrite (py_eq_trans k k0 k' Hk0 E2 Hs) in E1. discriminate.
  - rewrite (IH Hd).
    destruct (py_eq k k0) eqn:E2; [|reflexivity].
    destruct (py_eq k k') eqn:E1; [|reflexivity].
    assert (Hk : hashable k = true) by (eapply py_eq_hashable; eauto).
    pose proof (py_eq_sym k k' Hk' E1) as Hs.
    rewrite (py_eq_trans k' k k0 Hk Hs E2) in E. discriminate.
Qed.

Lemma dict_wf_set (k : json) (v : V) (d : list (json * V)) :
  dict_wf d -> hashable k = true -> dict_wf (dict_set k v d).
Proof.
  intros Hd Hk.
  induction d as [|[k0 v0] d IH]; [simpl; auto|].
  destruct Hd as (Hk0 & Hn & Hd). simpl.
  destruct (py_eq k k0) eqn:E; simpl; [auto|].
  repeat split; auto.
  rewrite (dict_find_set k0 k v d Hd Hk).
  destruct (py_eq k0 k) eqn:E'; [|exact Hn].
  rewrite (py_eq_sym k0 k Hk E') in E. discriminate.
Qed.

Lemma dict_find_in (k : json) (v : V) (d : list (json * V)) :
  dict_find k d = Some v -> exists k0, In (k0, v) d /\ py_eq k k0 = true.
Proof.
  induction d as [|[k0 v0] d IH]; simpl; [discriminate|].
  destruct (py_eq k k0) eqn:E.
  - intros [= <-]. eauto.
  - intros H. destruct (IH H) as (k1 & H1 & H2). eauto.
Qed.

Lemma dict_in_find (k : json) (v : V) (d : list (json * V)) :
  dict_wf d -> In (k, v) d -> dict_find k d = Some v.
Proof.
  induction d as [|[k0 v0] d IH]; simpl; [contradiction|].
  intros (Hk0 & Hn & Hd) [[= -> ->] | Hin].
  - now rewrite py_eq_refl.
  - destruct (py_eq k k0) eqn:E; [|auto].
    assert (Hk : hashable k = true) by (eapply py_eq_hashable; eauto).
    rewrite <- (dict_find_congr k k0 d Hd Hk0 E) in Hn.
    rewrite (IH Hd Hin) in Hn. discriminate.
Qed.

Lemma dict_wf_nodup (d : list (json * V)) :
  dict_wf d -> NoDup (map fst d).
Proof.
  induction d as [|[k0 v0] d IH]; simpl; [constructor|].
  intros (Hk0 & Hn & Hd). constructor; [|auto].
  intros Hin. apply in_map_iff in Hin. destruct Hin as ([k v] & Hk & Hin).
  simpl in Hk. subst k.
  rewrite (dict_in_find k0 v d Hd Hin) in Hn. discriminate.
Qed.

Lemma dict_set_in (k : json) (v : V) (d : list (json * V)) (item : json * V) :
  In item (dict_set k v d) -> In item d \/ snd item = v.
Proof.
  induction d as [|[k0 v0] d IH]; simpl.
  - intros [<- | []]. now right.
  - destruct (py_eq k k0); simpl.
    + intros [<- | H]; [now right | now left; right].
    + intros [<- | H]; [now left; left|].
      destruct (IH H); [now left; right | now right].
Qed.

End DictFacts.

(** ** Deduplication *)

Section Dedup.
Import UpdateManager.
Variable s3 : s3_store.
Variable bucket_name : string.

Lemma json_get_object (t : json) (key : string) (dflt : json) :
  is_object t = true ->
  json_get t key dflt = Ok (field t (Some key) None dflt).
Proof.
  destruct t; try discriminate. intros _. simpl.
  now destruct (assoc_find key items).
Qed.

Lemma json_get_not_object (t : json) (key : string) (dflt : json) :
  is_object t = false -> json_get t key dflt = Raise AttributeError.
Proof. destruct t; try discriminate; reflexivity. Qed.

(** What one iteration of the first loop does, case by case. *)
Lemma dedup_step_cases (vehicles : list (json * json)) (file_key : string) :
  dedup_step s3 bucket_name vehicles file_key =
  match download_telemetry s3 bucket_name file_key with
  | Raise _ => vehicles
  | Ok t =>
      if is_object t && hashable (snapshot_id t) then
        match dict_find (snapshot_id t) vehicles with
        | None => dict_set (snapshot_id t) t vehicles
        | Some kept =>
            if is_object kept then
              match py_gt (snapshot_timestamp t) (snapshot_timestamp kept) with
              | Ok true => dict_set (snapshot_id t) t vehicles
              | _ => vehicles
              end
            else vehicles
        end
      else vehicles
  end.
Proof.
  unfold dedup_step, keep_latest.
  destruct (download_telemetry s3 bucket_name file_key) as [t|e];
    [|reflexivity].
  cbn [Py.bind].
  destruct (is_object t) eqn:Ho; cbn [andb];
    [|now rewrite json_get_not_object].
  rewrite (json_get_object t "vehicle_id" JNull Ho). cbn [Py.bind].
  fold (snapshot_id t).
  unfold dict_contains, dict_setitem, dict_getitem.
  destruct (hashable (snapshot_id t)) eqn:Hh; [|reflexivity].
  cbn [Py.bind].
  destruct (dict_find (snapshot_id t) vehicles) as [kept|]; cbn [negb];
    [|reflexivity].
  rewrite (json_get_object t "timestamp" (JStr "") Ho). cbn [Py.bind].
  fold (snapshot_timestamp t).
  destruct (is_object kept) eqn:Hk;
    [|now rewrite json_get_not_object].
  rewrite (json_get_object kept "timestamp" (JStr "") Hk). cbn [Py.bind].
  fold (snapshot_timestamp kept).
  destruct (py_gt (snapshot_timestamp t) (snapshot_timestamp kept))
    as [[|]|]; reflexivity.
Qed.

Lemma lacks_timestamp (t : json) :
  lacks t "timestamp" -> snapshot_timestamp t = JStr "".
Proof.
  destruct t; simpl; try contradiction.
  unfold snapshot_timestamp, field. now intros ->.
Qed.

Lemma py_gt_empty (old : json) : py_gt (JStr "") old <> Ok true.
Proof.
  destruct old as [| | | | s | |]; try discriminate.
  now destruct s.
Qed.

Lemma py_gt_same (s : string) : py_gt (JStr s) (JStr s) = Ok false.
Proof.
  unfold py_gt. cbn [py_order]. now rewrite string_compare_refl.
Qed.

(** C10.  When the vehicle of a downloaded snapshot [t] already has a
    retained snapshot [kept], the iteration replaces it only if the
    timestamp of [t] is strictly greater: with a timestamp string equal
    to the retained one, or with no timestamp, the retained snapshot
    stays. *)
Theorem replacement_only_when_newer
  (vehicles : list (json * json)) (file_key : string) (t kept : json) :
  download_telemetry s3 bucket_name file_key = Ok t ->
  dict_find (snapshot_id t) vehicles = Some kept ->
  is_object kept = true ->
  (lacks t "timestamp"
   \/ (exists s : string,
          snapshot_timestamp t = JStr s /\ snapshot_timestamp kept = JStr s) ->
   dedup_step s3 bucket_name vehicles file_key = vehicles)
  /\ (dedup_step s3 bucket_name vehicles file_key = vehicles
      \/ (py_gt (snapshot_timestamp t) (snapshot_timestamp kept) = Ok true
          /\ dedup_step s3 bucket_name vehicles file_key
             = dict_set (snapshot_id t) t vehicles)).
Proof.
  intros Hd Hf Hk. rewrite dedup_step_cases, Hd, Hf, Hk.
  destruct (is_object t && hashable (snapshot_id t)); [|now split; [|left]].
  split.
  - intros [Hl | (s & Ht & Ho)].
    + rewrite (lacks_timestamp t Hl).
      pose proof (py_gt_empty (snapshot_timestamp kept)) as H.
      destruct (py_gt (JStr "") (snapshot_timestamp kept)) as [[|]|];
        congruence.
    + now rewrite Ht, Ho, py_gt_same.
  - destruct (py_gt (snapshot_timestamp t) (snapshot_timestamp kept))
      as [[|]|]; auto.
Qed.

Lemma snapshots_app (files : list string) (file_key : string) :
  snapshots s3 bucket_name (files ++ [file_key])
  = (snapshots s3 bucket_name files
     ++ match download_telemetry s3 bucket_name file_key with
        | Ok t => [t]
        | Raise _ => []
        end)%list.
Proof.
  unfold snapshots. rewrite flat_map_app. simpl. now rewrite app_nil_r.
Qed.

Lemma dedup_app (files : list string) (file_key : string) :
  dedup s3 bucket_name (files ++ [file_key])
  = dedup_step s3 bucket_name (dedup s3 bucket_name files) file_key.
Proof. unfold dedup. now rewrite fold_left_app. Qed.

Lemma dict_set_entry (k' : json) (v : json) (d : list (json * json))
  (k r : json) :
  hashable k' = true ->
  In (k, r) (dict_set k' v d) ->
  In (k, r) d \/ (r = v /\ py_eq k' k = true).
Proof.
  intros Hk'. induction d as [|[k0 v0] d IH]; simpl.
  - intros [[= <- <-] | []]. right. split; [reflexivity|].
    now apply py_eq_refl.
  - destruct (py_eq k' k0) eqn:E; simpl.
    + intros [[= <- <-] | H]; [right; now split | left; now right].
    + intros [H | H]; [left; now left|].
      destruct (IH H) as [H1 | H1]; [left; now right | now right].
Qed.

(** The retained snapshots: one per key, each an object downloaded from
    the batch and stored under its own identifier. *)
Lemma dedup_sound (files : list string) :
  dict_wf (dedup s3 bucket_name files)
  /\ forall k r : json,
       In (k, r) (dedup s3 bucket_name files) ->
       is_object r = true
       /\ py_eq k (snapshot_id r) = true
       /\ In r (snapshots s3 bucket_name files).
Proof.
  induction files as [|file_key files IH] using rev_ind.
  - split; [exact I | intros k r []].
  - destruct IH as [Hwf Hent].
    rewrite dedup_app, snapshots_app, dedup_step_cases.
    set (D := dedup s3 bucket_name files) in *.
    assert (Hold : forall k r, In (k, r) D ->
              is_object r = true /\ py_eq k (snapshot_id r) = true
              /\ In r (snapshots s3 bucket_name files ++
                       match download_telemetry s3 bucket_name file_key with
                       | Ok t => [t] | Raise _ => [] end)).
    { intros k r H. destruct (Hent k r H) as (H1 & H2 & H3).
      repeat split; auto. apply in_or_app. now left. }
    destruct (download_telemetry s3 bucket_name file_key) as [t|e];
      [|now split].
    destruct (is_object t) eqn:Ho; cbn [andb]; [|now split].
    destruct (hashable (snapshot_id t)) eqn:Hh; [|now split].
    assert (Hnew : dict_wf (dict_set (snapshot_id t) t D)
              /\ forall k r, In (k, r) (dict_set (snapshot_id t) t D) ->
                   is_object r = true /\ py_eq k (snapshot_id r) = true
                   /\ In r (snapshots s3 bucket_name files ++ [t])).
    { split; [now apply dict_wf_set|].
      intros k r H.
      destruct (dict_set_entry _ _ _ _ _ Hh H) as [H1 | [-> H1]];
        [now apply Hold|].
      repeat split; auto.
      - rewrite py_eq_comm by now right. exact H1.
      - apply in_or_app. right. now left. }
    destruct (dict_find (snapshot_id t) D) as [kept|]; [|exact Hnew].
    destruct (is_object kept); [|now split].
    destruct (py_gt (snapshot_timestamp t) (snapshot_timestamp kept))
      as [[|]|]; [exact Hnew | now split | now split].
Qed.

Lemma stamped_inv (t : json) :
  stamped t = true ->
  is_object t = true
  /\ hashable (snapshot_id t) = true
  /\ snapshot_timestamp t = JStr (timestamp_string t).
Proof.
  unfold stamped, timestamp_string. intros H.
  apply andb_true_iff in H. destruct H as [H H3].
  apply andb_true_iff in H. destruct H as [H1 H2].
  repeat split; auto.
  now destruct (snapshot_timestamp t).
Qed.

Lemma py_gt_stamped (t kept : json) :
  stamped t = true -> stamped kept = true ->
  py_gt (snapshot_timestamp t) (snapshot_timestamp kept)
  = Ok (negb (String.leb (timestamp_string t) (timestamp_string kept))).
Proof.
  intros Ht Hk.
  destruct (stamped_inv t Ht) as (_ & _ & ->).
  destruct (stamped_inv kept Hk) as (_ & _ & ->).
  unfold py_gt. cbn [py_order]. now rewrite string_gt_leb.
Qed.

(** A key that is found belongs to the vehicle of what is found. *)
Lemma dedup_find_same (files : list string) (key r : json) :
  dict_find key (dedup s3 bucket_name files) = Some r ->
  is_object r = true
  /\ py_eq key (snapshot_id r) = true
  /\ In r (snapshots s3 bucket_name files).
Proof.
  intros H. destruct (dedup_sound files) as [Hwf Hent].
  destruct (dict_find_in key r _ H) as (k0 & Hin & Hk).
  destruct (Hent k0 r Hin) as (H1 & H2 & H3).
  repeat split; auto.
  apply py_eq_trans with k0; auto.
  eapply py_eq_hashable; [|exact H2].
  destruct r; try discriminate.
  (* the identifier under which [r] is stored is hashable *)
  clear - Hwf Hin H2.
  induction (dedup s3 bucket_name files) as [|[k1 v1] d IH];
    [contradiction|].
  destruct Hwf as (Hk1 & _ & Hd).
  destruct Hin as [[= -> ->] | Hin]; [|now apply IH].
  eapply py_eq_hashable_r; eauto.
Qed.

(** Among stamped snapshots the retained one of a vehicle has the
    greatest timestamp string of the vehicle. *)
Lemma dedup_latest (files : list string) :
  (forall t, In t (snapshots s3 bucket_name files) -> stamped t = true) ->
  forall a : json,
    In a (snapshots s3 bucket_name files) ->
    exists r : json,
      dict_find (snapshot_id a) (dedup s3 bucket_name files) = Some r
      /\ forall b : json,
           In b (snapshots s3 bucket_name files) ->
           same_vehicle b a = true ->
           String.leb (timestamp_string b) (timestamp_string r) = true.
Proof.
  induction files as [|file_key files IH] using rev_ind; intros Hst a Ha.
  - contradiction.
  - rewrite snapshots_app in Hst, Ha. rewrite snapshots_app.
    rewrite dedup_app, dedup_step_cases.
    destruct (dedup_sound files) as [Hwf _].
    pose proof (dedup_find_same files) as Hsame.
    set (D := dedup s3 bucket_name files) in *.
    set (snaps := snapshots s3 bucket_name files) in *.
    assert (Hst0 : forall t, In t snaps -> stamped t = true).
    { intros t Ht. apply Hst. apply in_or_app. now left. }
    specialize (IH Hst0).
    assert (Hid : forall t, In t snaps -> hashable (snapshot_id t) = true).
    { intros t Ht. now destruct (stamped_inv t (Hst0 t Ht)) as (_ & ? & _). }
    destruct (download_telemetry s3 bucket_name file_key) as [t|e].
    2:{ rewrite app_nil_r in *. now apply IH. }
    assert (Ht : stamped t = true).
    { apply Hst. apply in_or_app. right. now left. }
    destruct (stamped_inv t Ht) as (Ho & Hh & Hts).
    rewrite Ho, Hh. cbn [andb].
    assert (Hall : forall b, In b (snaps ++ [t]) -> In b snaps \/ b = t).
    { intros b Hb. apply in_app_or in Hb.
      destruct Hb as [Hb | [Hb | []]]; auto. }
    assert (Hida : hashable (snapshot_id a) = true).
    { destruct (Hall a Ha) as [H | ->]; auto. }
    unfold same_vehicle.
    destruct (dict_find (snapshot_id t) D) as [kept|] eqn:Ef.
    + destruct (Hsame _ _ Ef) as (Hko & Hkid & Hkin).
      assert (Hks : stamped kept = true) by auto.
      rewrite Hko, (py_gt_stamped t kept Ht Hks).
      assert (Hmax : forall b, In b snaps ->
                py_eq (snapshot_id b) (snapshot_id t) = true ->
                String.leb (timestamp_string b) (timestamp_string kept)
                = true).
      { intros b Hb Hbt. destruct (IH kept Hkin) as (r0 & Hr0 & Hm).
        assert (E : dict_find (snapshot_id kept) D
                    = dict_find (snapshot_id t) D).
        { apply dict_find_congr; auto.
          rewrite py_eq_comm by (right; exact Hh). exact Hkid. }
        rewrite E, Ef in Hr0. injection Hr0 as <-.
        apply Hm; auto. unfold same_vehicle.
        now apply py_eq_trans with (snapshot_id t). }
      destruct (String.leb (timestamp_string t) (timestamp_string kept))
        eqn:El; cbn [negb].
      * (* not newer: the dictionary is unchanged *)
        destruct (py_eq (snapshot_id a) (snapshot_id t)) eqn:Eat.
        -- exists kept. split.
           ++ rewrite <- Ef. now apply dict_find_congr.
           ++ intros b Hb Hba.
              assert (Hbt : py_eq (snapshot_id b) (snapshot_id t) = true)
                by now apply py_eq_trans with (snapshot_id a).
              destruct (Hall b Hb) as [H | ->]; auto.
        -- destruct (Hall a Ha) as [Ha0 | ->];
             [|now rewrite py_eq_refl in Eat].
           destruct (IH a Ha0) as (r & Hr & Hm).
           exists r. split; [exact Hr|].
           intros b Hb Hba. destruct (Hall b Hb) as [H | ->]; auto.
           rewrite py_eq_comm in Hba by now left. congruence.
      * (* newer: the snapshot replaces the retained one *)
        rewrite dict_find_set by auto.
        destruct (py_eq (snapshot_id a) (snapshot_id t)) eqn:Eat.
        -- exists t. split; [reflexivity|].
           intros b Hb Hba.
           destruct (Hall b Hb) as [H | ->]; [|apply string_leb_refl].
           apply string_leb_trans with (timestamp_string kept).
           ++ apply Hmax; auto.
              now apply py_eq_trans with (snapshot_id a).
           ++ destruct (String.leb_total (timestamp_string t)
                          (timestamp_string kept)); congruence.
        -- destruct (Hall a Ha) as [Ha0 | ->];
             [|now rewrite py_eq_refl in Eat].
           destruct (IH a Ha0) as (r & Hr & Hm).
           exists r. split; [exact Hr|].
           intros b Hb Hba. destruct (Hall b Hb) as [H | ->]; auto.
           rewrite py_eq_comm in Hba by now left. congruence.
    + (* first snapshot of its vehicle *)
      rewrite dict_find_set by auto.
      assert (Hnone : forall b, In b snaps ->
                py_eq (snapshot_id b) (snapshot_id t) = false).
      { intros b Hb. destruct (py_eq (snapshot_id b) (snapshot_id t)) eqn:E;
          [|reflexivity].
        destruct (IH b Hb) as (r & Hr & _).
        rewrite (dict_find_congr _ _ D Hwf Hh E), Ef in Hr. discriminate. }
      destruct (Hall a Ha) as [Ha0 | ->].
      * rewrite (Hnone a Ha0).
        destruct (IH a Ha0) as (r & Hr & Hm).
        exists r. split; [exact Hr|].
        intros b Hb Hba. destruct (Hall b Hb) as [H | ->]; auto.
        rewrite py_eq_comm in Hba by now left.
        rewrite (Hnone a Ha0) in Hba. discriminate.
      * rewrite py_eq_refl by auto. exists t. split; [reflexivity|].
        intros b Hb Hba. destruct (Hall b Hb) as [H | ->];
          [|apply string_leb_refl].
        rewrite (Hnone b H) in Hba. discriminate.
Qed.

Lemma snapshots_perm (files files' : list string) (t : json) :
  Permutation files files' ->
  In t (snapshots s3 bucket_name files) ->
  In t (snapshots s3 bucket_name files').
Proof.
  intros Hp H. unfold snapshots in *.
  apply in_flat_map in H. destruct H as (k & Hk & Ht).
  apply in_flat_map. exists k. split; [|exact Ht].
  now apply Permutation_in with files.
Qed.

(** What is found in one processing order is found in any other. *)
Lemma dedup_order_some (files files' : list string) (key r : json) :
  (forall t, In t (snapshots s3 bucket_name files) -> stamped t = true) ->
  (forall a b,
      In a (snapshots s3 bucket_name files) ->
      In b (snapshots s3 bucket_name files) ->
      same_vehicle a b = true ->
      timestamp_string a = timestamp_string b -> a = b) ->
  Permutation files files' ->
  dict_find key (dedup s3 bucket_name files) = Some r ->
  dict_find key (dedup s3 bucket_name files') = Some r.
Proof.
  intros Hst Hdis Hp Hf.
  assert (Hst' : forall t, In t (snapshots s3 bucket_name files') ->
                           stamped t = true).
  { intros t Ht. apply Hst. apply snapshots_perm with files'; auto.
    now apply Permutation_sym. }
  destruct (dedup_find_same files key r Hf) as (_ & Hkr & Hin).
  assert (Hin' : In r (snapshots s3 bucket_name files'))
    by (now apply snapshots_perm with files).
  destruct (stamped_inv r (Hst r Hin)) as (_ & Hh & _).
  destruct (dedup_latest files Hst r Hin) as (r1 & Hr1 & Hm1).
  rewrite <- (dict_find_congr key (snapshot_id r) _
                (proj1 (dedup_sound files)) Hh Hkr) in Hr1.
  rewrite Hf in Hr1. injection Hr1 as <-.
  destruct (dedup_latest files' Hst' r Hin') as (r2 & Hr2 & Hm2).
  rewrite (dict_find_congr key (snapshot_id r) _
             (proj1 (dedup_sound files')) Hh Hkr).
  rewrite Hr2. f_equal.
  destruct (dedup_find_same files' _ _ Hr2) as (_ & Hk2 & Hin2).
  assert (Hin2' : In r2 (snapshots s3 bucket_name files)).
  { apply snapshots_perm with files'; auto. now apply Permutation_sym. }
  destruct (stamped_inv r2 (Hst' r2 Hin2)) as (_ & Hh2 & _).
  assert (Hsv : same_vehicle r2 r = true).
  { unfold same_vehicle. rewrite py_eq_comm by now left. exact Hk2. }
  apply Hdis; auto.
  apply String.leb_antisym.
  - apply Hm1; auto.
  - apply Hm2; auto. unfold same_vehicle. now apply py_eq_refl.
Qed.

(** C4.  In a batch whose snapshots have a usable identifier and a
    timestamp string, and where two snapshots of one vehicle with the
    same timestamp string are the same snapshot, the snapshot retained
    for a vehicle is the one of the vehicle whose timestamp string is
    lexicographically greatest, in whatever order the batch is
    processed. *)
Theorem dedup_keeps_greatest (files : list string) :
  (forall t, In t (snapshots s3 bucket_name files) -> stamped t = true) ->
  (forall a b,
      In a (snapshots s3 bucket_name files) ->
      In b (snapshots s3 bucket_name files) ->
      same_vehicle a b = true ->
      timestamp_string a = timestamp_string b -> a = b) ->
  (forall a : json,
      In a (snapshots s3 bucket_name files) ->
      exists r : json,
        dict_find (snapshot_id a) (dedup s3 bucket_name files) = Some r
        /\ In r (snapshots s3 bucket_name files)
        /\ same_vehicle r a = true
        /\ forall b : json,
             In b (snapshots s3 bucket_name files) ->
             same_vehicle b a = true ->
             String.leb (timestamp_string b) (timestamp_string r) = true
             /\ (b <> r ->
                 String.ltb (timestamp_string b) (timestamp_string r) = true))
  /\ (forall files' : list string,
         Permutation files files' ->
         forall key : json,
           dict_find key (dedup s3 bucket_name files')
           = dict_find key (dedup s3 bucket_name files)).
Proof.
  intros Hst Hdis. split.
  - intros a Ha.
    destruct (dedup_latest files Hst a Ha) as (r & Hr & Hm).
    destruct (dedup_find_same files _ _ Hr) as (_ & Hk & Hin).
    destruct (stamped_inv a (Hst a Ha)) as (_ & Hha & _).
    assert (Hra : same_vehicle r a = true).
    { unfold same_vehicle. rewrite py_eq_comm by now right. exact Hk. }
    exists r. repeat split; auto.
    intros Hne. specialize (Hm b H H0).
    unfold String.leb in Hm. unfold String.ltb.
    destruct (String.compare (timestamp_string b) (timestamp_string r))
      eqn:E; try discriminate; [|reflexivity].
    apply String.compare_eq_iff in E. exfalso. apply Hne.
    apply Hdis; auto. unfold same_vehicle in *.
    apply py_eq_trans with (snapshot_id a); auto.
  - intros files' Hp key.
    destruct (dict_find key (dedup s3 bucket_name files)) as [r|] eqn:E.
    + now apply dedup_order_some with files.
    + destruct (dict_find key (dedup s3 bucket_name files')) as [r'|] eqn:E';
        [|reflexivity].
      assert (H : dict_find key (dedup s3 bucket_name files) = Some r').
      { apply dedup_order_some with files'; auto.
        - intros t Ht. apply Hst. apply snapshots_perm with files'; auto.
          now apply Permutation_sym.
        - intros a b Ha Hb. apply Hdis;
            (apply snapshots_perm with files';
             [now apply Permutation_sym | assumption]).
        - now apply Permutation_sym. }
      congruence.
Qed.

End Dedup.

(** ** Classification *)

Section Classification.
Import UpdateManager.

Lemma py_eq_is_str (j : json) (s : string) : py_eq j (JStr s) = is_str j s.
Proof. destruct j as [| [] | | | | |]; reflexivity. Qed.

Lemma py_lt_num (j : json) (n : Z) (p : Q) :
  num_of j = Some p ->
  py_lt j (JInt n) = Ok (if Qlt_le_dec p (inject_Z n) then true else false).
Proof.
  intros H.
  assert (E : py_lt j (JInt n) = Ok (is_cmp (Qcompare p (inject_Z n)) Lt)).
  { destruct j; simpl in H; try discriminate; injection H as <-; reflexivity. }
  rewrite E. f_equal.
  destruct (Qlt_le_dec p (inject_Z n)) as [Hlt | Hle].
  - pose proof (proj1 (Qlt_alt p (inject_Z n)) Hlt) as Hc. now rewrite Hc.
  - pose proof (proj1 (Qle_alt (inject_Z n) p) Hle) as Hc.
    rewrite <- Qcompare_antisym in Hc.
    destruct (Qcompare p (inject_Z n)); simpl in *; congruence.
Qed.

Lemma py_lt_ok (j : json) (n : Z) (low : bool) :
  py_lt j (JInt n) = Ok low -> exists p, num_of j = Some p.
Proof.
  destruct j as [| b | m | x | s | l | o]; simpl; try discriminate; eauto.
Qed.

Lemma extract_info_ok (t : json) (info : json * json * json * json) :
  extract_info t = Ok info ->
  info = (snapshot_firmware t, snapshot_battery t, snapshot_status t,
          snapshot_update_available t).
Proof.
  unfold extract_info, snapshot_firmware, snapshot_battery, snapshot_status,
    snapshot_update_available, field.
  destruct t as [| | | | | |items]; try discriminate.
  cbn [json_get Py.bind].
  destruct (assoc_find "firmware" items) as [[| | | | | |fw]|];
    cbn [json_get Py.bind]; try discriminate;
    destruct (assoc_find "battery" items) as [[| | | | | |bt]|];
    cbn [json_get Py.bind assoc_find]; try discriminate;
    repeat match goal with
           | |- context [assoc_find ?k ?l] =>
               is_var l;
               destruct (assoc_find k l); cbn [json_get Py.bind assoc_find]
           end;
    intros [= <-]; reflexivity.
Qed.

Lemma extract_info_typed (t : json) :
  fields_typed t = true ->
  extract_info t
  = Ok (snapshot_firmware t, snapshot_battery t, snapshot_status t,
        snapshot_update_available t)
  /\ hashable (snapshot_firmware t) = true
  /\ exists p, num_of (snapshot_battery t) = Some p.
Proof.
  unfold fields_typed, extract_info, snapshot_firmware, snapshot_battery,
    snapshot_status, snapshot_update_available, field.
  destruct t as [| | | | | |items]; try discriminate.
  intros H. apply andb_true_iff in H. destruct H as [Hf Hb].
  cbn [json_get Py.bind].
  destruct (assoc_find "firmware" items) as [[| | | | | |fw]|];
    try discriminate;
    destruct (assoc_find "battery" items) as [[| | | | | |bt]|];
    try discriminate;
    cbn [json_get Py.bind assoc_find];
    repeat match goal with
           | |- context [assoc_find ?k ?l] =>
               is_var l;
               destruct (assoc_find k l) eqn:?;
               cbn [json_get Py.bind assoc_find]
           end;
    (split; [reflexivity|]); (split; [first [exact Hf | reflexivity]|]);
    first [ destruct (num_of j0) eqn:?; [eauto | discriminate]
          | destruct (num_of j) eqn:?; [eauto | discriminate]
          | simpl; eauto ].
Qed.

Lemma analyze_vehicle_ok (fs fs' : fleet_status) (vehicle_id t : json) :
  analyze_vehicle fs (vehicle_id, t) = Ok fs' ->
  exists d,
    counter_incr (snapshot_firmware t) (firmware_distribution fs) = Ok d
    /\ fs' = count_in (classify t) vehicle_id
               (set_firmware_distribution d (count_total fs)).
Proof.
  unfold analyze_vehicle. cbn [fst snd].
  destruct (extract_info t) as [info|] eqn:E; [|discriminate].
  apply extract_info_ok in E. subst info. cbn [Py.bind].
  change (firmware_distribution (count_total fs))
    with (firmware_distribution fs).
  destruct (counter_incr (snapshot_firmware t) (firmware_distribution fs))
    as [d|]; [|discriminate].
  cbn [Py.bind]. rewrite !py_eq_is_str. unfold classify.
  destruct (is_str (snapshot_status t) "updating");
    [intros [= <-]; eauto|].
  destruct (is_str (snapshot_status t) "offline");
    [intros [= <-]; eauto|].
  destruct (is_str (snapshot_firmware t) LATEST_FIRMWARE_VERSION);
    [intros [= <-]; eauto|].
  destruct (py_lt (snapshot_battery t) (JInt MINIMUM_BATTERY_PERCENT))
    as [low|] eqn:El; [|discriminate].
  destruct (py_lt_ok _ _ _ El) as [p Hp].
  rewrite (py_lt_num _ _ p Hp) in El. rewrite Hp.
  injection El as <-.
  destruct (Qlt_le_dec p (inject_Z MINIMUM_BATTERY_PERCENT));
    intros [= <-]; eauto.
Qed.

Lemma analyze_vehicle_total (fs : fleet_status) (vehicle_id t : json) :
  fields_typed t = true ->
  exists fs', analyze_vehicle fs (vehicle_id, t) = Ok fs'.
Proof.
  intros Ht. destruct (extract_info_typed t Ht) as (E & Hh & p & Hp).
  unfold analyze_vehicle. cbn [fst snd]. rewrite E. cbn [Py.bind].
  unfold counter_incr. rewrite Hh. cbn [Py.bind].
  destruct (py_eq (snapshot_status t) (JStr "updating")); [eauto|].
  destruct (py_eq (snapshot_status t) (JStr "offline")); [eauto|].
  destruct (py_eq (snapshot_firmware t) (JStr LATEST_FIRMWARE_VERSION));
    [eauto|].
  rewrite (py_lt_num _ _ p Hp). cbn [Py.bind].
  destruct (Qlt_le_dec p (inject_Z MINIMUM_BATTERY_PERCENT)); eauto.
Qed.

Lemma list_of_append (k k' : string) (x : json)
  (d : list (string * list json)) :
  list_of k (list_append k' x d)
  = if String.eqb k k' then (list_of k d ++ [x])%list else list_of k d.
Proof.
  unfold list_of.
  induction d as [|[k0 l] d IH]; simpl.
  - now destruct (String.eqb k k').
  - destruct (String.eqb_spec k' k0) as [-> | Hne]; simpl.
    + now destruct (String.eqb k k0).
    + destruct (String.eqb_spec k k0) as [-> | Hne'].
      * destruct (String.eqb_spec k0 k'); [congruence | reflexivity].
      * exact IH.
Qed.

Lemma bucket_members_count_in (b b' : bucket) (vehicle_id : json)
  (fs : fleet_status) :
  bucket_members (count_in b vehicle_id fs) b'
  = if bucket_eqb b b' then (bucket_members fs b' ++ [vehicle_id])%list
    else bucket_members fs b'.
Proof.
  unfold bucket_members.
  destruct b; cbn [count_in count_updating count_offline count_up_to_date
                   count_low_battery count_eligible vehicles_by_status];
    rewrite list_of_append; destruct b'; reflexivity.
Qed.

Lemma bucket_count_count_in (b b' : bucket) (vehicle_id : json)
  (fs : fleet_status) :
  bucket_count (count_in b vehicle_id fs) b'
  = bucket_count fs b' + (if bucket_eqb b b' then 1 else 0).
Proof. destruct b, b'; simpl; lia. Qed.

Lemma classified_as_app (b : bucket) (done : list (json * json))
  (item : json * json) :
  classified_as b (done ++ [item])
  = (classified_as b done
     ++ if bucket_eqb (classify (snd item)) b then [fst item] else [])%list.
Proof.
  unfold classified_as. rewrite filter_app, map_app. simpl.
  now destruct (bucket_eqb (classify (snd item)) b).
Qed.

Lemma reports_step (fs fs' : fleet_status) (done : list (json * json))
  (item : json * json) :
  reports fs done -> analyze_vehicle fs item = Ok fs' ->
  reports fs' (done ++ [item]).
Proof.
  intros [Htot Hb] H. destruct item as [vehicle_id t].
  destruct (analyze_vehicle_ok _ _ _ _ H) as (d & _ & ->).
  split.
  - rewrite length_app. simpl.
    assert (E : forall b f, total_vehicles (count_in b vehicle_id f)
                            = total_vehicles f) by (now intros []).
    rewrite E. simpl. lia.
  - intros b. destruct (Hb b) as [Hm Hc].
    rewrite bucket_members_count_in, bucket_count_count_in.
    rewrite classified_as_app. cbn [fst snd].
    change (bucket_members (set_firmware_distribution d (count_total fs)) b)
      with (bucket_members fs b).
    change (bucket_count (set_firmware_distribution d (count_total fs)) b)
      with (bucket_count fs b).
    rewrite Hm, Hc.
    destruct (bucket_eqb (classify t) b).
    + split; [reflexivity|]. rewrite length_app. simpl. lia.
    + split; [now rewrite app_nil_r|]. rewrite app_nil_r. lia.
Qed.

Lemma analyze_loop_reports (vehicles : list (json * json)) :
  forall (done : list (json * json)) (fs fs' : fleet_status),
    reports fs done -> analyze_loop fs vehicles = Ok fs' ->
    reports fs' (done ++ vehicles).
Proof.
  induction vehicles as [|item vehicles IH]; intros done fs fs' Hr H.
  - simpl in H. injection H as <-. now rewrite app_nil_r.
  - cbn [analyze_loop] in H.
    destruct (analyze_vehicle fs item) as [fs1|] eqn:E; [|discriminate].
    cbn [Py.bind] in H.
    replace (done ++ item :: vehicles)%list
      with ((done ++ [item]) ++ vehicles)%list
      by (now rewrite <- app_assoc).
    apply IH with fs1; [|exact H]. now apply reports_step with fs.
Qed.

Lemma analyze_loop_total (vehicles : list (json * json)) :
  forall fs : fleet_status,
    (forall item, In item vehicles -> fields_typed (snd item) = true) ->
    exists fs', analyze_loop fs vehicles = Ok fs'.
Proof.
  induction vehicles as [|[vehicle_id t] vehicles IH]; intros fs Ht.
  - simpl. eauto.
  - cbn [analyze_loop].
    destruct (analyze_vehicle_total fs vehicle_id t) as [fs1 E].
    { apply (Ht (vehicle_id, t)). now left. }
    rewrite E. cbn [Py.bind]. apply IH.
    intros item Hi. apply Ht. now right.
Qed.

Lemma classified_sum (vehicles : list (json * json)) :
  (List.length (classified_as UPDATING vehicles)
   + List.length (classified_as OFFLINE vehicles)
   + List.length (classified_as UP_TO_DATE vehicles)
   + List.length (classified_as INSUFFICIENT_BATTERY vehicles)
   + List.length (classified_as ELIGIBLE vehicles))%nat
  = List.length vehicles.
Proof.
  unfold classified_as.
  induction vehicles as [|item vehicles IH]; [reflexivity|].
  simpl. destruct (classify (snd item)); simpl; lia.
Qed.

Lemma classified_as_in (b : bucket) (vehicles : list (json * json))
  (vehicle_id t : json) :
  NoDup (map fst vehicles) -> In (vehicle_id, t) vehicles ->
  (In vehicle_id (classified_as b vehicles) <-> classify t = b).
Proof.
  intros Hnd Hin. unfold classified_as. split.
  - intros H. apply in_map_iff in H. destruct H as ([v t'] & Hv & Hf).
    simpl in Hv. subst v. apply filter_In in Hf. destruct Hf as [Hin' Hb].
    simpl in Hb.
    assert (t' = t).
    { clear - Hnd Hin Hin'.
      induction vehicles as [|[k0 v0] d IH]; [contradiction|].
      simpl in Hnd. inversion Hnd as [|? ? Hn Hd]; subst.
      destruct Hin as [[= -> ->] | Hin]; destruct Hin' as [[= <-] | Hin'];
        auto.
      - subst. exfalso. apply Hn. apply in_map_iff.
        now exists (vehicle_id, t').
      - exfalso. apply Hn. apply in_map_iff. now exists (k0, t). }
    subst t'. now destruct (classify t), b.
  - intros <-. apply in_map_iff. exists (vehicle_id, t). split; [reflexivity|].
    apply filter_In. split; [exact Hin|]. simpl. now destruct (classify t).
Qed.

End Classification.

(** ** The fleet report *)

Section Report.
Import UpdateManager.
Variable s3 : s3_store.
Variable bucket_name : string.

Lemma analyze_fleet_reports (files : list string) (fs : fleet_status) :
  analyze_fleet s3 bucket_name files = Ok fs ->
  reports fs (dedup s3 bucket_name files).
Proof.
  intros H. apply (analyze_loop_reports _ [] initial_status fs); [|exact H].
  split; [reflexivity|]. now intros [].
Qed.

Lemma dedup_typed (files : list string) :
  (forall t, In t (snapshots s3 bucket_name files) ->
             is_object t = true -> fields_typed t = true) ->
  forall item, In item (dedup s3 bucket_name files) ->
               fields_typed (snd item) = true.
Proof.
  intros Ht [k r] Hin.
  destruct (dedup_sound s3 bucket_name files) as [_ Hent].
  destruct (Hent k r Hin) as (Ho & _ & Hs). now apply Ht.
Qed.

(** C8.  The eligibility rate divides by [max(total_vehicles, 1)], which
    is never zero: the rate is defined for every fleet status, and it is
    0 for a report without vehicles. *)
Theorem eligibility_rate_defined :
  (forall fs : fleet_status,
      max_Z (total_vehicles fs) 1 <> 0
      /\ exists q : Q,
           update_eligibility_rate fs = Ok q
           /\ (q == inject_Z (update_eligible fs)
                    / inject_Z (max_Z (total_vehicles fs) 1) * 100)%Q)
  /\ forall (files : list string) (fs : fleet_status),
       analyze_fleet s3 bucket_name files = Ok fs ->
       total_vehicles fs = 0 ->
       exists q : Q, update_eligibility_rate fs = Ok q /\ (q == 0)%Q.
Proof.
  assert (Hmax : forall fs, max_Z (total_vehicles fs) 1 <> 0).
  { intros fs. unfold max_Z.
    destruct (Z.ltb_spec (total_vehicles fs) 1); lia. }
  split.
  - intros fs. split; [apply Hmax|].
    unfold update_eligibility_rate, true_div.
    destruct (Z.eqb_spec (max_Z (total_vehicles fs) 1) 0) as [E|_];
      [now apply Hmax in E|].
    cbn [Py.bind]. eexists. split; reflexivity.
  - intros files fs H Htot.
    destruct (analyze_fleet_reports files fs H) as [Hlen Hb].
    assert (He : update_eligible fs = 0).
    { pose proof (proj2 (Hb UPDATING)). pose proof (proj2 (Hb OFFLINE)).
      pose proof (proj2 (Hb UP_TO_DATE)).
      pose proof (proj2 (Hb INSUFFICIENT_BATTERY)).
      pose proof (proj2 (Hb ELIGIBLE)) as H5.
      pose proof (classified_sum (dedup s3 bucket_name files)).
      simpl in H5. lia. }
    unfold update_eligibility_rate, true_div. rewrite He, Htot.
    cbn. eexists. split; reflexivity.
Qed.

Lemma py_eq_null_l (b : json) : py_eq JNull b = true -> b = JNull.
Proof. destruct b; simpl; congruence. Qed.

Lemma dedup_step_keeps (vehicles : list (json * json)) (file_key : string)
  (key : json) :
  dict_wf vehicles ->
  (exists r, dict_find key vehicles = Some r) ->
  exists r, dict_find key (dedup_step s3 bucket_name vehicles file_key)
            = Some r.
Proof.
  intros Hwf Hr. rewrite dedup_step_cases.
  destruct (download_telemetry s3 bucket_name file_key) as [t|e]; [|exact Hr].
  destruct (is_object t); cbn [andb]; [|exact Hr].
  destruct (hashable (snapshot_id t)) eqn:Hh; [|exact Hr].
  assert (Hset : exists r, dict_find key (dict_set (snapshot_id t) t vehicles)
                           = Some r).
  { rewrite dict_find_set by auto.
    destruct (py_eq key (snapshot_id t)); eauto. }
  destruct (dict_find (snapshot_id t) vehicles) as [kept|]; [|exact Hset].
  destruct (is_object kept); [|exact Hr].
  destruct (py_gt (snapshot_timestamp t) (snapshot_timestamp kept))
    as [[|]|]; auto.
Qed.

(** No vehicle is dropped: a downloaded object with a hashable
    identifier has a retained snapshot under that identifier. *)
Lemma dedup_present (files : list string) (t : json) :
  In t (snapshots s3 bucket_name files) ->
  is_object t = true -> hashable (snapshot_id t) = true ->
  exists r, dict_find (snapshot_id t) (dedup s3 bucket_name files) = Some r.
Proof.
  intros Hin Ho Hh.
  induction files as [|file_key files IH] using rev_ind; [contradiction|].
  rewrite snapshots_app in Hin. rewrite dedup_app.
  destruct (dedup_sound s3 bucket_name files) as [Hwf _].
  apply in_app_or in Hin. destruct Hin as [Hin | Hin].
  - apply dedup_step_keeps; auto.
  - rewrite dedup_step_cases.
    destruct (download_telemetry s3 bucket_name file_key) as [t'|e];
      [|contradiction].
    destruct Hin as [-> | []]. rewrite Ho, Hh. cbn [andb].
    assert (Hset : exists r,
               dict_find (snapshot_id t)
                 (dict_set (snapshot_id t) t (dedup s3 bucket_name files))
               = Some r).
    { rewrite dict_find_set by auto. rewrite py_eq_refl by auto. eauto. }
    destruct (dict_find (snapshot_id t) (dedup s3 bucket_name files))
      as [kept|] eqn:Ef; [|exact Hset].
    destruct (is_object kept); [|eauto].
    destruct (py_gt (snapshot_timestamp t) (snapshot_timestamp kept))
      as [[|]|]; eauto.
Qed.

Lemma snapshots_in (files : list string) (file_key : string) (t : json) :
  In file_key files ->
  download_telemetry s3 bucket_name file_key = Ok t ->
  In t (snapshots s3 bucket_name files).
Proof.
  intros Hin Hd. unfold snapshots. apply in_flat_map.
  exists file_key. split; [exact Hin|]. rewrite Hd. now left.
Qed.

Lemma lacks_object (t : json) (key : string) :
  lacks t key -> is_object t = true.
Proof. destruct t; simpl; auto; contradiction. Qed.

Lemma lacks_field (t : json) (key : string) (dflt : json) :
  lacks t key -> field t (Some key) None dflt = dflt.
Proof. destruct t; simpl; try contradiction. now intros ->. Qed.

Lemma lacks_nested_field (t : json) (outer inner : string) (dflt : json) :
  lacks_nested t outer inner ->
  field t (Some outer) (Some inner) dflt = dflt.
Proof.
  destruct t; simpl; try contradiction.
  destruct (assoc_find outer items) as [sub|]; [|reflexivity].
  destruct sub; simpl; try contradiction. now intros ->.
Qed.

End Report.

(** ** The properties on a sample batch *)

Section SampleBatch.
Import UpdateManager Samples.

Ltac each_snapshot H :=
  vm_compute in H;
  repeat (destruct H as [<- | H]); [..|contradiction].

Lemma replacement_only_when_newer_witness :
  let vehicles := dedup store "fleet" ["b"] in
  (lacks snap_e "timestamp"
   \/ (exists s : string,
          snapshot_timestamp snap_e = JStr s
          /\ snapshot_timestamp snap_b = JStr s) ->
   dedup_step store "fleet" vehicles "e" = vehicles)
  /\ (dedup_step store "fleet" vehicles "e" = vehicles
      \/ (py_gt (snapshot_timestamp snap_e) (snapshot_timestamp snap_b)
          = Ok true
          /\ dedup_step store "fleet" vehicles "e"
             = dict_set (snapshot_id snap_e) snap_e vehicles)).
Proof.
  apply (replacement_only_when_newer store "fleet"
           (dedup store "fleet" ["b"]) "e" snap_e snap_b); reflexivity.
Defined.

Lemma dedup_keeps_greatest_witness :
  (forall a : json,
      In a (snapshots store "fleet" files) ->
      exists r : json,
        dict_find (snapshot_id a) (dedup store "fleet" files) = Some r
        /\ In r (snapshots store "fleet" files)
        /\ same_vehicle r a = true
        /\ forall b : json,
             In b (snapshots store "fleet" files) ->
             same_vehicle b a = true ->
             String.leb (timestamp_string b) (timestamp_string r) = true
             /\ (b <> r ->
                 String.ltb (timestamp_string b) (timestamp_string r) = true))
  /\ (forall files' : list string,
         Permutation files files' ->
         forall key : json,
           dict_find key (dedup store "fleet" files')
           = dict_find key (dedup store "fleet" files)).
Proof.
  apply (dedup_keeps_greatest store "fleet" files).
  - intros t Ht. each_snapshot Ht; reflexivity.
  - intros a b Ha Hb Hs Ht.
    each_snapshot Ha; each_snapshot Hb;
      first [ reflexivity
            | vm_compute in Hs; discriminate
            | vm_compute in Ht; discriminate ].
Defined.

Lemma eligibility_rate_defined_witness :
  exists q : Q, update_eligibility_rate initial_status = Ok q /\ (q == 0)%Q.
Proof.
  apply (proj2 (eligibility_rate_defined store "fleet") [] initial_status);
    reflexivity.
Defined.

(** The scenarios of the specification: an offline vehicle is OFFLINE
    whatever its firmware and battery; the latest firmware is UP_TO_DATE
    even with a low battery; otherwise the battery decides. *)
Example scenario_offline :
  analyze_fleet store "fleet" ["b"]
  = Ok (mk 1 0 0 0 0 1 [(JStr "1.0.0", 1)] [("offline", [JInt 1])]).
Proof. vm_compute. reflexivity. Qed.

Example scenario_up_to_date :
  analyze_fleet store "fleet" ["c"]
  = Ok (mk 1 0 0 1 0 0 [(JStr "2.0.0", 1)] [("up_to_date", [JInt 2])]).
Proof. vm_compute. reflexivity. Qed.

Example scenario_eligible :
  analyze_fleet store "fleet" ["a"]
  = Ok (mk 1 1 0 0 0 0 [(JStr "1.3.0", 1)] [("eligible", [JInt 1])]).
Proof. vm_compute. reflexivity. Qed.

Example scenario_low_battery :
  analyze_fleet store "fleet" ["d"]
  = Ok (mk 1 0 0 0 1 0 [(JStr "1.3.0", 1)] [("low_battery", [JInt 3])]).
Proof. vm_compute. reflexivity. Qed.

(** An object without any field is one vehicle of identifier [None],
    firmware "unknown" and battery 0. *)
Example scenario_empty_object :
  analyze_fleet store "fleet" ["g"]
  = Ok (mk 1 0 0 0 1 0 [(JStr "unknown", 1)] [("low_battery", [JNull])]).
Proof. vm_compute. reflexivity. Qed.

(** A key that cannot be downloaded is skipped; a battery percent that
    is not a number makes the comparison with the threshold raise. *)
Example scenario_failed_download :
  analyze_fleet store "fleet" ["a"; "missing"]
  = analyze_fleet store "fleet" ["a"].
Proof. vm_compute. reflexivity. Qed.

Example scenario_untyped_battery :
  analyze_fleet store "fleet" ["h"] = Raise TypeError.
Proof. vm_compute. reflexivity. Qed.

End SampleBatch.

(** ** Further properties of the identifier generator *)

Section IdentifierExtras.
Import VINGenerator Observed.

Lemma const_rng_unit (u : Q) :
  (0 <= u)%Q -> (u < 1)%Q -> unit_tape (const_rng u).
Proof. intros H0 H1 n. simpl. now split. Qed.

Lemma slice_to_append (a b : string) :
  slice_to (String.length a) (a ++ b) = a.
Proof. induction a as [|c a IH]; simpl; [now destruct b | now rewrite IH]. Qed.

Lemma slice_from_append (a b : string) :
  slice_from (String.length a) (a ++ b) = b.
Proof. induction a as [|c a IH]; simpl; [now destruct b | exact IH]. Qed.

Lemma append_assoc (a b c : string) : (a ++ b) ++ c = a ++ (b ++ c).
Proof. induction a as [|x a IH]; simpl; [reflexivity | now rewrite IH]. Qed.

Lemma get_append_len (a b : string) (c : ascii) :
  String.get (String.length a) (a ++ String c b) = Some c.
Proof. induction a as [|x a IH]; simpl; [reflexivity | exact IH]. Qed.

Lemma digit_is_digit (d : Z) :
  0 <= d <= 9 -> all_digits (str_of_int d) = true.
Proof.
  intros Hd.
  assert (H : d = 0 \/ d = 1 \/ d = 2 \/ d = 3 \/ d = 4 \/ d = 5 \/ d = 6
              \/ d = 7 \/ d = 8 \/ d = 9) by lia.
  repeat (destruct H as [H|H]; [subst d; now vm_compute|]).
  subst d; now vm_compute.
Qed.

Lemma serial_digits_digits (n : nat) :
  forall g : rng,
    unit_tape g -> all_digits (fst (serial_digits n g)) = true.
Proof.
  induction n as [|n IH]; intros g Hg; [reflexivity|].
  cbn [serial_digits].
  cbv beta iota zeta delta [Random.bind Random.ret randint].
  pose proof (randbelow_range (9 - 0 + 1) g Hg) as Hr.
  assert (Ht : tape (snd (randbelow (9 - 0 + 1) g)) = tape g)
    by reflexivity.
  destruct (randbelow (9 - 0 + 1) g) as [k g1]. cbn [fst snd] in Hr, Ht.
  assert (Hg1 : unit_tape g1) by (intros m; rewrite Ht; apply Hg).
  specialize (IH g1 Hg1).
  destruct (serial_digits n g1) as [r g2]. cbn [fst] in *.
  pose proof (digit_is_digit (0 + k) ltac:(lia)) as Hd.
  unfold all_digits in *. now rewrite forallb_append, IH, Hd.
Qed.

(** The layout of a generated identifier. *)
Lemma generate_layout (manufacturer : string) (g : rng) :
  unit_tape g ->
  exists (vds cd serial : string) (y pc : ascii),
    fst (generate manufacturer g)
    = Ok (wmi_get WMI_CODES manufacturer "5YJ" ++ vds ++ cd
          ++ String y (String pc serial))
    /\ String.length vds = 5%nat
    /\ In cd CHECK_CHARS
    /\ char_in y "LMNPRSTUVWXYZ" = true
    /\ char_in pc "ABCDEFGHJKLMNPRSTUVWXYZ" = true
    /\ String.length serial = 6%nat
    /\ all_digits serial = true.
Proof.
  intros Hg. unfold generate.
  cbv beta iota zeta delta [Random.bind Random.ret].
  destruct (wmi_in_alphabet manufacturer) as [Hw Hwl].
  set (wmi := wmi_get WMI_CODES manufacturer "5YJ") in *.
  destruct (choices_str_in "ABCDEFGHJKLMNPRSTUVWXYZ0123456789" 5
              ltac:(simpl; lia) g Hg) as (Hv & Hvl & Ht1).
  destruct (choices_str "ABCDEFGHJKLMNPRSTUVWXYZ0123456789" 5 g)
    as [vds g1]. cbn [fst snd] in Hv, Hvl, Ht1.
  assert (Hg1 : unit_tape g1) by (intros n; rewrite Ht1; apply Hg).
  destruct (choice_char_in "LMNPRSTUVWXYZ" g1 Hg1 ltac:(simpl; lia))
    as [Hy Ht2].
  destruct (choice_char "LMNPRSTUVWXYZ" g1) as [y g2].
  cbn [fst snd] in Hy, Ht2.
  assert (Hg2 : unit_tape g2) by (intros n; rewrite Ht2; apply Hg1).
  destruct (choice_char_in "ABCDEFGHJKLMNPRSTUVWXYZ" g2 Hg2
              ltac:(simpl; lia)) as [Hp Ht3].
  destruct (choice_char "ABCDEFGHJKLMNPRSTUVWXYZ" g2) as [pc g3].
  cbn [fst snd] in Hp, Ht3.
  assert (Hg3 : unit_tape g3) by (intros n; rewrite Ht3; apply Hg2).
  pose proof (serial_digits_digits 6 g3 Hg3) as Hsd.
  destruct (serial_digits_in 6 g3 Hg3) as (Hs & Hsl & _).
  destruct (serial_digits 6 g3) as [serial g4].
  cbn [fst snd] in Hs, Hsl, Hsd. cbn [fst].
  assert (Hl8 : String.length (wmi ++ vds) = 8%nat)
    by (rewrite length_append, Hwl, Hvl; reflexivity).
  assert (Ev : wmi ++ vds ++ String y "" ++ String pc "" ++ serial
               = (wmi ++ vds) ++ String y (String pc serial))
    by (now rewrite append_assoc).
  rewrite Ev.
  assert (E8 : slice_to 8 ((wmi ++ vds) ++ String y (String pc serial))
               = wmi ++ vds)
    by (rewrite <- Hl8; apply slice_to_append).
  assert (E8' : slice_from 8 ((wmi ++ vds) ++ String y (String pc serial))
                = String y (String pc serial))
    by (rewrite <- Hl8; apply slice_from_append).
  assert (E9 : slice_from 9 ((wmi ++ vds) ++ String y (String pc serial))
               = String pc serial).
  { replace ((wmi ++ vds) ++ String y (String pc serial))
      with (((wmi ++ vds) ++ String y "") ++ String pc serial)
      by (now rewrite append_assoc).
    assert (Hl9 : String.length ((wmi ++ vds) ++ String y "") = 9%nat)
      by (rewrite length_append, Hl8; reflexivity).
    rewrite <- Hl9. apply slice_from_append. }
  rewrite E8, E8', E9.
  set (body := (wmi ++ vds) ++ String pc serial).
  assert (Hba : in_alphabet body = true).
  { unfold in_alphabet in *. subst body.
    rewrite !forallb_append, Hw, Hv. cbn [string_forallb].
    rewrite Hs.
    assert (Hpin : char_in pc "ABCDEFGHJKLMNPRSTUVWXYZ0123456789" = true).
    { cbn [char_in] in Hp.
      repeat (apply orb_true_iff in Hp;
              destruct Hp as [Hp|Hp];
              [apply Ascii.eqb_eq in Hp; subst pc; now vm_compute|]).
      discriminate. }
    now rewrite Hpin. }
  assert (Hbl : (String.length body <= 17)%nat).
  { subst body. rewrite length_append, Hl8. simpl. lia. }
  assert (Hbp : plain_digits body = true).
  { unfold plain_digits. revert Hba. unfold in_alphabet.
    apply forallb_weaken. intros c Hc. now apply alphabet_char. }
  rewrite (calculate_check_digit_plain body Hbp Hbl). cbn [Py.bind].
  set (cd := let m := weighted_sum 0 body mod 11 in
             if (m =? 10)%Z then "X" else str_of_int m).
  assert (Hcd : In cd CHECK_CHARS).
  { apply digit_char_cases. apply Z.mod_pos_bound. lia. }
  exists vds, cd, serial, y, pc.
  split; [now rewrite append_assoc|]. now repeat split.
Qed.

(** X1.  For every manufacturer and all draws of [[0, 1)], [generate]
    returns a string of 17 characters taken from the digits and the 23
    letters other than I, O and Q. *)
Theorem generate_returns_vin (manufacturer : string) (g : rng) :
  unit_tape g ->
  exists vin : string,
    fst (generate manufacturer g) = Ok vin
    /\ String.length vin = 17%nat
    /\ in_alphabet vin = true
    /\ no_IOQ vin = true.
Proof. apply generate_shape. Qed.

Lemma generate_returns_vin_witness :
  exists vin : string,
    fst (generate "FORD" (const_rng (1 # 3))) = Ok vin
    /\ String.length vin = 17%nat
    /\ in_alphabet vin = true
    /\ no_IOQ vin = true.
Proof.
  apply (generate_returns_vin "FORD" (const_rng (1 # 3))).
  intros n. simpl. split; [discriminate | reflexivity].
Defined.

(** X2.  A generated identifier starts with the three characters of the
    manufacturer's code, [5YJ] for a manufacturer that is not in the
    table; its ninth character is one of [0]..[9], [X]; its tenth is a
    year letter of [LMNPRSTUVWXYZ]; its last six are decimal digits. *)
Theorem generate_fields (manufacturer : string) (g : rng) :
  unit_tape g ->
  exists vin : string,
    fst (generate manufacturer g) = Ok vin
    /\ slice_to 3 vin = wmi_get WMI_CODES manufacturer "5YJ"
    /\ (assoc_find manufacturer WMI_CODES = None -> slice_to 3 vin = "5YJ")
    /\ (exists c, String.get 8 vin = Some c /\ In (String c "") CHECK_CHARS)
    /\ (exists y, String.get 9 vin = Some y
                  /\ char_in y "LMNPRSTUVWXYZ" = true)
    /\ String.length (slice_from 11 vin) = 6%nat
    /\ all_digits (slice_from 11 vin) = true.
Proof.
  intros Hg.
  destruct (generate_layout manufacturer g Hg)
    as (vds & cd & serial & y & pc & E & Hvl & Hcd & Hy & Hp & Hsl & Hsd).
  destruct (wmi_in_alphabet manufacturer) as [_ Hwl].
  set (wmi := wmi_get WMI_CODES manufacturer "5YJ") in *.
  assert (Hcd1 : exists c, cd = String c "").
  { unfold CHECK_CHARS in Hcd. simpl in Hcd.
    repeat (destruct Hcd as [<- | Hcd]; [eauto|]). contradiction. }
  destruct Hcd1 as [c ->].
  eexists. split; [exact E|].
  assert (E3 : slice_to 3 (wmi ++ vds ++ String c "" ++ String y (String pc serial))
               = wmi) by (rewrite <- Hwl; apply slice_to_append).
  split; [exact E3|]. split.
  - intros Hnone. rewrite E3. subst wmi. clear - Hnone.
    unfold WMI_CODES in *. cbn [wmi_get assoc_find] in *.
    repeat match goal with
           | H : context [String.eqb manufacturer ?k] |- _ =>
               destruct (String.eqb manufacturer k); [discriminate|]
           end.
    reflexivity.
  - assert (Hl8 : String.length (wmi ++ vds) = 8%nat)
      by (rewrite length_append, Hwl, Hvl; reflexivity).
    assert (Hl9 : String.length ((wmi ++ vds) ++ String c "") = 9%nat)
      by (rewrite length_append, Hl8; reflexivity).
    assert (Hl11 : String.length
                     (((wmi ++ vds) ++ String c "") ++ String y (String pc ""))
                   = 11%nat)
      by (rewrite length_append, Hl9; reflexivity).
    split; [|split; [|split]].
    + exists c. split; [|exact Hcd].
      replace (wmi ++ vds ++ String c "" ++ String y (String pc serial))
        with ((wmi ++ vds) ++ String c (String y (String pc serial)))
        by (now rewrite append_assoc).
      rewrite <- Hl8. apply get_append_len.
    + exists y. split; [|exact Hy].
      replace (wmi ++ vds ++ String c "" ++ String y (String pc serial))
        with (((wmi ++ vds) ++ String c "") ++ String y (String pc serial))
        by (now rewrite !append_assoc).
      rewrite <- Hl9. apply get_append_len.
    + replace (wmi ++ vds ++ String c "" ++ String y (String pc serial))
        with ((((wmi ++ vds) ++ String c "") ++ String y (String pc ""))
              ++ serial)
        by (now rewrite !append_assoc).
      rewrite <- Hl11, slice_from_append. exact Hsl.
    + replace (wmi ++ vds ++ String c "" ++ String y (String pc serial))
        with ((((wmi ++ vds) ++ String c "") ++ String y (String pc ""))
              ++ serial)
        by (now rewrite !append_assoc).
      rewrite <- Hl11, slice_from_append. exact Hsd.
Qed.

Lemma generate_fields_witness :
  exists vin : string,
    fst (generate "ACME" (const_rng (1 # 3))) = Ok vin
    /\ slice_to 3 vin = wmi_get WMI_CODES "ACME" "5YJ"
    /\ (assoc_find "ACME" WMI_CODES = None -> slice_to 3 vin = "5YJ")
    /\ (exists c, String.get 8 vin = Some c /\ In (String c "") CHECK_CHARS)
    /\ (exists y, String.get 9 vin = Some y
                  /\ char_in y "LMNPRSTUVWXYZ" = true)
    /\ String.length (slice_from 11 vin) = 6%nat
    /\ all_digits (slice_from 11 vin) = true.
Proof.
  apply (generate_fields "ACME" (const_rng (1 # 3))).
  intros n. simpl. split; [discriminate | reflexivity].
Defined.

Lemma check_digit_loop_overflow (s : string) :
  forall (i : nat) (total : Z),
    plain_digits s = true ->
    (i <= 17)%nat -> (17 < i + String.length s)%nat ->
    check_digit_loop i s total = Raise IndexError.
Proof.
  induction s as [|c s IH]; intros i total Hp Hi Hlen; simpl in Hlen;
    [lia|].
  unfold plain_digits in Hp. simpl in Hp.
  apply andb_true_iff in Hp. destruct Hp as [Hc Hs].
  cbn [check_digit_loop]. rewrite (loop_value c Hc). cbn [Py.bind].
  destruct (Nat.eq_dec i 17) as [-> | Hne]; [reflexivity|].
  rewrite list_index_weights by lia. cbn [Py.bind].
  apply IH; [exact Hs | lia | lia].
Qed.

(** X3.  On a string of more than 17 characters, none of them a digit
    other than [0]..[9], [calculate_check_digit] raises [IndexError]: the
    weight vector has 17 entries. *)
Theorem calculate_check_digit_too_long (s : string) :
  plain_digits s = true ->
  (17 < String.length s)%nat ->
  calculate_check_digit s = Raise IndexError.
Proof.
  intros Hp Hlen. unfold calculate_check_digit.
  rewrite check_digit_loop_overflow by (auto; simpl; lia). reflexivity.
Qed.

Lemma calculate_check_digit_too_long_witness :
  calculate_check_digit "5YJSA1E14MF1234567" = Raise IndexError.
Proof.
  apply calculate_check_digit_too_long.
  - reflexivity.
  - simpl. lia.
Defined.

Lemma check_digit_loop_app (a s : string) :
  forall (i : nat) (total : Z),
    check_digit_loop i (a ++ s) total
    = Py.bind (check_digit_loop i a total)
        (fun t => check_digit_loop (i + String.length a) s t).
Proof.
  induction a as [|c a IH]; intros i total.
  - simpl. now rewrite Nat.add_0_r.
  - cbn [append check_digit_loop String.length].
    destruct (if isdigit c then int_of_char c
              else Ok (translit_get VIN_TRANSLITERATION c 0)) as [v|e];
      [|reflexivity].
    cbn [Py.bind].
    destruct (list_index VIN_WEIGHTS i) as [w|e]; [|reflexivity].
    cbn [Py.bind]. rewrite IH. now rewrite Nat.add_succ_r.
Qed.

(** X4.  The ninth character does not count: two strings that differ
    only there have the same check digit, its weight being 0. *)
Theorem check_digit_ignores_ninth (a b : string) (c c' : ascii) :
  String.length a = 8%nat ->
  plain_char c = true -> plain_char c' = true ->
  calculate_check_digit (a ++ String c b)
  = calculate_check_digit (a ++ String c' b).
Proof.
  intros Ha Hc Hc'. unfold calculate_check_digit.
  rewrite !check_digit_loop_app, Ha.
  destruct (check_digit_loop 0 a 0) as [t|e]; [|reflexivity].
  cbn [Py.bind Nat.add check_digit_loop].
  rewrite (loop_value c Hc), (loop_value c' Hc'). cbn [Py.bind].
  change (list_index VIN_WEIGHTS 8) with (@Ok Z 0). cbn [Py.bind].
  now rewrite !Z.mul_0_r.
Qed.

Lemma check_digit_ignores_ninth_witness :
  calculate_check_digit ("5YJSA1E1" ++ String "4" "MF12345")
  = calculate_check_digit ("5YJSA1E1" ++ String "X" "MF12345").
Proof.
  apply (check_digit_ignores_ninth "5YJSA1E1" "MF12345" "4" "X");
    reflexivity.
Defined.

End IdentifierExtras.

(** ** Further properties of the movement model *)

Section MovementExtras.
Import GPSSimulator Observed.

Lemma floor_range (u : Q) (n : Z) :
  (0 <= u)%Q -> (u < 1)%Q -> 0 < n ->
  0 <= Qfloor (u * inject_Z n) < n.
Proof.
  intros H0 H1 Hn.
  assert (Hn' : (0 < inject_Z n)%Q).
  { change (inject_Z 0 < inject_Z n)%Q. rewrite <- Zlt_Qlt. exact Hn. }
  split.
  - rewrite <- (Qfloor_Z 0). apply Qfloor_resp_le.
    apply Qmult_le_0_compat; lra.
  - rewrite Zlt_Qlt.
    apply Qle_lt_trans with (u * inject_Z n)%Q; [apply Qfloor_le|].
    setoid_replace (inject_Z n) with (1 * inject_Z n)%Q at 2 by ring.
    apply Qmult_lt_compat_r; assumption.
Qed.

(** X5.  For all draws of [[0, 1)], [get_random_city_coordinates]
    returns a point within 0.45 degree, on each axis, of one of the seven
    cities of the catalog, hence a latitude in [-90, 90] and a longitude
    in [-180, 180]. *)
Theorem city_coordinates_near_city (g : rng) :
  unit_tape g ->
  let p := fst (get_random_city_coordinates g) in
  near_city p
  /\ (-90 <= fst p /\ fst p <= 90)%Q
  /\ (-180 <= snd p /\ snd p <= 180)%Q.
Proof.
  intros Hg.
  assert (Hnear : near_city (fst (get_random_city_coordinates g))).
  { unfold get_random_city_coordinates.
    cbv beta iota zeta
        delta [Random.bind Random.ret uniform randbelow choice random].
    cbn [fst snd tape pos].
    destruct (floor_range (tape g (pos g)) 7) as [Hk0 Hk7];
      [apply Hg | apply Hg | lia |].
    change (inject_Z (Z.of_nat (Datatypes.length (map snd CITY_CENTERS))))
      with (inject_Z 7).
    set (k := Qfloor (tape g (pos g) * inject_Z 7)) in *.
    exists (nth (Z.to_nat k) (map snd CITY_CENTERS) (0, 0)%Q).
    split.
    - apply nth_In. simpl. lia.
    - destruct (Hg (S (pos g))), (Hg (S (S (pos g)))).
      set (c := nth (Z.to_nat k) (map snd CITY_CENTERS) (0, 0)%Q).
      cbn [fst snd]. split; split; lra. }
  revert Hnear. cbv zeta.
  generalize (fst (get_random_city_coordinates g)). intros p Hnear.
  split; [exact Hnear|].
  destruct Hnear as (c & Hc & Hlat & Hlon).
  unfold CITY_CENTERS in Hc. simpl in Hc.
  repeat (destruct Hc as [<- | Hc];
          [cbn [fst snd] in Hlat, Hlon; split; split; lra|]).
  contradiction.
Qed.

Lemma city_coordinates_near_city_witness :
  let p := fst (get_random_city_coordinates (const_rng (1 # 2))) in
  near_city p
  /\ (-90 <= fst p /\ fst p <= 90)%Q
  /\ (-180 <= snd p /\ snd p <= 180)%Q.
Proof.
  apply (city_coordinates_near_city (const_rng (1 # 2))).
  intros n. simpl. split; [discriminate | reflexivity].
Defined.

(** X6.  One call of [update_position] on a speed of [0, 120] changes
    the speed by at most 5 km/h, for all draws of [[0, 1)]. *)
Theorem speed_changes_by_at_most_five (self : t) (e : Q) (g : rng) :
  unit_tape g ->
  (0 <= speed_kmh self)%Q -> (speed_kmh self <= 120)%Q ->
  let self' := snd (fst (update_position self e g)) in
  (speed_kmh self - 5 <= speed_kmh self')%Q
  /\ (speed_kmh self' <= speed_kmh self + 5)%Q.
Proof.
  intros Hg H0 H120.
  unfold update_position.
  cbv beta iota zeta delta [Random.bind Random.ret uniform random].
  cbn [fst snd speed_kmh tape pos].
  destruct (Hg (pos g)) as [Hu0 Hu1].
  set (u := tape g (pos g)) in *.
  unfold max_Q, min_Q.
  destruct (Qlt_le_dec (speed_kmh self + (-5 + (5 - -5) * u)) 120);
    [destruct (Qlt_le_dec 0 (speed_kmh self + (-5 + (5 - -5) * u)))
    | destruct (Qlt_le_dec 0 120)];
    split; lra.
Qed.

Lemma speed_changes_by_at_most_five_witness :
  let self' := snd (fst (update_position Samples.gps0 60
                           (const_rng (1 # 4)))) in
  (speed_kmh Samples.gps0 - 5 <= speed_kmh self')%Q
  /\ (speed_kmh self' <= speed_kmh Samples.gps0 + 5)%Q.
Proof.
  apply (speed_changes_by_at_most_five Samples.gps0 60 (const_rng (1 # 4))).
  - intros n. simpl. split; [discriminate | reflexivity].
  - simpl. discriminate.
  - simpl. discriminate.
Defined.

Lemma clamp_closer (lo hi x y : Q) (d : Q) :
  (lo <= x)%Q -> (x <= hi)%Q ->
  (x - d <= y)%Q -> (y <= x + d)%Q ->
  (x - d <= max_Q lo (min_Q hi y))%Q /\ (max_Q lo (min_Q hi y) <= x + d)%Q.
Proof.
  intros Hlo Hhi H1 H2. unfold max_Q, min_Q.
  destruct (Qlt_le_dec y hi);
    [destruct (Qlt_le_dec lo y) | destruct (Qlt_le_dec lo hi)];
    split; lra.
Qed.

(** X7.  One call of [update_position] with a non-negative elapsed time
    moves a position of [-85, 85] x [-180, 180] on each axis by at most a
    tenth of the distance covered at the new speed, counted in degrees of
    111 km. *)
Theorem position_moves_by_at_most_a_tenth (self : t) (e : Q) (g : rng) :
  unit_tape g -> (0 <= e)%Q ->
  (-85 <= latitude self)%Q -> (latitude self <= 85)%Q ->
  (-180 <= longitude self)%Q -> (longitude self <= 180)%Q ->
  let self' := snd (fst (update_position self e g)) in
  let reach := (speed_kmh self' * e / 3600 / 111 * 0.1)%Q in
  (latitude self - reach <= latitude self')%Q
  /\ (latitude self' <= latitude self + reach)%Q
  /\ (longitude self - reach <= longitude self')%Q
  /\ (longitude self' <= longitude self + reach)%Q.
Proof.
  intros Hg He Hla0 Hla1 Hlo0 Hlo1.
  unfold update_position.
  cbv beta iota zeta delta [Random.bind Random.ret uniform random].
  cbn [fst snd speed_kmh latitude longitude tape pos].
  set (speed := max_Q 0 (min_Q 120 (speed_kmh self
                                     + (-5 + (5 - -5) * tape g (pos g))))).
  assert (Hs : (0 <= speed)%Q) by (apply (clamp_bounds 0 120); lra).
  set (dd := (speed * e / 3600 / 111)%Q).
  assert (Hdd : (0 <= dd)%Q).
  { unfold dd. apply Qle_shift_div_l; [lra|]. rewrite Qmult_0_l.
    apply Qle_shift_div_l; [lra|]. rewrite Qmult_0_l.
    now apply Qmult_le_0_compat. }
  destruct (Hg (S (S (pos g)))) as [Ha0 Ha1].
  destruct (Hg (S (S (S (pos g))))) as [Hb0 Hb1].
  set (ua := tape g (S (S (pos g)))) in *.
  set (ub := tape g (S (S (S (pos g))))) in *.
  assert (Hpa : (0 <= dd * ua)%Q) by (now apply Qmult_le_0_compat).
  assert (Hpb : (0 <= dd * ub)%Q) by (now apply Qmult_le_0_compat).
  assert (Hqa : (0 <= dd * (1 - ua))%Q)
    by (apply Qmult_le_0_compat; lra).
  assert (Hqb : (0 <= dd * (1 - ub))%Q)
    by (apply Qmult_le_0_compat; lra).
  assert (Ea : (dd * (-1 + (1 - -1) * ua) * 0.1
                == (2 * (dd * ua) - dd) * 0.1)%Q) by ring.
  assert (Eb : (dd * (-1 + (1 - -1) * ub) * 0.1
                == (2 * (dd * ub) - dd) * 0.1)%Q) by ring.
  assert (Eqa : (dd * (1 - ua) == dd - dd * ua)%Q) by ring.
  assert (Eqb : (dd * (1 - ub) == dd - dd * ub)%Q) by ring.
  destruct (clamp_closer (-85) 85 (latitude self)
              (latitude self + dd * (-1 + (1 - -1) * ua) * 0.1)
              (dd * 0.1)) as [L1 L2]; [lra | lra | lra | lra |].
  destruct (clamp_closer (-180) 180 (longitude self)
              (longitude self + dd * (-1 + (1 - -1) * ub) * 0.1)
              (dd * 0.1)) as [L3 L4]; [lra | lra | lra | lra |].
  repeat split; assumption.
Qed.

Lemma position_moves_by_at_most_a_tenth_witness :
  let self' := snd (fst (update_position Samples.gps0 60
                           (const_rng (1 # 4)))) in
  let reach := (speed_kmh self' * 60 / 3600 / 111 * 0.1)%Q in
  (latitude Samples.gps0 - reach <= latitude self')%Q
  /\ (latitude self' <= latitude Samples.gps0 + reach)%Q
  /\ (longitude Samples.gps0 - reach <= longitude self')%Q
  /\ (longitude self' <= longitude Samples.gps0 + reach)%Q.
Proof.
  apply (position_moves_by_at_most_a_tenth Samples.gps0 60
           (const_rng (1 # 4))).
  - intros n. simpl. split; [discriminate | reflexivity].
  - discriminate.
  - simpl. discriminate.
  - simpl. discriminate.
  - simpl. discriminate.
  - simpl. discriminate.
Defined.

End MovementExtras.

(** ** Further properties of the vehicle *)

Section VehicleExtras.
Import Vehicle TickFacts Observed.

Ltac rand_cbv :=
  cbv beta iota zeta
      delta [Random.bind Random.ret uniform randint randbelow choice random].

(** What [simulate_battery_drain] leaves untouched: everything but the
    battery level. *)
Lemma drain_frame (self : t) (e : Q) (g : rng) :
  let self' := fst (simulate_battery_drain self e g) in
  vehicle_id self' = vehicle_id self
  /\ vin self' = vin self
  /\ gps self' = gps self
  /\ firmware_version self' = firmware_version self
  /\ battery_health self' = battery_health self
  /\ odometer_km self' = odometer_km self
  /\ status self' = status self
  /\ signal_strength self' = signal_strength self
  /\ update_available self' = update_available self
  /\ update_downloaded self' = update_downloaded self
  /\ last_update_check self' = last_update_check self
  /\ model self' = model self
  /\ year self' = year self
  /\ connectivity self' = connectivity self.
Proof.
  unfold simulate_battery_drain.
  destruct (status_eqb (status self) ONLINE); [|now repeat split].
  rand_cbv.
  repeat match goal with
         | |- context [if ?c then _ else _] => destruct c
         end; now repeat split.
Qed.

Lemma telemetry_odometer (self : t) (now : string) (g : rng) :
  (odometer_km self
   <= odometer_km (snd (fst (generate_telemetry self now g))))%Q.
Proof.
  unfold generate_telemetry. rand_cbv.
  pose proof (update_position_step (gps self) 60 g) as [Hb _].
  destruct (GPSSimulator.update_position (gps self) 60 g) as [p g1].
  cbn [fst snd] in Hb.
  pose proof (drain_frame (set_gps (snd p) self) 60 g1) as Hf.
  destruct (simulate_battery_drain (set_gps (snd p) self) 60 g1)
    as [v2 g2].
  cbn [fst] in Hf.
  destruct Hf as (_ & _ & Hgps & _ & _ & Hod & _).
  cbn [gps odometer_km set_gps] in Hgps, Hod.
  destruct Hb as (_ & _ & _ & _ & Hs0 & _).
  assert (Hq : (0 <= GPSSimulator.speed_kmh (snd p) / 60)%Q)
    by (apply Qle_shift_div_l; lra).
  repeat match goal with
         | |- context [if ?c then _ else _] => destruct c
         end;
    cbn [fst snd odometer_km set_status set_connectivity set_odometer_km];
    rewrite Hod, Hgps; lra.
Qed.

(** X9.  The odometer never decreases, whatever is done to the vehicle:
    a tick adds the new speed divided by 60, which is not negative. *)
Theorem odometer_never_decreases (actions : list action) :
  forall (self : t) (g : rng),
    (odometer_km self <= odometer_km (fst (run self actions g)))%Q.
Proof.
  induction actions as [|a actions IH]; intros self g.
  - simpl. lra.
  - cbn [run]. unfold Random.bind.
    assert (Hstep : (odometer_km self <= odometer_km (fst (step self a g)))%Q).
    { destruct a as [e|now|s]; cbn [step].
      - destruct (drain_frame self e g) as (_ & _ & _ & _ & _ & -> & _).
        lra.
      - unfold Random.bind, Random.ret.
        pose proof (telemetry_odometer self now g) as H.
        destruct (generate_telemetry self now g) as [[payload v] g1].
        exact H.
      - simpl. lra. }
    destruct (step self a g) as [v1 g1]. cbn [fst] in Hstep.
    specialize (IH v1 g1). lra.
Qed.

Lemma telemetry_status (self : t) (now : string) (g : rng) :
  let self' := snd (fst (generate_telemetry self now g)) in
  status self' = status self
  \/ status self' = OFFLINE
  \/ (status self = OFFLINE /\ status self' = ONLINE).
Proof.
  unfold generate_telemetry. rand_cbv.
  destruct (GPSSimulator.update_position (gps self) 60 g) as [p g1].
  pose proof (drain_frame (set_gps (snd p) self) 60 g1) as Hf.
  destruct (simulate_battery_drain (set_gps (snd p) self) 60 g1)
    as [v2 g2].
  cbn [fst] in Hf.
  destruct Hf as (_ & _ & _ & _ & _ & _ & Hst & _).
  cbn [status set_gps] in Hst.
  repeat match goal with
         | |- context [if ?c then _ else _] => destruct c eqn:?
         end;
    cbn [fst snd status set_status set_connectivity set_odometer_km] in *;
    rewrite ?Hst in *; auto.
  all: right; right; split; [|reflexivity];
    destruct (status self); try discriminate; reflexivity.
Qed.

(** X10.  A vehicle that is ONLINE or OFFLINE stays ONLINE or OFFLINE
    under its own actions: no tick and no battery drain makes it
    UPDATING or ERROR. *)
Theorem status_stays_online_or_offline (actions : list action) :
  forall (self : t) (g : rng),
    online_or_offline (status self) ->
    Forall own_action actions ->
    online_or_offline (status (fst (run self actions g))).
Proof.
  induction actions as [|a actions IH]; intros self g Hs Ha.
  - exact Hs.
  - inversion Ha as [|? ? Ha1 Ha2]; subst.
    cbn [run]. unfold Random.bind.
    assert (Hstep : online_or_offline (status (fst (step self a g)))).
    { destruct a as [e|now|s]; cbn [step].
      - destruct (drain_frame self e g) as (_ & _ & _ & _ & _ & _ & -> & _).
        exact Hs.
      - unfold Random.bind, Random.ret.
        pose proof (telemetry_status self now g) as H.
        destruct (generate_telemetry self now g) as [[payload v] g1].
        cbn [fst snd] in *. unfold online_or_offline in *.
        destruct H as [-> | [-> | [_ ->]]]; auto.
      - contradiction. }
    destruct (step self a g) as [v1 g1]. cbn [fst] in Hstep.
    now apply IH.
Qed.

Lemma status_stays_online_or_offline_witness :
  online_or_offline
    (status (fst (run (Samples.vehicle0 ONLINE)
                      [Telemetry "2025-09-01T10:01:00"; Drain 60;
                       Telemetry "2025-09-01T10:02:00"]
                      (const_rng (1 # 100))))).
Proof.
  apply status_stays_online_or_offline.
  - left. reflexivity.
  - repeat constructor.
Defined.

(** The fields of the payload that the update manager reads. *)
Lemma payload_fields (self : t) (now : string) (g : rng) :
  let payload := fst (fst (generate_telemetry self now g)) in
  let self' := snd (fst (generate_telemetry self now g)) in
  UpdateManager.fields_typed payload = true
  /\ UpdateManager.stamped payload = true
  /\ UpdateManager.snapshot_id payload = JInt (vehicle_id self')
  /\ UpdateManager.snapshot_timestamp payload = JStr now
  /\ UpdateManager.snapshot_status payload
     = JStr (status_value (status self'))
  /\ UpdateManager.snapshot_firmware payload
     = JStr (firmware_version self')
  /\ UpdateManager.snapshot_battery payload
     = JFloat (round (battery_percent self') 2)
  /\ UpdateManager.snapshot_update_available payload
     = JBool (update_available self')
  /\ UpdateManager.field payload (Some "connectivity") (Some "connected")
       JNull
     = JBool (negb (status_eqb (status self') OFFLINE)).
Proof.
  unfold generate_telemetry. rand_cbv.
  destruct (GPSSimulator.update_position (gps self) 60 g) as [p g1].
  destruct (simulate_battery_drain (set_gps (snd p) self) 60 g1)
    as [v2 g2].
  repeat match goal with
         | |- context [if ?c then _ else _] => destruct c
         end;
    cbn [fst snd]; repeat split; reflexivity.
Qed.

Lemma telemetry_identity (self : t) (now : string) (g : rng) :
  let self' := snd (fst (generate_telemetry self now g)) in
  vehicle_id self' = vehicle_id self
  /\ vin self' = vin self
  /\ firmware_version self' = firmware_version self
  /\ update_available self' = update_available self.
Proof.
  unfold generate_telemetry. rand_cbv.
  destruct (GPSSimulator.update_position (gps self) 60 g) as [p g1].
  pose proof (drain_frame (set_gps (snd p) self) 60 g1) as Hf.
  destruct (simulate_battery_drain (set_gps (snd p) self) 60 g1)
    as [v2 g2].
  cbn [fst] in Hf.
  destruct Hf as (H1 & H2 & _ & H4 & _ & _ & _ & _ & H9 & _).
  cbn [vehicle_id vin firmware_version update_available set_gps]
    in H1, H2, H4, H9.
  repeat match goal with
         | |- context [if ?c then _ else _] => destruct c
         end;
    cbn [fst snd vehicle_id vin firmware_version update_available
         set_status set_connectivity set_odometer_km];
    now repeat split.
Qed.

(** X11.  The payload of a tick is a snapshot the update manager can
    read: an object with the vehicle's identifier and the clock reading
    as timestamp string, whose status, firmware version, update flag and
    battery percent (rounded to 2 decimals) are those of the vehicle
    after the tick, and whose [connected] flag is false exactly when the
    vehicle is OFFLINE. *)
Theorem telemetry_payload_is_snapshot (self : t) (now : string) (g : rng) :
  let payload := fst (fst (generate_telemetry self now g)) in
  let self' := snd (fst (generate_telemetry self now g)) in
  UpdateManager.fields_typed payload = true
  /\ UpdateManager.stamped payload = true
  /\ UpdateManager.snapshot_id payload = JInt (vehicle_id self)
  /\ UpdateManager.snapshot_timestamp payload = JStr now
  /\ UpdateManager.snapshot_status payload
     = JStr (status_value (status self'))
  /\ UpdateManager.snapshot_firmware payload
     = JStr (firmware_version self)
  /\ UpdateManager.snapshot_battery payload
     = JFloat (round (battery_percent self') 2)
  /\ UpdateManager.snapshot_update_available payload
     = JBool (update_available self)
  /\ UpdateManager.field payload (Some "connectivity") (Some "connected")
       JNull
     = JBool (negb (status_eqb (status self') OFFLINE)).
Proof.
  cbv zeta.
  destruct (payload_fields self now g)
    as (H1 & H2 & H3 & H4 & H5 & H6 & H7 & H8 & H9).
  destruct (telemetry_identity self now g) as (I1 & _ & I3 & I4).
  cbv zeta in *. rewrite I1 in H3. rewrite I3 in H6. rewrite I4 in H8.
  now repeat split.
Qed.

Lemma payload_bucket (self : t) (now : string) (g : rng) :
  UpdateManager.classify (fst (fst (generate_telemetry self now g)))
  = bucket_of_vehicle (snd (fst (generate_telemetry self now g))).
Proof.
  destruct (payload_fields self now g)
    as (_ & _ & _ & _ & H5 & H6 & H7 & _).
  cbv zeta in *.
  unfold UpdateManager.classify, bucket_of_vehicle.
  rewrite H5, H6, H7. cbn [UpdateManager.is_str num_of].
  destruct (status (snd (fst (generate_telemetry self now g))));
    reflexivity.
Qed.

(** X12.  The update manager puts the payload of a tick in the bucket
    the vehicle's own state gives: UPDATING or OFFLINE by its status,
    else UP_TO_DATE on firmware 2.0.0, else by the reported battery
    level against 50; analysing the payload raises no exception and adds
    one to the counter of that bucket. *)
Theorem telemetry_payload_bucket
  (self : t) (now : string) (g : rng) (fs : UpdateManager.fleet_status) :
  let payload := fst (fst (generate_telemetry self now g)) in
  let self' := snd (fst (generate_telemetry self now g)) in
  UpdateManager.classify payload = bucket_of_vehicle self'
  /\ exists fs' : UpdateManager.fleet_status,
       UpdateManager.analyze_vehicle fs (JInt (vehicle_id self), payload)
       = Ok fs'
       /\ UpdateManager.bucket_count fs' (bucket_of_vehicle self')
          = UpdateManager.bucket_count fs (bucket_of_vehicle self') + 1
       /\ UpdateManager.total_vehicles fs'
          = UpdateManager.total_vehicles fs + 1.
Proof.
  cbv zeta. split; [apply payload_bucket|].
  destruct (payload_fields self now g) as (Ht & _).
  cbv zeta in Ht.
  destruct (analyze_vehicle_total fs (JInt (vehicle_id self)) _ Ht)
    as [fs' E].
  exists fs'. split; [exact E|].
  destruct (analyze_vehicle_ok _ _ _ _ E) as (d & _ & ->).
  rewrite payload_bucket.
  rewrite bucket_count_count_in.
  split.
  - destruct (bucket_of_vehicle _); reflexivity.
  - destruct (bucket_of_vehicle _); reflexivity.
Qed.

(** X13.  [_generate_warnings] lists LOW_BATTERY exactly when the
    battery level is under 15, WEAK_SIGNAL exactly when the signal is
    under -80 dBm and BATTERY_HEALTH_DEGRADED exactly when the battery
    health is under 70; it lists nothing else and nothing twice. *)
Theorem warnings_characterised (self : t) :
  (In "LOW_BATTERY" (_generate_warnings self)
   <-> (battery_percent self < 15)%Q)
  /\ (In "WEAK_SIGNAL" (_generate_warnings self)
      <-> signal_strength self < -80)
  /\ (In "BATTERY_HEALTH_DEGRADED" (_generate_warnings self)
      <-> (battery_health self < 70)%Q)
  /\ NoDup (_generate_warnings self)
  /\ (forall w : string,
         In w (_generate_warnings self) ->
         w = "LOW_BATTERY" \/ w = "WEAK_SIGNAL"
         \/ w = "BATTERY_HEALTH_DEGRADED").
Proof.
  unfold _generate_warnings.
  destruct (Qlt_le_dec (battery_percent self) 15) as [Hb|Hb];
    destruct (Z.ltb_spec (signal_strength self) (-80)) as [Hs|Hs];
    destruct (Qlt_le_dec (battery_health self) 70) as [Hh|Hh];
    cbn [app];
    (split; [split|split; [split|split; [split|split]]]);
    match goal with
    | |- NoDup _ => repeat constructor; simpl; intuition discriminate
    | |- forall w, In w _ -> _ =>
        let H := fresh in intros ? H; simpl in H; intuition auto
    | |- In _ _ -> _ =>
        let H := fresh in
        intros H;
        first [assumption | simpl in H; exfalso; intuition discriminate]
    | |- _ -> In _ _ =>
        let H := fresh in
        intros H;
        first [ solve [simpl; auto 6]
              | exfalso;
                match type of H with
                | (_ < _)%Q => lra
                | _ => lia
                end ]
    end.
Qed.

(** X14.  One call of [simulate_battery_drain] from a level in [5, 100],
    with a non-negative elapsed time and draws of [[0, 1)], takes off at
    most half a percent per elapsed minute; the level rises only by a
    charge, which leaves it under 60; a vehicle that is not ONLINE keeps
    its level and consumes no draw. *)
Theorem drain_is_bounded (self : t) (e : Q) (g : rng) :
  unit_tape g -> battery_ok self -> (0 <= e)%Q ->
  let r := simulate_battery_drain self e g in
  (battery_percent self - 0.5 * (e / 60) <= battery_percent (fst r))%Q
  /\ ((battery_percent (fst r) <= battery_percent self)%Q
      \/ (battery_percent (fst r) < 60)%Q)
  /\ (status self <> ONLINE -> r = (self, g)).
Proof.
  intros Hg [Hlo Hhi] He. cbv zeta. unfold simulate_battery_drain.
  assert (He' : (0 <= e / 60)%Q) by (apply Qle_shift_div_l; lra).
  destruct (status_eqb (status self) ONLINE) eqn:Es.
  2:{ unfold Random.ret. cbn [fst].
      split; [lra | split; [left; lra | intros _; reflexivity]]. }
  assert (Hon : status self = ONLINE)
    by (destruct (status self); try discriminate; reflexivity).
  rand_cbv.
  cbn [battery_percent set_battery_percent tape pos fst snd].
  destruct (Hg (pos g)) as [Hu0 Hu1].
  set (r := (0.1 + (0.5 - 0.1) * tape g (pos g))%Q).
  assert (Hd : (0 <= r * (e / 60))%Q).
  { apply Qmult_le_0_compat; [subst r; lra | exact He']. }
  assert (Hd' : (0 <= (0.5 - r) * (e / 60))%Q).
  { apply Qmult_le_0_compat; [subst r; lra | exact He']. }
  assert (Ed : ((0.5 - r) * (e / 60) == 0.5 * (e / 60) - r * (e / 60))%Q)
    by ring.
  set (d := (r * (e / 60))%Q) in *.
  set (h := (0.5 * (e / 60))%Q) in *.
  assert (Hb : (battery_percent self - d
                <= max_Q 5 (battery_percent self - d)
                /\ max_Q 5 (battery_percent self - d)
                   <= battery_percent self)%Q).
  { unfold max_Q. destruct (Qlt_le_dec 5 (battery_percent self - d)); lra. }
  set (b := max_Q 5 (battery_percent self - d)) in *.
  destruct (Qlt_le_dec b 30) as [Hlow|Hlow];
    [|cbn [battery_percent set_battery_percent fst];
      repeat split; [lra | left; lra | congruence]].
  cbn [tape pos].
  destruct (Qlt_le_dec (tape g (S (pos g))) 0.1);
    cbn [battery_percent set_battery_percent tape pos fst snd];
    [|repeat split; [lra | left; lra | congruence]].
  destruct (Hg (S (S (pos g)))).
  unfold min_Q.
  destruct (Qlt_le_dec (b + (10 + (30 - 10) * tape g (S (S (pos g))))) 100);
    repeat split; try lra; try congruence; right; lra.
Qed.

Lemma drain_is_bounded_witness :
  let r := simulate_battery_drain (Samples.vehicle0 ONLINE) 120
             (const_rng (1 # 2)) in
  (battery_percent (Samples.vehicle0 ONLINE) - 0.5 * (120 / 60)
   <= battery_percent (fst r))%Q
  /\ ((battery_percent (fst r)
       <= battery_percent (Samples.vehicle0 ONLINE))%Q
      \/ (battery_percent (fst r) < 60)%Q)
  /\ (status (Samples.vehicle0 ONLINE) <> ONLINE
      -> r = (Samples.vehicle0 ONLINE, const_rng (1 # 2))).
Proof.
  apply (drain_is_bounded (Samples.vehicle0 ONLINE) 120 (const_rng (1 # 2))).
  - intros n. simpl. split; [discriminate | reflexivity].
  - unfold battery_ok. simpl. split; discriminate.
  - discriminate.
Defined.

(** X8.  For all draws of [[0, 1)], [Vehicle(vehicle_id)] is built
    without an exception: it carries the given identifier and a
    17-character identification number, a model and a firmware version
    of the catalogs (the firmware among the four oldest), a year of
    [2020, 2025], a battery level of [20, 100], a battery health of
    [85, 100], an odometer of [1000, 150000], a signal of [-90, -40] dBm
    and a speed of [30, 90]; it is ONLINE, placed near a city of the
    catalog, with no update downloaded. *)
Theorem init_postconditions (id : Z) (now : string) (g : rng) :
  unit_tape g ->
  exists self : t,
    fst (init id now g) = Ok self
    /\ vehicle_id self = id
    /\ String.length (vin self) = 17%nat
    /\ In (model self) VEHICLE_MODELS
    /\ 2020 <= year self <= 2025
    /\ In (firmware_version self) (firstn 4 FIRMWARE_VERSIONS)
    /\ (20 <= battery_percent self /\ battery_percent self <= 100)%Q
    /\ (85 <= battery_health self /\ battery_health self <= 100)%Q
    /\ (1000 <= odometer_km self /\ odometer_km self <= 150000)%Q
    /\ status self = ONLINE
    /\ -90 <= signal_strength self <= -40
    /\ (30 <= GPSSimulator.speed_kmh (gps self)
        /\ GPSSimulator.speed_kmh (gps self) <= 90)%Q
    /\ near_city (GPSSimulator.latitude (gps self),
                  GPSSimulator.longitude (gps self))
    /\ update_downloaded self = false
    /\ last_update_check self = now.
Proof.
  intros Hg. unfold init.
  cbv beta iota zeta delta [Random.bind].
  pose proof (generate_tape "TESLA" g) as Ht.
  destruct (generate_shape "TESLA" g Hg) as (vin0 & Ev & Hlen & _).
  destruct (VINGenerator.generate "TESLA" g) as [[vin1|e] g1];
    cbn [fst snd] in Ev, Ht; [|discriminate].
  injection Ev as ->.
  assert (Hg1 : unit_tape g1) by (intros n; rewrite Ht; apply Hg).
  cbv beta iota zeta
      delta [Random.bind Random.ret uniform randint randbelow choice random
             GPSSimulator.get_random_city_coordinates GPSSimulator.init].
  cbn [fst snd tape pos].
  assert (Hfl : forall k n, 0 < n ->
            0 <= Qfloor (tape g1 k * inject_Z n) < n).
  { intros k n Hn. apply floor_range; [apply Hg1 | apply Hg1 | exact Hn]. }
  assert (Hu : forall k, (0 <= tape g1 k)%Q /\ (tape g1 k < 1)%Q)
    by (intros k; apply Hg1).
  eexists. split; [reflexivity|].
  cbn [vehicle_id vin model year gps firmware_version battery_percent
       battery_health odometer_km status signal_strength last_update_check
       update_downloaded GPSSimulator.latitude GPSSimulator.longitude
       GPSSimulator.speed_kmh].
  split; [reflexivity|]. split; [exact Hlen|].
  split.
  { apply nth_In. specialize (Hfl (pos g1) 5 ltac:(lia)).
    change (Z.of_nat (Datatypes.length VEHICLE_MODELS)) with 5.
    simpl Datatypes.length. lia. }
  split.
  { specialize (Hfl (S (pos g1)) 6 ltac:(lia)).
    change (2025 - 2020 + 1) with 6. lia. }
  split.
  { apply nth_In.
    specialize (Hfl (S (S (S (S (S (S (pos g1))))))) 4 ltac:(lia)).
    change (Z.of_nat (Datatypes.length (firstn 4 FIRMWARE_VERSIONS)))
      with 4.
    simpl Datatypes.length. lia. }
  split.
  { destruct (Hu (S (S (S (S (S (S (S (pos g1))))))))). split; lra. }
  split.
  { destruct (Hu (S (S (S (S (S (S (S (S (pos g1)))))))))). split; lra. }
  split.
  { specialize (Hfl (S (S (S (S (S (S (S (S (S (pos g1))))))))))
                    149001 ltac:(lia)).
    change (150000 - 1000 + 1) with 149001.
    change 1000%Q with (inject_Z 1000).
    change 150000%Q with (inject_Z 150000).
    rewrite <- !Zle_Qle. lia. }
  split; [reflexivity|].
  split.
  { specialize (Hfl (S (S (S (S (S (S (S (S (S (S (S (pos g1))))))))))))
                    51 ltac:(lia)).
    change (-40 - -90 + 1) with 51. lia. }
  split.
  { destruct (Hu (S (S (S (S (S (pos g1))))))). split; lra. }
  split; [|split; reflexivity].
  specialize (Hfl (S (S (pos g1))) 7 ltac:(lia)).
  change (Z.of_nat (Datatypes.length (map snd GPSSimulator.CITY_CENTERS)))
    with 7.
  set (k := Qfloor (tape g1 (S (S (pos g1))) * inject_Z 7)) in *.
  exists (nth (Z.to_nat k) (map snd GPSSimulator.CITY_CENTERS) (0, 0)%Q).
  split.
  - apply nth_In. simpl. lia.
  - destruct (Hu (S (S (S (pos g1))))), (Hu (S (S (S (S (pos g1)))))).
    set (c := nth (Z.to_nat k) (map snd GPSSimulator.CITY_CENTERS)
                  (0, 0)%Q).
    cbn [fst snd]. split; split; lra.
Qed.

Lemma init_postconditions_witness :
  exists self : t,
    fst (init 7 "2025-09-01T10:00:00" (const_rng (1 # 2))) = Ok self
    /\ vehicle_id self = 7
    /\ String.length (vin self) = 17%nat
    /\ In (model self) VEHICLE_MODELS
    /\ 2020 <= year self <= 2025
    /\ In (firmware_version self) (firstn 4 FIRMWARE_VERSIONS)
    /\ (20 <= battery_percent self /\ battery_percent self <= 100)%Q
    /\ (85 <= battery_health self /\ battery_health self <= 100)%Q
    /\ (1000 <= odometer_km self /\ odometer_km self <= 150000)%Q
    /\ status self = ONLINE
    /\ -90 <= signal_strength self <= -40
    /\ (30 <= GPSSimulator.speed_kmh (gps self)
        /\ GPSSimulator.speed_kmh (gps self) <= 90)%Q
    /\ near_city (GPSSimulator.latitude (gps self),
                  GPSSimulator.longitude (gps self))
    /\ update_downloaded self = false
    /\ last_update_check self = "2025-09-01T10:00:00".
Proof.
  apply (init_postconditions 7 "2025-09-01T10:00:00" (const_rng (1 # 2))).
  intros n. simpl. split; [discriminate | reflexivity].
Defined.

End VehicleExtras.

(* ================================================================== *)
(** ** The report of the update manager *)

Section ReportExtras.
Import UpdateManager CloudWatch FleetReport.
Variable s3 : s3_store.
Variable bucket_name : string.

Lemma dict_set_length {V : Type} (k : json) (v : V) (d : list (json * V)) :
  (List.length (dict_set k v d) <= S (List.length d))%nat.
Proof.
  induction d as [|[k' v'] d IH]; cbn [dict_set List.length]; [lia|].
  destruct (py_eq k k'); cbn [List.length]; lia.
Qed.

Lemma dedup_step_length (vehicles : list (json * json)) (file_key : string) :
  (List.length (dedup_step s3 bucket_name vehicles file_key)
   <= List.length vehicles
      + List.length (snapshots s3 bucket_name [file_key]))%nat.
Proof.
  rewrite dedup_step_cases. unfold snapshots. cbn [flat_map].
  destruct (download_telemetry s3 bucket_name file_key) as [t|e];
    cbn [List.length app]; [|lia].
  pose proof (dict_set_length (snapshot_id t) t vehicles) as Hs.
  destruct (is_object t && hashable (snapshot_id t)); [|lia].
  destruct (dict_find (snapshot_id t) vehicles) as [kept|]; [|lia].
  destruct (is_object kept); [|lia].
  destruct (py_gt (snapshot_timestamp t) (snapshot_timestamp kept))
    as [[|]|]; lia.
Qed.

Lemma dedup_length (files : list string) :
  (List.length (dedup s3 bucket_name files)
   <= List.length (snapshots s3 bucket_name files))%nat.
Proof.
  induction files as [|file_key files IH] using rev_ind; [simpl; lia|].
  rewrite dedup_app, snapshots_app, length_app.
  pose proof (dedup_step_length (dedup s3 bucket_name files) file_key) as H.
  change (snapshots s3 bucket_name [file_key])
    with (match download_telemetry s3 bucket_name file_key with
          | Ok t => [t]
          | Raise _ => []
          end ++ [])%list in H.
  rewrite app_nil_r in H. lia.
Qed.

Lemma snapshots_length (files : list string) :
  (List.length (snapshots s3 bucket_name files) <= List.length files)%nat.
Proof.
  induction files as [|file_key files IH]; [simpl; lia|].
  unfold snapshots in *. cbn [flat_map]. rewrite length_app.
  destruct (download_telemetry s3 bucket_name file_key);
    cbn [List.length]; lia.
Qed.

Lemma classified_as_length (b : bucket) (vehicles : list (json * json)) :
  (List.length (classified_as b vehicles) <= List.length vehicles)%nat.
Proof.
  unfold classified_as. rewrite length_map. apply filter_length_le.
Qed.

(** X15.  A report of [analyze_fleet] counts at most one vehicle per
    file key of the batch, and no bucket holds more vehicles than the
    fleet: every counter lies between 0 and [total_vehicles], which lies
    between 0 and the number of files. *)
Theorem report_is_bounded (files : list string) (fs : fleet_status) :
  analyze_fleet s3 bucket_name files = Ok fs ->
  0 <= total_vehicles fs <= Z.of_nat (List.length files)
  /\ forall b : bucket, 0 <= bucket_count fs b <= total_vehicles fs.
Proof.
  intros E. destruct (analyze_fleet_reports s3 bucket_name files fs E)
    as [Ht Hb].
  pose proof (dedup_length files). pose proof (snapshots_length files).
  split; [lia|].
  intros b. destruct (Hb b) as [_ Hc].
  pose proof (classified_as_length b (dedup s3 bucket_name files)). lia.
Qed.


(** *** The firmware histogram *)

Lemma counter_incr_ok (k : json) (d d' : list (json * Z)) :
  counter_incr k d = Ok d' ->
  hashable k = true /\ d' = dict_set k (version_count k d + 1) d.
Proof.
  unfold counter_incr, version_count.
  destruct (hashable k); [|discriminate].
  intros [= <-]. now split.
Qed.

Lemma sum_counts_incr (k : json) (d : list (json * Z)) :
  sum_counts (dict_set k (version_count k d + 1) d) = sum_counts d + 1.
Proof.
  unfold sum_counts, version_count.
  induction d as [|[k' n] d IH]; cbn [dict_set dict_find map snd fold_right];
    [lia|].
  destruct (py_eq k k'); cbn [map snd fold_right]; lia.
Qed.

Lemma version_count_incr (v k : json) (d : list (json * Z)) :
  dict_wf d -> hashable k = true ->
  version_count v (dict_set k (version_count k d + 1) d)
  = version_count v d + (if py_eq k v then 1 else 0).
Proof.
  intros Hw Hk. unfold version_count at 1.
  rewrite (dict_find_set v k _ d Hw Hk).
  rewrite (py_eq_comm k v) by (left; exact Hk).
  destruct (py_eq v k) eqn:E.
  - unfold version_count. rewrite (dict_find_congr v k d Hw Hk E). lia.
  - unfold version_count. lia.
Qed.

Lemma on_version_app (v : json) (done : list (json * json))
  (item : json * json) :
  List.length (on_version v (done ++ [item]))
  = (List.length (on_version v done)
     + if py_eq (snapshot_firmware (snd item)) v then 1 else 0)%nat.
Proof.
  unfold on_version. rewrite filter_app, length_app. cbn [filter].
  destruct (py_eq (snapshot_firmware (snd item)) v); reflexivity.
Qed.

Lemma count_in_frame (b : bucket) (vehicle_id : json) (fs : fleet_status) :
  total_vehicles (count_in b vehicle_id fs) = total_vehicles fs
  /\ firmware_distribution (count_in b vehicle_id fs)
     = firmware_distribution fs.
Proof. destruct b; split; reflexivity. Qed.

Lemma histogram_step (fs fs' : fleet_status) (done : list (json * json))
  (item : json * json) :
  histogram_of fs done -> analyze_vehicle fs item = Ok fs' ->
  histogram_of fs' (done ++ [item]).
Proof.
  intros (Hw & Hs & Hp & Hc) E. destruct item as [vehicle_id t].
  destruct (analyze_vehicle_ok _ _ _ _ E) as (d & Ed & ->).
  cbn [firmware_distribution count_total] in Ed.
  destruct (counter_incr_ok _ _ _ Ed) as [Hk ->].
  unfold histogram_of.
  destruct (count_in_frame (classify t) vehicle_id
              (set_firmware_distribution
                 (dict_set (snapshot_firmware t)
                    (version_count (snapshot_firmware t)
                       (firmware_distribution fs) + 1)
                    (firmware_distribution fs))
                 (count_total fs))) as [-> ->].
  cbn [firmware_distribution total_vehicles set_firmware_distribution
       count_total].
  split; [now apply dict_wf_set|].
  split; [rewrite sum_counts_incr; lia|].
  split.
  - intros v n Hin. apply dict_set_in in Hin. destruct Hin as [Hin|Hin].
    + now apply (Hp v).
    + cbn [snd] in Hin. subst n.
      rewrite (Hc _ Hk). lia.
  - intros v Hv. rewrite version_count_incr by assumption.
    rewrite on_version_app. cbn [snd]. rewrite (Hc v Hv).
    destruct (py_eq (snapshot_firmware t) v); lia.
Qed.

Lemma histogram_loop (vehicles : list (json * json)) :
  forall (done : list (json * json)) (fs fs' : fleet_status),
    histogram_of fs done -> analyze_loop fs vehicles = Ok fs' ->
    histogram_of fs' (done ++ vehicles).
Proof.
  induction vehicles as [|item vehicles IH]; intros done fs fs' H E.
  - cbn [analyze_loop] in E. injection E as <-. now rewrite app_nil_r.
  - cbn [analyze_loop] in E.
    destruct (analyze_vehicle fs item) as [fs1|e] eqn:E1;
      cbn [Py.bind] in E; [|discriminate].
    replace (done ++ item :: vehicles)%list
      with ((done ++ [item]) ++ vehicles)%list
      by (now rewrite <- app_assoc).
    apply (IH _ fs1); [|exact E].
    now apply (histogram_step fs).
Qed.

Lemma histogram_report (files : list string) (fs : fleet_status) :
  analyze_fleet s3 bucket_name files = Ok fs ->
  histogram_of fs (dedup s3 bucket_name files).
Proof.
  intros E. apply (histogram_loop _ [] initial_status fs); [|exact E].
  repeat split; try reflexivity; cbn; try tauto.
Qed.

(** X16.  In a report of [analyze_fleet] the firmware histogram counts,
    for every version, the retained vehicles whose snapshot gives that
    version (the version [unknown] for a snapshot without one): an entry
    of the histogram counts at least one vehicle, a version no vehicle
    reports has no entry, no version has two entries, and the counts sum
    to [total_vehicles]. *)
Theorem firmware_histogram_counts (files : list string) (fs : fleet_status) :
  analyze_fleet s3 bucket_name files = Ok fs ->
  (forall v : json,
      hashable v = true ->
      version_count v (firmware_distribution fs)
      = Z.of_nat (List.length (on_version v (dedup s3 bucket_name files))))
  /\ (forall (v : json) (n : Z),
         In (v, n) (firmware_distribution fs) ->
         1 <= n
         /\ n = Z.of_nat
                  (List.length (on_version v (dedup s3 bucket_name files))))
  /\ (forall v : json,
         hashable v = true ->
         on_version v (dedup s3 bucket_name files) = [] ->
         dict_find v (firmware_distribution fs) = None)
  /\ NoDup (map fst (firmware_distribution fs))
  /\ sum_counts (firmware_distribution fs) = total_vehicles fs.
Proof.
  intros E. destruct (histogram_report files fs E) as (Hw & Hs & Hp & Hc).
  split; [exact Hc|]. split; [|split; [|split; [now apply dict_wf_nodup
                                                | exact Hs]]].
  - intros v n Hin. split; [now apply (Hp v)|].
    assert (Hv : hashable v = true).
    { clear - Hw Hin. induction (firmware_distribution fs) as [|[k m] d IH];
        [contradiction|].
      destruct Hw as (Hk & _ & Hw). destruct Hin as [[= -> ->]|Hin];
        [exact Hk | now apply IH]. }
    rewrite <- (Hc v Hv). unfold version_count.
    now rewrite (dict_in_find v n _ Hw Hin).
  - intros v Hv Hnone.
    destruct (dict_find v (firmware_distribution fs)) as [n|] eqn:Ef;
      [|reflexivity].
    destruct (dict_find_in _ _ _ Ef) as (k0 & Hin & _).
    pose proof (Hp _ _ Hin) as Hn.
    pose proof (Hc v Hv) as Hcv. unfold version_count in Hcv.
    rewrite Ef, Hnone in Hcv. cbn in Hcv. lia.
Qed.

(** *** Files that change nothing *)

Lemma dict_find_set_same {V : Type} (k : json) (v : V) (d : list (json * V)) :
  py_eq k k = true -> dict_find k (dict_set k v d) = Some v.
Proof.
  intros Hk. induction d as [|[k' v'] d IH]; cbn [dict_set dict_find].
  - now rewrite Hk.
  - destruct (py_eq k k') eqn:E; cbn [dict_find]; rewrite E;
      [reflexivity | exact IH].
Qed.

Lemma dict_set_twice {V : Type} (k : json) (v : V) (d : list (json * V)) :
  py_eq k k = true -> dict_set k v (dict_set k v d) = dict_set k v d.
Proof.
  intros Hk. induction d as [|[k' v'] d IH]; cbn [dict_set].
  - now rewrite Hk.
  - destruct (py_eq k k') eqn:E; cbn [dict_set]; rewrite E;
      [reflexivity | now rewrite IH].
Qed.

Lemma dedup_step_same_document (vehicles : list (json * json))
  (file_key file_key' : string) (t : json) :
  download_telemetry s3 bucket_name file_key = Ok t ->
  download_telemetry s3 bucket_name file_key' = Ok t ->
  dedup_step s3 bucket_name
    (dedup_step s3 bucket_name vehicles file_key) file_key'
  = dedup_step s3 bucket_name vehicles file_key.
Proof.
  intros E E'.
  assert (Hset : is_object t && hashable (snapshot_id t) = true ->
                 dedup_step s3 bucket_name
                   (dict_set (snapshot_id t) t vehicles) file_key'
                 = dict_set (snapshot_id t) t vehicles).
  { intros Hoh. rewrite dedup_step_cases, E', Hoh.
    apply andb_prop in Hoh. destruct Hoh as [Ho Hh].
    pose proof (py_eq_refl _ Hh) as Hr.
    rewrite (dict_find_set_same _ t vehicles Hr), Ho.
    destruct (py_gt (snapshot_timestamp t) (snapshot_timestamp t))
      as [[|]|]; try reflexivity.
    now apply dict_set_twice. }
  rewrite (dedup_step_cases s3 bucket_name vehicles file_key), E.
  destruct (is_object t && hashable (snapshot_id t)) eqn:Hoh.
  - destruct (dict_find (snapshot_id t) vehicles) as [kept|] eqn:Ef;
      [|now apply Hset].
    destruct (is_object kept) eqn:Hk.
    + destruct (py_gt (snapshot_timestamp t) (snapshot_timestamp kept))
        as [[|]|] eqn:Eg; try (now apply Hset);
        now rewrite dedup_step_cases, E', Hoh, Ef, Hk, Eg.
    + now rewrite dedup_step_cases, E', Hoh, Ef, Hk.
  - now rewrite dedup_step_cases, E', Hoh.
Qed.

(** X18.  A document stored under two keys that follow each other in the
    batch is analysed as if the second key were not listed: the retained
    snapshots and the report are those of the batch without it.  In
    particular a key listed twice in a row counts once. *)
Theorem same_document_twice
  (before after : list string) (file_key file_key' : string) (t : json) :
  download_telemetry s3 bucket_name file_key = Ok t ->
  download_telemetry s3 bucket_name file_key' = Ok t ->
  dedup s3 bucket_name (before ++ file_key :: file_key' :: after)
  = dedup s3 bucket_name (before ++ file_key :: after)
  /\ analyze_fleet s3 bucket_name (before ++ file_key :: file_key' :: after)
     = analyze_fleet s3 bucket_name (before ++ file_key :: after).
Proof.
  intros E E'.
  assert (H : dedup s3 bucket_name (before ++ file_key :: file_key' :: after)
              = dedup s3 bucket_name (before ++ file_key :: after)).
  { unfold dedup. rewrite !fold_left_app. cbn [fold_left].
    now rewrite (dedup_step_same_document _ _ _ t E E'). }
  split; [exact H|]. unfold analyze_fleet. now rewrite H.
Qed.

Lemma dedup_step_unusable (vehicles : list (json * json)) (file_key : string) :
  usable s3 bucket_name file_key = false ->
  dedup_step s3 bucket_name vehicles file_key = vehicles.
Proof.
  unfold usable. intros H. rewrite dedup_step_cases.
  destruct (download_telemetry s3 bucket_name file_key) as [t|e];
    [|reflexivity].
  now rewrite H.
Qed.

Lemma dedup_usable_from (files : list string) :
  forall vehicles : list (json * json),
    fold_left (dedup_step s3 bucket_name) files vehicles
    = fold_left (dedup_step s3 bucket_name)
        (filter (usable s3 bucket_name) files) vehicles.
Proof.
  induction files as [|file_key files IH]; intros vehicles; [reflexivity|].
  cbn [fold_left filter].
  destruct (usable s3 bucket_name file_key) eqn:E; cbn [fold_left].
  - apply IH.
  - rewrite (dedup_step_unusable _ _ E). apply IH.
Qed.

(** X19.  [analyze_fleet] ignores every file key whose download or
    parsing raises, whose document is not an object, or whose
    [vehicle_id] is a list or an object: the retained snapshots and the
    result are those of the batch restricted to the other keys. *)
Theorem unusable_files_are_ignored (files : list string) :
  dedup s3 bucket_name files
  = dedup s3 bucket_name (filter (usable s3 bucket_name) files)
  /\ analyze_fleet s3 bucket_name files
     = analyze_fleet s3 bucket_name (filter (usable s3 bucket_name) files).
Proof.
  assert (H : dedup s3 bucket_name files
              = dedup s3 bucket_name (filter (usable s3 bucket_name) files))
    by apply dedup_usable_from.
  split; [exact H|]. unfold analyze_fleet. now rewrite H.
Qed.

(** *** The exceptions of the second loop *)

Lemma json_get_raise (j : json) (key : string) (dflt : json) (e : exn) :
  json_get j key dflt = Raise e -> e = AttributeError.
Proof.
  destruct j; cbn [json_get]; try (now intros [= <-]).
  destruct (assoc_find key items); discriminate.
Qed.

Lemma extract_info_raise (t : json) (e : exn) :
  extract_info t = Raise e -> e = AttributeError.
Proof.
  unfold extract_info.
  repeat match goal with
         | |- Py.bind (json_get ?j ?k ?d) _ = Raise _ -> _ =>
             let E := fresh "E" in
             destruct (json_get j k d) eqn:E; cbn [Py.bind];
             [|intros [= <-]; now apply json_get_raise in E]
         end.
  discriminate.
Qed.

Lemma analyze_vehicle_raise (fs : fleet_status) (item : json * json)
  (e : exn) :
  analyze_vehicle fs item = Raise e -> e = AttributeError \/ e = TypeError.
Proof.
  unfold analyze_vehicle.
  destruct (extract_info (snd item)) as [[[[fw bp] st] ua]|e0] eqn:E;
    cbn [Py.bind].
  - unfold counter_incr. destruct (hashable fw); cbn [Py.bind];
      [|intros [= <-]; now right].
    destruct (py_eq st (JStr "updating")); [discriminate|].
    destruct (py_eq st (JStr "offline")); [discriminate|].
    destruct (py_eq fw (JStr LATEST_FIRMWARE_VERSION)); [discriminate|].
    destruct (py_lt bp (JInt MINIMUM_BATTERY_PERCENT)) as [[|]|e1] eqn:El;
      cbn [Py.bind]; try discriminate.
    intros [= <-]. right.
    destruct bp as [| | | | | |]; cbn in El; congruence.
  - intros [= <-]. left. now apply extract_info_raise in E.
Qed.

Lemma analyze_loop_raise (vehicles : list (json * json)) :
  forall (fs : fleet_status) (e : exn),
    analyze_loop fs vehicles = Raise e ->
    e = AttributeError \/ e = TypeError.
Proof.
  induction vehicles as [|item vehicles IH]; intros fs e; cbn [analyze_loop];
    [discriminate|].
  destruct (analyze_vehicle fs item) as [fs1|e1] eqn:E; cbn [Py.bind].
  - apply IH.
  - intros [= <-]. now apply analyze_vehicle_raise in E.
Qed.

Lemma forallb_false {A : Type} (f : A -> bool) (l : list A) :
  forallb f l = false -> exists x, In x l /\ f x = false.
Proof.
  induction l as [|a l IH]; cbn [forallb]; [discriminate|].
  destruct (f a) eqn:E; cbn [andb].
  - intros H. destruct (IH H) as (x & Hin & Hx).
    exists x. split; [now right | exact Hx].
  - intros _. exists a. split; [now left | exact E].
Qed.

(** X20.  When [analyze_fleet] raises, the exception is an
    [AttributeError] or a [TypeError], and one of the retained snapshots
    has a field of the wrong type: a [firmware] or [battery] that is not
    an object, a firmware version that is a list or an object, or a
    battery percent that is not a number. *)
Theorem analyze_fleet_raises (files : list string) (e : exn) :
  analyze_fleet s3 bucket_name files = Raise e ->
  (e = AttributeError \/ e = TypeError)
  /\ exists vehicle_id t : json,
       In (vehicle_id, t) (dedup s3 bucket_name files)
       /\ fields_typed t = false.
Proof.
  intros E. split; [now apply (analyze_loop_raise _ _ _ E)|].
  destruct (forallb (fun item => fields_typed (snd item))
              (dedup s3 bucket_name files)) eqn:Ef.
  - exfalso. rewrite forallb_forall in Ef.
    destruct (analyze_loop_total (dedup s3 bucket_name files)
                initial_status Ef) as [fs Hfs].
    unfold analyze_fleet in E. congruence.
  - destruct (forallb_false _ _ Ef) as ([vehicle_id t] & Hin & Ht).
    now exists vehicle_id, t.
Qed.

(** *** The batch handed to CloudWatch *)

Lemma rate_defined (fs : fleet_status) :
  exists q : Q, update_eligibility_rate fs = Ok q.
Proof.
  unfold update_eligibility_rate, true_div, max_Z.
  destruct (total_vehicles fs <? 1)%Z eqn:E.
  - cbn. eexists. reflexivity.
  - apply Z.ltb_ge in E.
    destruct (total_vehicles fs =? 0)%Z eqn:E0; [apply Z.eqb_eq in E0; lia|].
    cbn. eexists. reflexivity.
Qed.

Lemma values_of_app (name : string) (l m : list metric) :
  values_of name (l ++ m) = (values_of name l ++ values_of name m)%list.
Proof. unfold values_of. now rewrite filter_app, map_app. Qed.

Lemma values_of_firmware (name timestamp : string) (d : list (json * Z)) :
  values_of name
    (map (fun item : json * Z =>
            mk_metric "VehiclesByFirmware" (JInt (snd item)) "Count"
              timestamp
              [("Fleet", JStr "All"); ("FirmwareVersion", fst item)]) d)
  = if String.eqb "VehiclesByFirmware" name
    then map (fun item : json * Z => JInt (snd item)) d
    else [].
Proof.
  unfold values_of.
  induction d as [|item d IH]; cbn [map filter MetricName].
  - now destruct (String.eqb "VehiclesByFirmware" name).
  - destruct (String.eqb "VehiclesByFirmware" name) eqn:E;
      cbn [map Value]; now rewrite IH.
Qed.

Lemma sum_ints_counts (d : list (json * Z)) :
  sum_ints (map (fun item : json * Z => JInt (snd item)) d) = sum_counts d.
Proof.
  unfold sum_ints, sum_counts.
  induction d as [|item d IH]; cbn [map fold_right]; [reflexivity|].
  now rewrite IH.
Qed.

(** X21.  For a report of [analyze_fleet], [publish_update_metrics]
    makes one request to CloudWatch, in the namespace [FleetOTA], and
    raises exactly when the service does.  The batch holds seven fleet
    metrics and one [VehiclesByFirmware] metric per version of the
    histogram; each bucket counter is published once under its name, and
    the [VehiclesByFirmware] values sum to the value of
    [TotalVehicles]. *)
Theorem published_update_metrics
  (files : list string) (fs : fleet_status) (cw : client)
  (timestamp : string) :
  analyze_fleet s3 bucket_name files = Ok fs ->
  exists data : list metric,
    snd (publish_update_metrics cw timestamp fs)
    = mk_client (requests cw ++ [("FleetOTA", data)]) (fails cw)
    /\ fst (publish_update_metrics cw timestamp fs)
       = match fails cw (List.length (requests cw)) with
         | Some e => Raise e
         | None => Ok tt
         end
    /\ List.length data
       = (7 + List.length (firmware_distribution fs))%nat
    /\ values_of "TotalVehicles" data = [JInt (total_vehicles fs)]
    /\ (forall b : bucket,
           values_of (bucket_metric b) data = [JInt (bucket_count fs b)])
    /\ sum_ints (values_of "VehiclesByFirmware" data) = total_vehicles fs.
Proof.
  intros E. destruct (histogram_report files fs E) as (_ & Hs & _).
  unfold publish_update_metrics, metric_data.
  destruct (rate_defined fs) as [q ->]. cbn [Py.bind].
  eexists. split; [|split; [|split; [|split; [|split]]]].
  - unfold put_metric_data.
    destruct (fails cw (List.length (requests cw))); reflexivity.
  - unfold put_metric_data.
    destruct (fails cw (List.length (requests cw))); reflexivity.
  - rewrite length_app, length_map. reflexivity.
  - rewrite values_of_app, values_of_firmware. reflexivity.
  - intros b. rewrite values_of_app, values_of_firmware.
    destruct b; reflexivity.
  - rewrite values_of_app, values_of_firmware.
    cbn [String.eqb Ascii.eqb Bool.eqb].
    change (values_of "VehiclesByFirmware" _) with (@nil json).
    cbn [app]. rewrite sum_ints_counts. exact Hs.
Qed.

End ReportExtras.

Section ReportSamples.
Import UpdateManager CloudWatch FleetReport Samples ReportSamples.

Lemma report_is_bounded_witness :
  0 <= 1 <= Z.of_nat (List.length ["b"])
  /\ forall b : bucket,
       0 <= bucket_count
              (mk 1 0 0 0 0 1 [(JStr "1.0.0", 1)] [("offline", [JInt 1])]) b
         <= 1.
Proof.
  apply (report_is_bounded store "fleet" ["b"]
           (mk 1 0 0 0 0 1 [(JStr "1.0.0", 1)] [("offline", [JInt 1])])).
  reflexivity.
Defined.

Lemma firmware_histogram_counts_witness :
  (forall v : json,
      hashable v = true ->
      version_count v (firmware_distribution report)
      = Z.of_nat (List.length (on_version v (dedup store "fleet" files))))
  /\ (forall (v : json) (n : Z),
         In (v, n) (firmware_distribution report) ->
         1 <= n
         /\ n = Z.of_nat
                  (List.length (on_version v (dedup store "fleet" files))))
  /\ (forall v : json,
         hashable v = true ->
         on_version v (dedup store "fleet" files) = [] ->
         dict_find v (firmware_distribution report) = None)
  /\ NoDup (map fst (firmware_distribution report))
  /\ sum_counts (firmware_distribution report) = total_vehicles report.
Proof.
  apply (firmware_histogram_counts store "fleet" files report).
  reflexivity.
Defined.

Lemma same_document_twice_witness :
  dedup store "fleet" (["b"] ++ "a" :: "a" :: ["c"])
  = dedup store "fleet" (["b"] ++ "a" :: ["c"])
  /\ analyze_fleet store "fleet" (["b"] ++ "a" :: "a" :: ["c"])
     = analyze_fleet store "fleet" (["b"] ++ "a" :: ["c"]).
Proof.
  apply (same_document_twice store "fleet" ["b"] ["c"] "a" "a" snap_a);
    reflexivity.
Defined.

Lemma analyze_fleet_raises_witness :
  (TypeError = AttributeError \/ TypeError = TypeError)
  /\ exists vehicle_id t : json,
       In (vehicle_id, t) (dedup store "fleet" ["h"])
       /\ fields_typed t = false.
Proof.
  apply (analyze_fleet_raises store "fleet" ["h"] TypeError).
  reflexivity.
Defined.

Lemma published_update_metrics_witness :
  exists data : list metric,
    snd (publish_update_metrics quiet "2025-09-01T10:06:00" report)
    = mk_client (requests quiet ++ [("FleetOTA", data)]) (fails quiet)
    /\ fst (publish_update_metrics quiet "2025-09-01T10:06:00" report)
       = match fails quiet (List.length (requests quiet)) with
         | Some e => Raise e
         | None => Ok tt
         end
    /\ List.length data
       = (7 + List.length (firmware_distribution report))%nat
    /\ values_of "TotalVehicles" data = [JInt (total_vehicles report)]
    /\ (forall b : bucket,
           values_of (bucket_metric b) data
           = [JInt (bucket_count report b)])
    /\ sum_ints (values_of "VehiclesByFirmware" data)
       = total_vehicles report.
Proof.
  apply (published_update_metrics store "fleet" files report quiet
           "2025-09-01T10:06:00").
  reflexivity.
Defined.

End ReportSamples.

(* ================================================================== *)
(** ** The fleet simulator *)

Section FleetExtras.
Import Vehicle FleetSimulator.

Ltac rand_beta :=
  cbv beta iota zeta
      delta [Random.bind Random.ret uniform randint randbelow choice random].

Lemma upload_frame (self : FleetSimulator.t) (data : json) (vehicle_id : Z)
  (timestamp : string) (millis : Z) :
  let ok := fst (upload_to_s3 self data vehicle_id timestamp millis) in
  let self' := snd (upload_to_s3 self data vehicle_id timestamp millis) in
  telemetry_sent self' = telemetry_sent self + (if ok then 1 else 0)
  /\ upload_errors self' = upload_errors self + (if ok then 0 else 1)
  /\ vehicles self' = vehicles self
  /\ s3_bucket self' = s3_bucket self
  /\ S3.fails (s3_client self') = S3.fails (s3_client self).
Proof.
  unfold upload_to_s3.
  destruct (json_get data "vin" (JStr "")) as [vin|e]; cbn [Py.bind];
    [|cbn; repeat split; lia].
  destruct (json_get data "timestamp" (JStr "")) as [ts|e]; cbn [Py.bind];
    [|cbn; repeat split; lia].
  unfold S3.put_object.
  destruct (S3.fails (s3_client self) (List.length (S3.calls (s3_client self))));
    cbn; repeat split; lia.
Qed.

Lemma upload_object (self : FleetSimulator.t) (data : json) (vehicle_id : Z)
  (timestamp : string) (millis : Z) :
  UpdateManager.is_object data = true ->
  let ok := fst (upload_to_s3 self data vehicle_id timestamp millis) in
  let self' := snd (upload_to_s3 self data vehicle_id timestamp millis) in
  exists r : S3.request,
    S3.calls (s3_client self') = (S3.calls (s3_client self) ++ [r])%list
    /\ S3.Bucket r = s3_bucket self
    /\ S3.Body r = data
    /\ ok = match S3.fails (s3_client self)
                    (List.length (S3.calls (s3_client self))) with
            | Some _ => false
            | None => true
            end.
Proof.
  intros Ho. unfold upload_to_s3.
  rewrite !(json_get_object _ _ _ Ho). cbn [Py.bind].
  unfold S3.put_object.
  destruct (S3.fails (s3_client self) (List.length (S3.calls (s3_client self))));
    cbn; eexists; repeat split; reflexivity.
Qed.

(** X22.  [upload_to_s3] raises nothing: a failed upload is counted.  It
    adds one to [telemetry_sent] when it returns [True] and one to
    [upload_errors] when it returns [False], and leaves the vehicles
    alone.  For a payload that is an object it makes one call of
    [put_object], to the bucket of the simulator and with the payload as
    body, and returns [True] exactly when the service accepts the call;
    for any other payload it makes no call and returns [False]. *)
Theorem upload_is_counted (self : FleetSimulator.t) (data : json)
  (vehicle_id : Z) (timestamp : string) (millis : Z) :
  let ok := fst (upload_to_s3 self data vehicle_id timestamp millis) in
  let self' := snd (upload_to_s3 self data vehicle_id timestamp millis) in
  telemetry_sent self' = telemetry_sent self + (if ok then 1 else 0)
  /\ upload_errors self' = upload_errors self + (if ok then 0 else 1)
  /\ vehicles self' = vehicles self
  /\ (UpdateManager.is_object data = true ->
      exists r : S3.request,
        S3.calls (s3_client self') = (S3.calls (s3_client self) ++ [r])%list
        /\ S3.Bucket r = s3_bucket self
        /\ S3.Body r = data
        /\ (ok = true
            <-> S3.fails (s3_client self)
                  (List.length (S3.calls (s3_client self))) = None))
  /\ (UpdateManager.is_object data = false ->
      ok = false /\ s3_client self' = s3_client self).
Proof.
  cbv zeta.
  destruct (upload_frame self data vehicle_id timestamp millis)
    as (H1 & H2 & H3 & _).
  cbv zeta in *.
  split; [exact H1|]. split; [exact H2|]. split; [exact H3|]. split.
  - intros Ho.
    destruct (upload_object self data vehicle_id timestamp millis Ho)
      as (r & Hc & Hb & Hd & Hok).
    cbv zeta in *. exists r.
    split; [exact Hc|]. split; [exact Hb|]. split; [exact Hd|].
    rewrite Hok.
    destruct (S3.fails (s3_client self)
                (List.length (S3.calls (s3_client self))));
      split; intros; congruence.
  - intros Ho. unfold upload_to_s3.
    rewrite (json_get_not_object _ _ _ Ho). cbn. now split.
Qed.

(** *** One pass over the fleet *)

Lemma payload_object (self : Vehicle.t) (now : string) (g : rng) :
  let payload := fst (fst (generate_telemetry self now g)) in
  UpdateManager.is_object payload = true
  /\ UpdateManager.snapshot_id payload
     = JInt (vehicle_id (snd (fst (generate_telemetry self now g))))
  /\ vehicle_id (snd (fst (generate_telemetry self now g)))
     = vehicle_id self.
Proof.
  cbv zeta.
  destruct (payload_fields self now g) as (_ & Hs & Hid & _).
  destruct (telemetry_identity self now g) as (Hv & _).
  cbv zeta in *.
  apply stamped_inv in Hs. destruct Hs as (Ho & _).
  now repeat split.
Qed.

Lemma for_vehicles_accounted (todo : list Vehicle.t) :
  forall (clock : nat -> reading) (i : nat) (self : FleetSimulator.t)
         (counts : tally) (g : rng),
    accounted todo
      (fst (fst (fst (for_vehicles todo clock i self counts g))))
      self
      (snd (fst (fst (for_vehicles todo clock i self counts g))))
      counts
      (snd (fst (for_vehicles todo clock i self counts g))).
Proof.
  induction todo as [|vehicle todo IH]; intros clock i self counts g.
  - cbn. unfold accounted. cbn [map List.length].
    repeat split; try lia.
    exists []. now rewrite app_nil_r.
  - cbn [for_vehicles]. cbv beta iota zeta delta [Random.bind Random.ret].
    destruct (payload_object vehicle (isoformat (clock i)) g)
      as (Ho & Hid & Hv).
    destruct (generate_telemetry vehicle (isoformat (clock i)) g)
      as [[payload v'] g1].
    cbn [fst snd] in Ho, Hid, Hv |- *.
    pose proof (upload_frame self payload (vehicle_id v')
                  (hour_path (clock i)) (millis (clock i))) as Hf.
    pose proof (upload_object self payload (vehicle_id v')
                  (hour_path (clock i)) (millis (clock i)) Ho) as Hu.
    cbv zeta in Hf, Hu.
    destruct (upload_to_s3 self payload (vehicle_id v')
                (hour_path (clock i)) (millis (clock i))) as [ok self1].
    cbn [fst snd] in Hf, Hu |- *.
    destruct Hf as (F1 & F2 & F3 & F4 & _).
    destruct Hu as (r & U1 & U2 & U3 & _).
    match goal with
    | |- context [for_vehicles todo clock (S i) self1 ?c g1] =>
        specialize (IH clock (S i) self1 c g1);
        destruct (for_vehicles todo clock (S i) self1 c g1)
          as [[[vs' self'] counts'] g2]
    end.
    cbn [fst snd] in IH |- *.
    destruct IH as (I1 & I2 & I3 & I4 & I5 & I6 & I7 & I8 & sent & I9 & I10).
    unfold accounted. cbn [map List.length].
    rewrite I1, Hv.
    assert (Hc : successful_uploads
                   (if ok
                    then mk_tally (successful_uploads counts + 1)
                           (failed_uploads counts)
                    else mk_tally (successful_uploads counts)
                           (failed_uploads counts + 1))
                 = successful_uploads counts + (if ok then 1 else 0)
                 /\ failed_uploads
                      (if ok
                       then mk_tally (successful_uploads counts + 1)
                              (failed_uploads counts)
                       else mk_tally (successful_uploads counts)
                              (failed_uploads counts + 1))
                    = failed_uploads counts + (if ok then 0 else 1))
      by (destruct ok; cbn; split; lia).
    destruct Hc as [C1 C2]. rewrite C1, C2 in *.
    split; [reflexivity|].
    split; [destruct ok; lia|].
    split; [destruct ok; lia|].
    split; [destruct ok; lia|].
    split; [destruct ok; lia|].
    split; [destruct ok; lia|].
    split; [congruence|].
    split; [congruence|].
    exists (r :: sent). split.
    + rewrite I9, U1, <- app_assoc. reflexivity.
    + cbn [map]. rewrite I10, U2, U3, Hid, Hv, F4. reflexivity.
Qed.

(** X23.  One pass of [run_simulation] handles every vehicle once, in
    fleet order: each vehicle's payload goes to [put_object] of the
    simulator's bucket, one call per vehicle; the uploads counted as
    successful and as failed add up to the size of the fleet and are
    added to [telemetry_sent] and [upload_errors]; the fleet keeps its
    vehicles' identifiers and their order. *)
Theorem iteration_handles_every_vehicle
  (self : FleetSimulator.t) (clock : nat -> reading) (g : rng) :
  let self' := fst (fst (iteration self clock g)) in
  let counts := snd (fst (iteration self clock g)) in
  successful_uploads counts + failed_uploads counts
  = Z.of_nat (List.length (vehicles self))
  /\ 0 <= successful_uploads counts
  /\ 0 <= failed_uploads counts
  /\ telemetry_sent self' = telemetry_sent self + successful_uploads counts
  /\ upload_errors self' = upload_errors self + failed_uploads counts
  /\ map vehicle_id (vehicles self') = map vehicle_id (vehicles self)
  /\ exists sent : list S3.request,
       S3.calls (s3_client self') = (S3.calls (s3_client self) ++ sent)%list
       /\ map (fun r => (S3.Bucket r, UpdateManager.snapshot_id (S3.Body r)))
              sent
          = map (fun v => (s3_bucket self, JInt (vehicle_id v)))
                (vehicles self).
Proof.
  cbv zeta. unfold iteration.
  cbv beta iota zeta delta [Random.bind Random.ret].
  pose proof (for_vehicles_accounted (vehicles self) clock 0 self
                (mk_tally 0 0) g) as H.
  destruct (for_vehicles (vehicles self) clock 0 self (mk_tally 0 0) g)
    as [[[vs' self'] counts'] g1].
  cbn [fst snd] in H |- *.
  destruct H as (H1 & H2 & H3 & H4 & H5 & H6 & H7 & H8 & sent & H9 & H10).
  cbn [successful_uploads failed_uploads] in *.
  cbn [set_vehicles telemetry_sent upload_errors vehicles s3_client].
  split; [lia|]. split; [lia|]. split; [lia|]. split; [lia|].
  split; [lia|]. split; [exact H1|].
  exists sent. now split.
Qed.

(** *** What the uploads cannot change *)

Lemma telemetry_clock (self : Vehicle.t) (now now' : string) (g : rng) :
  snd (fst (generate_telemetry self now g))
  = snd (fst (generate_telemetry self now' g))
  /\ snd (generate_telemetry self now g)
     = snd (generate_telemetry self now' g).
Proof.
  unfold generate_telemetry. rand_beta.
  destruct (GPSSimulator.update_position (gps self) 60 g) as [p g1].
  destruct (simulate_battery_drain (set_gps (snd p) self) 60 g1)
    as [v2 g2].
  repeat match goal with
         | |- context [if ?c then _ else _] => destruct c
         end;
    cbn [fst snd]; split; reflexivity.
Qed.

Lemma for_vehicles_independent (todo : list Vehicle.t) :
  forall (clock clock' : nat -> reading) (i i' : nat)
         (self self' : FleetSimulator.t) (counts counts' : tally) (g : rng),
    fst (fst (fst (for_vehicles todo clock i self counts g)))
    = fst (fst (fst (for_vehicles todo clock' i' self' counts' g)))
    /\ snd (for_vehicles todo clock i self counts g)
       = snd (for_vehicles todo clock' i' self' counts' g).
Proof.
  induction todo as [|vehicle todo IH];
    intros clock clock' i i' self self' counts counts' g.
  - now split.
  - cbn [for_vehicles]. cbv beta iota zeta delta [Random.bind Random.ret].
    destruct (telemetry_clock vehicle (isoformat (clock i))
                (isoformat (clock' i')) g) as [Hv Hg].
    destruct (generate_telemetry vehicle (isoformat (clock i)) g)
      as [[payload v1] g1].
    destruct (generate_telemetry vehicle (isoformat (clock' i')) g)
      as [[payload' v1'] g1'].
    cbn [fst snd] in Hv, Hg |- *. subst v1' g1'.
    match goal with
    | |- context [for_vehicles todo clock (S i) ?a ?c g1] =>
        match goal with
        | |- context [for_vehicles todo clock' (S i') ?a' ?c' g1] =>
            destruct (IH clock clock' (S i) (S i') a a' c c' g1) as [I1 I2];
            destruct (for_vehicles todo clock (S i) a c g1)
              as [[[vs s1] c1] g2];
            destruct (for_vehicles todo clock' (S i') a' c' g1)
              as [[[vs' s1'] c1'] g2']
        end
    end.
    cbn [fst snd] in I1, I2 |- *. now subst.
Qed.

Lemma iteration_independent
  (self self' : FleetSimulator.t) (clock clock' : nat -> reading) (g : rng) :
  vehicles self = vehicles self' ->
  vehicles (fst (fst (iteration self clock g)))
  = vehicles (fst (fst (iteration self' clock' g)))
  /\ snd (iteration self clock g) = snd (iteration self' clock' g).
Proof.
  intros Hv. unfold iteration.
  cbv beta iota zeta delta [Random.bind Random.ret]. rewrite Hv.
  destruct (for_vehicles_independent (vehicles self') clock clock' 0 0
              self self' (mk_tally 0 0) (mk_tally 0 0) g) as [I1 I2].
  destruct (for_vehicles (vehicles self') clock 0 self (mk_tally 0 0) g)
    as [[[vs s1] c1] g1].
  destruct (for_vehicles (vehicles self') clock' 0 self' (mk_tally 0 0) g)
    as [[[vs' s1'] c1'] g1'].
  cbn [fst snd] in I1, I2 |- *. now subst.
Qed.

(** X24.  What happens to the uploads has no effect on the fleet: two
    simulators with the same vehicles, run for the same number of passes
    on the same random draws, end with the same vehicles and leave the
    generator in the same state, whatever their S3 clients answer,
    whatever their counters are and whatever the clock shows. *)
Theorem fleet_is_independent_of_uploads
  (clocks clocks' : list (nat -> reading)) :
  forall (self self' : FleetSimulator.t) (g : rng),
    vehicles self = vehicles self' ->
    List.length clocks = List.length clocks' ->
    vehicles (fst (iterations self clocks g))
    = vehicles (fst (iterations self' clocks' g))
    /\ snd (iterations self clocks g) = snd (iterations self' clocks' g).
Proof.
  revert clocks'.
  induction clocks as [|clock clocks IH]; intros [|clock' clocks'];
    intros self self' g Hv Hl; try discriminate.
  - now split.
  - cbn [iterations]. cbv beta iota zeta delta [Random.bind Random.ret].
    destruct (iteration_independent self self' clock clock' g Hv)
      as [I1 I2].
    destruct (iteration self clock g) as [[s1 c1] g1].
    destruct (iteration self' clock' g) as [[s1' c1'] g1'].
    cbn [fst snd] in I1, I2 |- *. subst g1'.
    apply IH; [exact I1 | now injection Hl].
Qed.

(** *** The fleet over the passes *)

Lemma for_vehicles_battery (todo : list Vehicle.t) :
  forall (clock : nat -> reading) (i : nat) (self : FleetSimulator.t)
         (counts : tally) (g : rng),
    unit_tape g -> Forall battery_ok todo ->
    Forall battery_ok
      (fst (fst (fst (for_vehicles todo clock i self counts g))))
    /\ tape (snd (for_vehicles todo clock i self counts g)) = tape g.
Proof.
  induction todo as [|vehicle todo IH]; intros clock i self counts g Hg Hb.
  - now split.
  - cbn [for_vehicles]. cbv beta iota zeta delta [Random.bind Random.ret].
    inversion Hb as [|? ? Hb1 Hb2]; subst.
    destruct (generate_telemetry_ok vehicle (isoformat (clock i)) g Hg Hb1)
      as [T1 T2].
    destruct (generate_telemetry vehicle (isoformat (clock i)) g)
      as [[payload v1] g1].
    cbn [fst snd] in T1, T2 |- *.
    assert (Hg1 : unit_tape g1) by (intros n; rewrite T2; apply Hg).
    match goal with
    | |- context [for_vehicles todo clock (S i) ?a ?c g1] =>
        destruct (IH clock (S i) a c g1 Hg1 Hb2) as [I1 I2];
        destruct (for_vehicles todo clock (S i) a c g1)
          as [[[vs s1] c1] g2]
    end.
    cbn [fst snd] in I1, I2 |- *.
    split; [now constructor | congruence].
Qed.

(** X25.  A fleet whose battery levels are in [5, 100] keeps them there
    through any number of passes of [run_simulation], for all draws of
    [[0, 1)]. *)
Theorem fleet_batteries_stay_in_range (clocks : list (nat -> reading)) :
  forall (self : FleetSimulator.t) (g : rng),
    unit_tape g -> Forall battery_ok (vehicles self) ->
    Forall battery_ok (vehicles (fst (iterations self clocks g))).
Proof.
  induction clocks as [|clock clocks IH]; intros self g Hg Hb;
    [exact Hb|].
  cbn [iterations]. cbv beta iota zeta delta [Random.bind Random.ret].
  unfold iteration. cbv beta iota zeta delta [Random.bind Random.ret].
  destruct (for_vehicles_battery (vehicles self) clock 0 self
              (mk_tally 0 0) g Hg Hb) as [B1 B2].
  destruct (for_vehicles (vehicles self) clock 0 self (mk_tally 0 0) g)
    as [[[vs s1] c1] g1].
  cbn [fst snd] in B1, B2 |- *.
  apply IH.
  - intros n. rewrite B2. apply Hg.
  - exact B1.
Qed.

Lemma iterations_accounted (clocks : list (nat -> reading)) :
  forall (self : FleetSimulator.t) (g : rng),
    let self' := fst (iterations self clocks g) in
    map vehicle_id (vehicles self') = map vehicle_id (vehicles self)
    /\ telemetry_sent self <= telemetry_sent self'
    /\ upload_errors self <= upload_errors self'
    /\ telemetry_sent self' + upload_errors self'
       = telemetry_sent self + upload_errors self
         + Z.of_nat (List.length clocks)
           * Z.of_nat (List.length (vehicles self))
    /\ List.length (S3.calls (s3_client self'))
       = (List.length (S3.calls (s3_client self))
          + List.length clocks * List.length (vehicles self))%nat.
Proof.
  induction clocks as [|clock clocks IH]; intros self g; cbv zeta.
  - cbn. repeat split; lia.
  - cbn [iterations]. cbv beta iota zeta delta [Random.bind Random.ret].
    unfold iteration. cbv beta iota zeta delta [Random.bind Random.ret].
    pose proof (for_vehicles_accounted (vehicles self) clock 0 self
                  (mk_tally 0 0) g) as H.
    destruct (for_vehicles (vehicles self) clock 0 self (mk_tally 0 0) g)
      as [[[vs s1] c1] g1].
    cbn [fst snd] in H |- *.
    destruct H as (H1 & H2 & H3 & H4 & H5 & H6 & H7 & H8 & sent & H9 & H10).
    cbn [successful_uploads failed_uploads] in *.
    specialize (IH (set_vehicles vs s1) g1). cbv zeta in IH.
    destruct IH as (I1 & I2 & I3 & I4 & I5).
    cbn [set_vehicles telemetry_sent upload_errors vehicles s3_client]
      in I1, I2, I3, I4, I5.
    assert (Hl : List.length vs = List.length (vehicles self)).
    { rewrite <- (length_map vehicle_id vs), H1. apply length_map. }
    assert (Hs : List.length sent = List.length (vehicles self)).
    { rewrite <- (length_map
                    (fun r => (S3.Bucket r,
                               UpdateManager.snapshot_id (S3.Body r))) sent),
        H10. apply length_map. }
    rewrite Hl in I4, I5. rewrite H9, length_app, Hs in I5.
    cbn [List.length].
    split; [congruence|].
    split; [lia|]. split; [lia|]. split; [lia|]. lia.
Qed.

(** *** The summary *)

Lemma true_div_ok (a b : Z) :
  b <> 0 -> UpdateManager.true_div a b = Ok (inject_Z a / inject_Z b)%Q.
Proof.
  intros Hb. unfold UpdateManager.true_div.
  destruct (b =? 0)%Z eqn:E; [apply Z.eqb_eq in E; contradiction|].
  reflexivity.
Qed.

Lemma shares_ok (items : list (string * Z)) (n : Z) :
  n <> 0 ->
  exists l : list (string * Z * Q),
    shares items n = Ok l /\ map fst l = items.
Proof.
  intros Hn. induction items as [|[version count] items IH].
  - exists []. now split.
  - destruct IH as (l & El & Hl). cbn [shares].
    rewrite (true_div_ok count n Hn). cbn [Py.bind]. rewrite El.
    cbn [Py.bind]. eexists. split; [reflexivity|].
    cbn [map fst]. now rewrite Hl.
Qed.

Lemma print_summary_ok (self : FleetSimulator.t) :
  telemetry_sent self + upload_errors self <> 0 ->
  vehicles self <> [] ->
  exists s : summary,
    _print_summary self = Ok s
    /\ Vehicles s = Z.of_nat (List.length (vehicles self))
    /\ Telemetry_uploaded s = telemetry_sent self
    /\ Upload_errors s = upload_errors self
    /\ Success_rate s
       = (inject_Z (telemetry_sent self)
          / inject_Z (telemetry_sent self + upload_errors self) * 100)%Q
    /\ Online s = count_status ONLINE (vehicles self)
    /\ Offline s = count_status OFFLINE (vehicles self)
    /\ Avg_battery s
       = (sum_battery (vehicles self)
          / inject_Z (Z.of_nat (List.length (vehicles self))))%Q
    /\ listed s = sorted (firmware_counts (vehicles self)).
Proof.
  intros Hc Hv.
  assert (Hn : Z.of_nat (List.length (vehicles self)) <> 0)
    by (destruct (vehicles self); [contradiction | cbn [List.length]; lia]).
  unfold _print_summary. cbv zeta.
  rewrite (true_div_ok _ _ Hc). cbn [Py.bind].
  unfold float_div.
  destruct (Z.of_nat (List.length (vehicles self)) =? 0)%Z eqn:E;
    [apply Z.eqb_eq in E; contradiction|].
  cbn [Py.bind].
  destruct (shares_ok (sorted (firmware_counts (vehicles self))) _ Hn)
    as (l & -> & Hl).
  cbn [Py.bind]. eexists. split; [reflexivity|].
  unfold listed. cbn. now repeat split.
Qed.

Lemma print_summary_raise (self : FleetSimulator.t) (e : exn) :
  _print_summary self = Raise e ->
  e = ZeroDivisionError
  /\ (telemetry_sent self + upload_errors self = 0 \/ vehicles self = []).
Proof.
  intros E.
  destruct (Z.eq_dec (telemetry_sent self + upload_errors self) 0) as [Hc|Hc].
  - split; [|now left].
    unfold _print_summary, UpdateManager.true_div in E. cbv zeta in E.
    rewrite Hc in E. cbn in E. congruence.
  - destruct (vehicles self) as [|v vs] eqn:Ev.
    + split; [|now right].
      unfold _print_summary in E. cbv zeta in E.
      rewrite (true_div_ok _ _ Hc) in E. rewrite Ev in E. cbn in E.
      congruence.
    + exfalso.
      destruct (print_summary_ok self Hc) as (s & Es & _);
        [rewrite Ev; discriminate | congruence].
Qed.

(** X26.  [_print_summary] raises [ZeroDivisionError] exactly when
    [telemetry_sent + upload_errors] is 0 or the fleet is empty, and
    raises nothing else; in every other case it computes the summary. *)
Theorem print_summary_raises (self : FleetSimulator.t) :
  (_print_summary self = Raise ZeroDivisionError
   <-> telemetry_sent self + upload_errors self = 0 \/ vehicles self = [])
  /\ (forall e : exn,
         _print_summary self = Raise e -> e = ZeroDivisionError)
  /\ ((exists s : summary, _print_summary self = Ok s)
      <-> telemetry_sent self + upload_errors self <> 0
          /\ vehicles self <> []).
Proof.
  assert (Hr : telemetry_sent self + upload_errors self = 0
               \/ vehicles self = [] ->
               _print_summary self = Raise ZeroDivisionError).
  { intros H.
    destruct (_print_summary self) as [s|e] eqn:E.
    - exfalso.
      destruct (Z.eq_dec (telemetry_sent self + upload_errors self) 0)
        as [Hc|Hc].
      + unfold _print_summary, UpdateManager.true_div in E. cbv zeta in E.
        rewrite Hc in E. cbn in E. discriminate.
      + destruct H as [H|H]; [contradiction|].
        unfold _print_summary in E. cbv zeta in E.
        rewrite (true_div_ok _ _ Hc) in E. rewrite H in E. cbn in E.
        discriminate.
    - now destruct (print_summary_raise self e E) as [-> _]. }
  split; [|split].
  - split; [|exact Hr]. intros E. now apply (print_summary_raise self _ E).
  - intros e E. now apply (print_summary_raise self e E).
  - split.
    + intros [s Es]. split; intros H;
        [rewrite (Hr (or_introl H)) in Es
        |rewrite (Hr (or_intror H)) in Es]; discriminate.
    + intros [Hc Hv].
      destruct (print_summary_ok self Hc Hv) as (s & Es & _).
      now exists s.
Qed.

Lemma fold_add_ones {A : Type} (l : list A) :
  forall acc : Z,
    fold_left Z.add (map (fun _ : A => 1) l) acc
    = acc + Z.of_nat (List.length l).
Proof.
  induction l as [|a l IH]; intros acc; cbn [map fold_left List.length];
    [lia|].
  rewrite IH. lia.
Qed.

Lemma count_status_length (s : VehicleStatus) (vs : list Vehicle.t) :
  count_status s vs
  = Z.of_nat (List.length
                (filter (fun v => status_eqb (status v) s) vs)).
Proof. unfold count_status. now rewrite fold_add_ones. Qed.

Lemma online_offline_length (vs : list Vehicle.t) :
  (List.length (filter (fun v => status_eqb (status v) ONLINE) vs)
   + List.length (filter (fun v => status_eqb (status v) OFFLINE) vs)
   <= List.length vs)%nat.
Proof.
  induction vs as [|v vs IH]; cbn [filter List.length]; [lia|].
  destruct (status v); cbn [status_eqb List.length]; lia.
Qed.

Lemma sum_battery_bounds (vs : list Vehicle.t) :
  forall acc : Q,
    Forall battery_ok vs ->
    (acc + 5 * inject_Z (Z.of_nat (List.length vs))
     <= fold_left Qplus (map battery_percent vs) acc
     /\ fold_left Qplus (map battery_percent vs) acc
        <= acc + 100 * inject_Z (Z.of_nat (List.length vs)))%Q.
Proof.
  induction vs as [|v vs IH]; intros acc Hb; cbn [map fold_left List.length].
  - change (inject_Z (Z.of_nat 0)) with 0%Q. split; lra.
  - inversion Hb as [|? ? [H1 H2] Hb']; subst.
    destruct (IH (acc + battery_percent v)%Q Hb') as [I1 I2].
    rewrite Nat2Z.inj_succ. unfold Z.succ. rewrite inject_Z_plus.
    change (inject_Z 1) with 1%Q.
    split; lra.
Qed.

Lemma str_dict_set_sum (k : string) (d : list (string * Z)) :
  FleetSimulator.sum_counts
    (str_dict_set k (match assoc_find k d with
                     | Some n => n
                     | None => 0
                     end + 1) d)
  = FleetSimulator.sum_counts d + 1.
Proof.
  unfold FleetSimulator.sum_counts.
  induction d as [|[k' n] d IH];
    cbn [str_dict_set assoc_find map snd fold_right]; [lia|].
  destruct (String.eqb k k'); cbn [map snd fold_right]; lia.
Qed.

Lemma firmware_counts_sum (vs : list Vehicle.t) :
  FleetSimulator.sum_counts (firmware_counts vs)
  = Z.of_nat (List.length vs).
Proof.
  unfold firmware_counts.
  assert (H : forall d : list (string * Z),
             FleetSimulator.sum_counts
               (fold_left
                  (fun d v =>
                     str_dict_set (firmware_version v)
                       (match assoc_find (firmware_version v) d with
                        | Some n => n
                        | None => 0
                        end + 1) d) vs d)
             = FleetSimulator.sum_counts d + Z.of_nat (List.length vs)).
  { induction vs as [|v vs IH]; intros d; cbn [fold_left List.length];
      [lia|].
    rewrite IH, str_dict_set_sum. lia. }
  rewrite H. reflexivity.
Qed.

Lemma insert_sum (x : string * Z) (l : list (string * Z)) :
  FleetSimulator.sum_counts (insert x l)
  = snd x + FleetSimulator.sum_counts l.
Proof.
  unfold FleetSimulator.sum_counts.
  induction l as [|y l IH]; cbn [insert map fold_right]; [lia|].
  destruct (item_lt x y); cbn [map fold_right]; lia.
Qed.

Lemma sorted_sum (l : list (string * Z)) :
  FleetSimulator.sum_counts (sorted l) = FleetSimulator.sum_counts l.
Proof.
  unfold sorted.
  assert (H : forall acc : list (string * Z),
             FleetSimulator.sum_counts
               (fold_left (fun acc x => insert x acc) l acc)
             = FleetSimulator.sum_counts acc + FleetSimulator.sum_counts l).
  { induction l as [|x l IH]; intros acc; cbn [fold_left].
    - unfold FleetSimulator.sum_counts at 3. cbn. lia.
    - rewrite IH, insert_sum.
      unfold FleetSimulator.sum_counts at 4. cbn [map fold_right].
      fold (FleetSimulator.sum_counts l). lia. }
  rewrite H. unfold FleetSimulator.sum_counts at 1. cbn. lia.
Qed.

Lemma item_lt_leb (x y : string * Z) :
  (item_lt x y = true -> String.leb (fst x) (fst y) = true)
  /\ (item_lt x y = false -> String.leb (fst y) (fst x) = true).
Proof.
  unfold item_lt, String.leb.
  rewrite (String.compare_antisym (fst y) (fst x)).
  destruct (String.compare (fst x) (fst y)); cbn [CompOpp];
    split; intros; try reflexivity; discriminate.
Qed.

Lemma insert_ascending (x : string * Z) (l : list (string * Z)) :
  ascending (map fst l) = true -> ascending (map fst (insert x l)) = true.
Proof.
  induction l as [|y l IH]; [reflexivity|].
  intros Hl. cbn [insert].
  destruct (item_lt x y) eqn:E.
  - cbn [map ascending]. cbn [map ascending] in Hl.
    rewrite (proj1 (item_lt_leb x y) E). exact Hl.
  - pose proof (proj2 (item_lt_leb x y) E) as Hyx.
    assert (Hl' : ascending (map fst l) = true).
    { cbn [map ascending] in Hl. destruct (map fst l); [reflexivity|].
      now apply andb_prop in Hl. }
    specialize (IH Hl').
    destruct l as [|z l].
    + cbn [insert map ascending]. now rewrite Hyx.
    + cbn [insert] in IH |- *.
      destruct (item_lt x z) eqn:Ez; cbn [map ascending] in IH, Hl |- *.
      * rewrite Hyx. exact IH.
      * apply andb_prop in Hl. destruct Hl as [Hyz _].
        rewrite Hyz. exact IH.
Qed.

Lemma sorted_ascending (l : list (string * Z)) :
  ascending (map fst (sorted l)) = true.
Proof.
  unfold sorted.
  assert (H : forall acc : list (string * Z),
             ascending (map fst acc) = true ->
             ascending
               (map fst (fold_left (fun acc x => insert x acc) l acc))
             = true).
  { induction l as [|x l IH]; intros acc Ha; cbn [fold_left]; [exact Ha|].
    apply IH. now apply insert_ascending. }
  now apply H.
Qed.

(** X27.  The summary [_print_summary] computes for a simulator with
    non-negative counters and battery levels in [5, 100]: the success
    rate is a percentage of [0, 100]; the vehicles counted as online and
    as offline are no more than the fleet; the average battery level is
    in [5, 100]; the firmware lines are in ascending order of version
    and their counts add up to the size of the fleet. *)
Theorem print_summary_values (self : FleetSimulator.t) (s : summary) :
  _print_summary self = Ok s ->
  0 <= telemetry_sent self -> 0 <= upload_errors self ->
  Forall battery_ok (vehicles self) ->
  Vehicles s = Z.of_nat (List.length (vehicles self))
  /\ (0 <= Success_rate s /\ Success_rate s <= 100)%Q
  /\ 0 <= Online s /\ 0 <= Offline s /\ Online s + Offline s <= Vehicles s
  /\ (5 <= Avg_battery s /\ Avg_battery s <= 100)%Q
  /\ ascending (map fst (listed s)) = true
  /\ FleetSimulator.sum_counts (listed s) = Vehicles s.
Proof.
  intros E Hs He Hb.
  assert (Hc : telemetry_sent self + upload_errors self <> 0).
  { intros H.
    unfold _print_summary, UpdateManager.true_div in E. cbv zeta in E.
    rewrite H in E. cbn in E. discriminate. }
  assert (Hv : vehicles self <> []).
  { intros H. unfold _print_summary in E. cbv zeta in E.
    rewrite (true_div_ok _ _ Hc) in E. rewrite H in E. cbn in E.
    discriminate. }
  destruct (print_summary_ok self Hc Hv)
    as (s' & Es & S1 & _ & _ & S4 & S5 & S6 & S7 & S8).
  assert (s' = s) by congruence. subst s'.
  assert (Hn : 0 < Z.of_nat (List.length (vehicles self)))
    by (destruct (vehicles self); [contradiction | cbn [List.length]; lia]).
  split; [exact S1|]. split.
  { rewrite S4.
    assert (HA : (0 <= inject_Z (telemetry_sent self))%Q)
      by (change 0%Q with (inject_Z 0); now rewrite <- Zle_Qle).
    assert (HT : (0 < inject_Z (telemetry_sent self + upload_errors self))%Q)
      by (change 0%Q with (inject_Z 0); rewrite <- Zlt_Qlt; lia).
    assert (HAT : (inject_Z (telemetry_sent self)
                   <= inject_Z (telemetry_sent self + upload_errors self))%Q)
      by (rewrite <- Zle_Qle; lia).
    assert (H0 : (0 <= inject_Z (telemetry_sent self)
                       / inject_Z (telemetry_sent self + upload_errors self))%Q)
      by (apply Qle_shift_div_l; [exact HT | lra]).
    assert (H1 : (inject_Z (telemetry_sent self)
                  / inject_Z (telemetry_sent self + upload_errors self)
                  <= 1)%Q)
      by (apply Qle_shift_div_r; [exact HT | lra]).
    set (x := (inject_Z (telemetry_sent self)
               / inject_Z (telemetry_sent self + upload_errors self))%Q) in *.
    clearbody x. split; lra. }
  rewrite S5, S6, S1, !count_status_length.
  pose proof (online_offline_length (vehicles self)) as Hoo.
  split; [lia|]. split; [lia|]. split; [lia|].
  split.
  { rewrite S7.
    destruct (sum_battery_bounds (vehicles self) 0 Hb) as [B1 B2].
    fold (sum_battery (vehicles self)) in B1, B2.
    assert (HN : (0 < inject_Z (Z.of_nat (List.length (vehicles self))))%Q)
      by (change 0%Q with (inject_Z 0); now rewrite <- Zlt_Qlt).
    split.
    - apply Qle_shift_div_l; [exact HN | lra].
    - apply Qle_shift_div_r; [exact HN | lra]. }
  rewrite S8. split; [apply sorted_ascending|].
  rewrite sorted_sum. apply firmware_counts_sum.
Qed.

(** *** The whole run *)

(** X28.  [run_simulation] on a simulator that has uploaded nothing yet:
    the call raises [ZeroDivisionError], from the summary of its
    [finally] clause, exactly when the clock allows no pass or the fleet
    is empty; otherwise the summary it prints counts one upload,
    successful or failed, per vehicle and pass.  In both cases the fleet
    keeps its vehicles' identifiers. *)
Theorem run_simulation_summary
  (self : FleetSimulator.t) (clocks : list (nat -> reading)) (g : rng) :
  telemetry_sent self = 0 -> upload_errors self = 0 ->
  let out := fst (run_simulation self clocks g) in
  (fst out = Raise ZeroDivisionError
   <-> clocks = [] \/ vehicles self = [])
  /\ (forall e : exn, fst out = Raise e -> e = ZeroDivisionError)
  /\ (forall s : summary,
         fst out = Ok s ->
         Vehicles s = Z.of_nat (List.length (vehicles self))
         /\ Telemetry_uploaded s + Upload_errors s
            = Z.of_nat (List.length clocks)
              * Z.of_nat (List.length (vehicles self)))
  /\ map vehicle_id (vehicles (snd out)) = map vehicle_id (vehicles self).
Proof.
  intros Hs He. cbv zeta. unfold run_simulation.
  cbv beta iota zeta delta [Random.bind Random.ret].
  pose proof (iterations_accounted clocks self g) as H. cbv zeta in H.
  destruct (iterations self clocks g) as [self' g'].
  cbn [fst snd] in H |- *.
  destruct H as (H1 & H2 & H3 & H4 & _).
  assert (Hl : List.length (vehicles self') = List.length (vehicles self)).
  { rewrite <- (length_map vehicle_id (vehicles self')), H1.
    apply length_map. }
  assert (Hz : telemetry_sent self' + upload_errors self' = 0
               \/ vehicles self' = []
               <-> clocks = [] \/ vehicles self = []).
  { rewrite H4, Hs, He. split.
    - intros [H|H].
      + destruct clocks; [now left|]. right.
        destruct (vehicles self); [reflexivity|].
        cbn [List.length] in H. lia.
      + right. destruct (vehicles self); [reflexivity|].
        rewrite H in Hl. discriminate.
    - intros [->| H]; [left; cbn; lia|].
      right. rewrite H in Hl. now destruct (vehicles self'). }
  split; [|split; [|split]].
  - rewrite <- Hz. split.
    + intros E. now apply (print_summary_raise self' _ E).
    + intros H.
      destruct (_print_summary self') as [s|e] eqn:E.
      * exfalso.
        assert (Hc : telemetry_sent self' + upload_errors self' <> 0).
        { intros Hc.
          unfold _print_summary, UpdateManager.true_div in E.
          cbv zeta in E. rewrite Hc in E. cbn in E. discriminate. }
        destruct H as [H|H]; [contradiction|].
        unfold _print_summary in E. cbv zeta in E.
        rewrite (true_div_ok _ _ Hc) in E. rewrite H in E. cbn in E.
        discriminate.
      * now destruct (print_summary_raise self' e E) as [-> _].
  - intros e E. now apply (print_summary_raise self' e E).
  - intros s E.
    assert (Hc : telemetry_sent self' + upload_errors self' <> 0).
    { intros Hc.
      unfold _print_summary, UpdateManager.true_div in E.
      cbv zeta in E. rewrite Hc in E. cbn in E. discriminate. }
    assert (Hv : vehicles self' <> []).
    { intros Hv. unfold _print_summary in E. cbv zeta in E.
      rewrite (true_div_ok _ _ Hc) in E. rewrite Hv in E. cbn in E.
      discriminate. }
    destruct (print_summary_ok self' Hc Hv) as (s' & Es & S1 & S2 & S3 & _).
    assert (s' = s) by congruence. subst s'.
    rewrite S1, S2, S3, Hl. split; [reflexivity | lia].
  - exact H1.
Qed.

(** *** Construction *)

Lemma vehicle_init_ok (id : Z) (now : string) (g : rng) :
  unit_tape g ->
  exists v : Vehicle.t,
    fst (Vehicle.init id now g) = Ok v
    /\ vehicle_id v = id
    /\ tape (snd (Vehicle.init id now g)) = tape g.
Proof.
  intros Hg. unfold Vehicle.init.
  cbv beta iota zeta delta [Random.bind].
  pose proof (generate_tape "TESLA" g) as Ht.
  destruct (generate_shape "TESLA" g Hg) as (vin0 & Ev & _).
  destruct (VINGenerator.generate "TESLA" g) as [[vin1|e] g1];
    cbn [fst snd] in Ev, Ht; [|discriminate].
  cbv beta iota zeta
      delta [Random.bind Random.ret uniform randint randbelow choice random
             GPSSimulator.get_random_city_coordinates GPSSimulator.init].
  cbn [fst snd tape pos].
  eexists. split; [reflexivity|]. split; [reflexivity | exact Ht].
Qed.

Lemma make_vehicles_ok (ids : list Z) (now : Z -> string) :
  forall g : rng,
    unit_tape g ->
    exists vs : list Vehicle.t,
      fst (make_vehicles ids now g) = Ok vs
      /\ map vehicle_id vs = ids
      /\ Forall battery_ok vs
      /\ Forall (fun v => status v = ONLINE) vs
      /\ tape (snd (make_vehicles ids now g)) = tape g.
Proof.
  induction ids as [|i ids IH]; intros g Hg.
  - exists []. cbn. repeat split; constructor.
  - cbn [make_vehicles]. cbv beta iota zeta delta [Random.bind Random.ret].
    destruct (vehicle_init_ok i (now i) g Hg) as (v & Ev & Hid & Ht).
    pose proof (init_battery_ok i (now i) g v Hg Ev) as [Hb Hst].
    destruct (Vehicle.init i (now i) g) as [r g1].
    cbn [fst snd] in Ev, Ht. subst r.
    assert (Hg1 : unit_tape g1) by (intros n; rewrite Ht; apply Hg).
    destruct (IH g1 Hg1) as (vs & Evs & Hids & Hbs & Hsts & Hts).
    destruct (make_vehicles ids now g1) as [r g2].
    cbn [fst snd] in Evs, Hts |- *. subst r.
    exists (v :: vs). split; [reflexivity|].
    split; [cbn [map]; congruence|].
    split; [now constructor|]. split; [now constructor|]. congruence.
Qed.

Lemma range_from_one (n : Z) :
  range 1 (n + 1) = map Z.of_nat (seq 1 (Z.to_nat n)).
Proof.
  unfold range. replace (n + 1 - 1) with n by lia.
  rewrite <- seq_shift, map_map.
  apply map_ext. intros k. lia.
Qed.

(** X29.  [FleetSimulator(num_vehicles, ...)], for all draws of
    [[0, 1)]: when [boto3.client] raises, the constructor raises the
    same exception and builds no vehicle; otherwise it returns a
    simulator with the vehicles 1, 2, ..., [num_vehicles] in this order
    (none for a number under 1), all ONLINE with a battery level in
    [5, 100], and with both counters at 0. *)
Theorem fleet_init_postconditions
  (num_vehicles : Z) (s3_bucket aws_region : string)
  (connect : result S3.client) (now : Z -> string) (g : rng) :
  unit_tape g ->
  match connect with
  | Raise e =>
      FleetSimulator.init num_vehicles s3_bucket aws_region connect now g
      = (Raise e, g)
  | Ok client =>
      exists self : FleetSimulator.t,
        fst (FleetSimulator.init num_vehicles s3_bucket aws_region connect
               now g) = Ok self
        /\ s3_client self = client
        /\ FleetSimulator.s3_bucket self = s3_bucket
        /\ map vehicle_id (vehicles self)
           = map Z.of_nat (seq 1 (Z.to_nat num_vehicles))
        /\ telemetry_sent self = 0
        /\ upload_errors self = 0
        /\ Forall battery_ok (vehicles self)
        /\ Forall (fun v => status v = ONLINE) (vehicles self)
  end.
Proof.
  intros Hg. destruct connect as [client|e]; [|reflexivity].
  unfold FleetSimulator.init.
  cbv beta iota zeta delta [Random.bind Random.ret].
  destruct (make_vehicles_ok (range 1 (num_vehicles + 1)) now g Hg)
    as (vs & Evs & Hids & Hbs & Hsts & _).
  destruct (make_vehicles (range 1 (num_vehicles + 1)) now g) as [r g1].
  cbn [fst] in Evs |- *. subst r.
  eexists. split; [reflexivity|].
  cbn [s3_client FleetSimulator.s3_bucket vehicles telemetry_sent
       upload_errors].
  rewrite <- range_from_one. now repeat split.
Qed.

End FleetExtras.

Section FleetSampleRuns.
Import Vehicle FleetSimulator FleetSamples.

Lemma fleet_battery_ok : Forall battery_ok fleet.
Proof.
  repeat constructor; unfold battery_ok; simpl; discriminate.
Qed.

Lemma half_unit : unit_tape (const_rng (1 # 2)).
Proof. intros n. simpl. split; [discriminate | reflexivity]. Qed.

Lemma fleet_is_independent_of_uploads_witness :
  vehicles (fst (iterations fresh [clock; later] (const_rng (1 # 2))))
  = vehicles (fst (iterations busy [later; clock] (const_rng (1 # 2))))
  /\ snd (iterations fresh [clock; later] (const_rng (1 # 2)))
     = snd (iterations busy [later; clock] (const_rng (1 # 2))).
Proof.
  apply (fleet_is_independent_of_uploads [clock; later] [later; clock]
           fresh busy (const_rng (1 # 2))); reflexivity.
Defined.

Lemma fleet_batteries_stay_in_range_witness :
  Forall battery_ok
    (vehicles (fst (iterations fresh [clock; later] (const_rng (1 # 2))))).
Proof.
  apply (fleet_batteries_stay_in_range [clock; later] fresh
           (const_rng (1 # 2))).
  - exact half_unit.
  - exact fleet_battery_ok.
Defined.

Lemma print_summary_values_witness :
  exists s : summary,
    _print_summary busy = Ok s
    /\ Vehicles s = Z.of_nat (List.length (vehicles busy))
    /\ (0 <= Success_rate s /\ Success_rate s <= 100)%Q
    /\ 0 <= Online s /\ 0 <= Offline s /\ Online s + Offline s <= Vehicles s
    /\ (5 <= Avg_battery s /\ Avg_battery s <= 100)%Q
    /\ ascending (map fst (listed s)) = true
    /\ FleetSimulator.sum_counts (listed s) = Vehicles s.
Proof.
  eexists. split; [reflexivity|].
  apply (print_summary_values busy).
  - reflexivity.
  - simpl. lia.
  - simpl. lia.
  - exact fleet_battery_ok.
Defined.

Lemma run_simulation_summary_witness :
  let out := fst (run_simulation fresh [] (const_rng (1 # 2))) in
  (fst out = Raise ZeroDivisionError
   <-> @nil (nat -> reading) = [] \/ vehicles fresh = [])
  /\ (forall e : exn, fst out = Raise e -> e = ZeroDivisionError)
  /\ (forall s : summary,
         fst out = Ok s ->
         Vehicles s = Z.of_nat (List.length (vehicles fresh))
         /\ Telemetry_uploaded s + Upload_errors s
            = Z.of_nat (List.length (@nil (nat -> reading)))
              * Z.of_nat (List.length (vehicles fresh)))
  /\ map vehicle_id (vehicles (snd out)) = map vehicle_id (vehicles fresh).
Proof.
  apply (run_simulation_summary fresh [] (const_rng (1 # 2)));
    reflexivity.
Defined.

Lemma fleet_init_postconditions_witness :
  exists self : FleetSimulator.t,
    fst (FleetSimulator.init 2 "fleetota-telemetry" "us-east-1"
           (Ok accepting) (fun _ => "2025-09-01T10:00:00")
           (const_rng (1 # 2))) = Ok self
    /\ s3_client self = accepting
    /\ FleetSimulator.s3_bucket self = "fleetota-telemetry"
    /\ map vehicle_id (vehicles self) = map Z.of_nat (seq 1 (Z.to_nat 2))
    /\ telemetry_sent self = 0
    /\ upload_errors self = 0
    /\ Forall battery_ok (vehicles self)
    /\ Forall (fun v => status v = ONLINE) (vehicles self).
Proof.
  apply (fleet_init_postconditions 2 "fleetota-telemetry" "us-east-1"
           (Ok accepting) (fun _ => "2025-09-01T10:00:00")
           (const_rng (1 # 2))).
  exact half_unit.
Defined.

End FleetSampleRuns.

(* ================================================================== *)
(** ** The telemetry processor *)

Section ProcessorExtras.
Import CloudWatch TelemetryProcessor.
Variable repr : json -> string.
Variable exn_text : exn -> string.
Variable s3 : s3_reader.

(** X17.  The metrics the telemetry processor publishes for the payload
    of a tick: [process_telemetry] raises nothing on it, and
    [publish_metrics] hands CloudWatch one batch of six metrics, in the
    namespace [FleetOTA]: the battery level, the battery health and the
    speed of the vehicle after the tick, rounded to 2 decimals, its
    signal strength without the sign, 1 or 0 for [VehicleOnline] as the
    vehicle is ONLINE or not, and 1 or 0 for its update flag. *)
Theorem tick_metrics
  (self : Vehicle.t) (now : string) (g : rng) (cw : client)
  (published : string) :
  let payload := fst (fst (Vehicle.generate_telemetry self now g)) in
  let self' := snd (fst (Vehicle.generate_telemetry self now g)) in
  exists (m : metrics) (data : list metric),
    process_telemetry payload = Ok m
    /\ publish_metrics repr cw published m
       = put_metric_data cw "FleetOTA" data
    /\ List.length data = 6%nat
    /\ values_of "BatteryPercent" data
       = [JFloat (round (Vehicle.battery_percent self') 2)]
    /\ values_of "BatteryHealth" data
       = [JFloat (round (Vehicle.battery_health self') 2)]
    /\ values_of "VehicleSpeed" data
       = [JFloat (round (GPSSimulator.speed_kmh (Vehicle.gps self')) 2)]
    /\ values_of "SignalStrength" data
       = [JInt (Z.abs (Vehicle.signal_strength self'))]
    /\ values_of "VehicleOnline" data
       = [JInt (if Vehicle.status_eqb (Vehicle.status self') Vehicle.ONLINE
                then 1 else 0)]
    /\ values_of "UpdateAvailable" data
       = [JInt (if Vehicle.update_available self' then 1 else 0)].
Proof.
  cbv zeta. unfold Vehicle.generate_telemetry.
  cbv beta iota zeta
      delta [Random.bind Random.ret uniform randint randbelow choice random].
  destruct (GPSSimulator.update_position (Vehicle.gps self) 60 g)
    as [p g1].
  destruct (Vehicle.simulate_battery_drain
              (Vehicle.set_gps (snd p) self) 60 g1) as [v2 g2].
  destruct (Vehicle.status v2) eqn:Es;
    repeat (cbn [Vehicle.status Vehicle.set_status Vehicle.set_connectivity
                 Vehicle.set_odometer_km Vehicle.update_available fst snd];
            rewrite ?Es; cbn [Vehicle.status_eqb];
            match goal with
            | |- context [if Qlt_le_dec ?a ?b then _ else _] =>
                destruct (Qlt_le_dec a b)
            end);
    cbn [Vehicle.status Vehicle.set_status Vehicle.set_connectivity
         Vehicle.set_odometer_km Vehicle.update_available fst snd];
    rewrite ?Es; cbn [Vehicle.status_eqb];
    (eexists; eexists; split; [reflexivity|]; split; [reflexivity|];
     split; [reflexivity|];
     cbn [Vehicle.status Vehicle.set_status Vehicle.set_connectivity
          Vehicle.set_odometer_km Vehicle.update_available];
     rewrite ?Es;
     destruct (Vehicle.update_available v2);
     repeat split; reflexivity).
Qed.

(** *** The handler *)

Lemma download_object (bucket_name object_key t : json) :
  download_telemetry s3 bucket_name object_key = Ok t ->
  UpdateManager.is_object t = true.
Proof.
  unfold download_telemetry.
  destruct (s3 bucket_name object_key) as [t0|e]; cbn [Py.bind];
    [|discriminate].
  destruct t0; cbn [json_get Py.bind]; try discriminate.
  destruct (assoc_find "vehicle_id" items); intros [= <-]; reflexivity.
Qed.

Lemma read_record_object (record t : json) (m : metrics) :
  read_record s3 record = Ok (t, m) -> UpdateManager.is_object t = true.
Proof.
  unfold read_record. intros H.
  repeat match type of H with
         | Py.bind ?x _ = Ok _ =>
             let E := fresh "E" in
             destruct x eqn:E; cbn [Py.bind] in H; [|discriminate]
         end.
  injection H as <- _.
  match goal with
  | E : download_telemetry s3 _ _ = Ok _ |- _ =>
      now apply download_object in E
  end.
Qed.

Lemma metric_data_length (now : string) (m : metrics) (data : list metric) :
  metric_data repr now m = Ok data -> List.length data = 6%nat.
Proof.
  unfold metric_data. cbv zeta.
  destruct (py_abs (signal_strength m)); cbn [Py.bind]; [|discriminate].
  now intros [= <-].
Qed.

Lemma handle_record_cases (cw : client) (now : string) (record : json) :
  if readable s3 record
  then exists data : list metric,
      List.length data = 6%nat
      /\ handle_record repr s3 cw now record
         = (match fails cw (List.length (requests cw)) with
            | Some e => Raise e
            | None => Ok tt
            end,
            mk_client (requests cw ++ [("FleetOTA", data)]) (fails cw))
  else exists e : exn, handle_record repr s3 cw now record = (Raise e, cw).
Proof.
  unfold readable, handle_record.
  destruct (read_record s3 record) as [[t m]|e] eqn:Er;
    [|now exists e].
  pose proof (read_record_object _ _ _ Er) as Ho.
  unfold publish_metrics.
  destruct (metric_data repr now m) as [data|e] eqn:Em.
  - pose proof (metric_data_length _ _ _ Em) as Hl.
    unfold metric_data in Em. cbv zeta in Em.
    destruct (py_abs (signal_strength m)); cbn [Py.bind] in Em;
      [|discriminate].
    exists data. split; [exact Hl|].
    unfold put_metric_data.
    destruct (fails cw (List.length (requests cw))); [reflexivity|].
    now rewrite (json_get_object t "vehicle_id" JNull Ho).
  - unfold metric_data in Em. cbv zeta in Em.
    destruct (py_abs (signal_strength m)); cbn [Py.bind] in Em;
      [discriminate|].
    now exists e.
Qed.

Lemma for_records_cases (records : list json) (clock : nat -> string) :
  forall (i : nat) (cw : client),
    let out := for_records repr s3 records clock i cw in
    exists batches : list (string * list metric),
      requests (snd out) = (requests cw ++ batches)%list
      /\ fails (snd out) = fails cw
      /\ Forall six_metrics batches
      /\ (List.length batches <= List.length records)%nat
      /\ (fst out = Ok tt -> List.length batches = List.length records)
      /\ (fst out = Ok tt
          <-> Forall (fun r => readable s3 r = true) records
              /\ forall k : nat,
                   (k < List.length records)%nat ->
                   fails cw (List.length (requests cw) + k) = None).
Proof.
  induction records as [|record records IH]; intros i cw; cbv zeta.
  - exists []. cbn [for_records fst snd List.length].
    rewrite app_nil_r. repeat split; try constructor; try lia.
  - cbn [for_records].
    pose proof (handle_record_cases cw (clock i) record) as Hc.
    destruct (readable s3 record) eqn:Hr.
    + destruct Hc as (data & Hl & ->).
      destruct (fails cw (List.length (requests cw))) as [e|] eqn:Ef.
      * exists [("FleetOTA", data)]. cbn [fst snd requests fails List.length].
        split; [reflexivity|]. split; [reflexivity|].
        split; [repeat constructor; exact Hl|].
        split; [lia|]. split; [discriminate|].
        split; [discriminate|].
        intros [_ Hk]. specialize (Hk 0%nat ltac:(lia)).
        rewrite Nat.add_0_r in Hk. congruence.
      * specialize (IH (S i)
                      (mk_client (requests cw ++ [("FleetOTA", data)])
                         (fails cw))).
        cbv zeta in IH.
        destruct IH as (batches & I1 & I2 & I3 & I4 & I5 & I6).
        cbn [requests fails] in I1, I2, I6.
        exists (("FleetOTA", data) :: batches).
        split; [rewrite I1, <- app_assoc; reflexivity|].
        split; [exact I2|].
        split; [constructor; [split; [reflexivity | exact Hl] | exact I3]|].
        cbn [List.length].
        split; [lia|]. split; [intros H; rewrite (I5 H); reflexivity|].
        rewrite I6. rewrite length_app. cbn [List.length]. split.
        -- intros [Hf Hk]. split; [constructor; [exact Hr | exact Hf]|].
           intros [|k] Hlt; [now rewrite Nat.add_0_r|].
           replace (List.length (requests cw) + S k)%nat
             with (List.length (requests cw) + 1 + k)%nat by lia.
           apply Hk. lia.
        -- intros [Hf Hk]. inversion Hf as [|? ? _ Hf']; subst.
           split; [exact Hf'|]. intros k Hlt.
           replace (List.length (requests cw) + 1 + k)%nat
             with (List.length (requests cw) + S k)%nat by lia.
           apply Hk. lia.
    + destruct Hc as (e & ->).
      exists []. cbn [fst snd List.length]. rewrite app_nil_r.
      split; [reflexivity|]. split; [reflexivity|].
      split; [constructor|]. split; [lia|].
      split; [discriminate|]. split; [discriminate|].
      intros [Hf _]. inversion Hf; subst. congruence.
Qed.

(** X30.  [lambda_handler] of the telemetry processor raises nothing and
    answers 200 or 500.  It answers 200 exactly when the event has
    records to go through, every record names an object that is
    downloaded and read without exception and whose signal strength is a
    number, and CloudWatch accepts every request.  It makes at most one
    request per record, each of six metrics in the namespace [FleetOTA]:
    exactly one per record when it answers 200, and none when the event
    has no records to go through. *)
Theorem handler_answers
  (cw : client) (clock : nat -> string) (event : json) :
  let resp := fst (lambda_handler repr exn_text s3 cw clock event) in
  let cw' := snd (lambda_handler repr exn_text s3 cw clock event) in
  (statusCode resp = 200 \/ statusCode resp = 500)
  /\ (statusCode resp = 200
      <-> exists records : list json,
            records_of event = Ok records
            /\ Forall (fun r => readable s3 r = true) records
            /\ forall k : nat,
                 (k < List.length records)%nat ->
                 fails cw (List.length (requests cw) + k) = None)
  /\ exists batches : list (string * list metric),
       requests cw' = (requests cw ++ batches)%list
       /\ Forall six_metrics batches
       /\ (forall records : list json,
              records_of event = Ok records ->
              (List.length batches <= List.length records)%nat
              /\ (statusCode resp = 200 ->
                  List.length batches = List.length records))
       /\ (forall e : exn, records_of event = Raise e -> batches = []).
Proof.
  cbv zeta. unfold lambda_handler.
  destruct (records_of event) as [records|e] eqn:Er.
  - destruct (for_records_cases records clock 0 cw)
      as (batches & H1 & _ & H3 & H4 & H5 & H6).
    cbv zeta in *.
    destruct (for_records repr s3 records clock 0 cw) as [[[]|e] cw'];
      cbn [fst snd statusCode] in *.
    + split; [now left|]. split.
      * split; [|reflexivity]. intros _. exists records.
        split; [reflexivity|]. now apply H6.
      * exists batches. split; [exact H1|]. split; [exact H3|].
        split; [|discriminate].
        intros records' [= <-]. split; [exact H4 | intros _; now apply H5].
    + split; [now right|]. split.
      * split; [discriminate|].
        intros (records' & [= <-] & Hf & Hk).
        assert (H : @Raise unit e = Ok tt) by (apply H6; now split).
        discriminate.
      * exists batches. split; [exact H1|]. split; [exact H3|].
        split; [|discriminate].
        intros records' [= <-]. split; [exact H4 | discriminate].
  - cbn [fst snd statusCode].
    split; [now right|]. split.
    + split; [discriminate|]. intros (records & Hr & _). discriminate.
    + exists []. rewrite app_nil_r. split; [reflexivity|].
      split; [constructor|]. split; [discriminate | reflexivity].
Qed.

End ProcessorExtras.

Section ProcessorSamples.
Import CloudWatch TelemetryProcessor EventSamples.

(** Two readable records: 200 and two requests. *)
Example handler_accepts :
  statusCode (fst (run ["a"; "a"])) = 200
  /\ List.length (requests (snd (run ["a"; "a"]))) = 2%nat.
Proof. split; vm_compute; reflexivity. Qed.

(** A snapshot whose signal strength is [null] stops the handler: the
    default 0 of [.get] is not used, [abs(None)] raises, and the record
    after it is not handled. *)
Example handler_stops_at_null_signal :
  fst (run ["a"; "silent"; "a"]) = mk_response 500 "Error: TypeError"
  /\ List.length (requests (snd (run ["a"; "silent"; "a"]))) = 1%nat.
Proof. split; vm_compute; reflexivity. Qed.

(** An event without [Records]. *)
Example handler_without_records :
  lambda_handler (fun _ => "?") text_of reader ReportSamples.quiet
    (fun _ => "2025-09-01T10:06:00") (JObj [])
  = (mk_response 500 "Error: KeyError", ReportSamples.quiet).
Proof. vm_compute. reflexivity. Qed.

End ProcessorSamples.

(* ================================================================== *)
(** ** The report of a batch *)

Section BatchClassification.
Import UpdateManager BatchReport FleetReport.
Variable s3 : s3_store.
Variable bucket_name : string.

Lemma dict_find_present {V : Type} (k k' : json) (v : V)
  (d : list (json * V)) :
  In (k', v) d -> py_eq k k' = true -> dict_find k d <> None.
Proof.
  induction d as [|[k0 v0] d IH]; [contradiction|].
  intros [[= -> ->]|Hin] E; cbn [dict_find].
  - now rewrite E.
  - destruct (py_eq k k0); [discriminate | now apply IH].
Qed.

(** Two entries of a [dict] whose keys are equal are one entry. *)
Lemma dict_wf_unique {V : Type} (d : list (json * V)) (k1 k2 : json)
  (v1 v2 : V) :
  dict_wf d -> In (k1, v1) d -> In (k2, v2) d -> py_eq k1 k2 = true ->
  k1 = k2 /\ v1 = v2.
Proof.
  induction d as [|[k v] d IH]; [contradiction|].
  intros (Hk & Hnone & Hwf) [[= -> ->]|H1] [[= -> ->]|H2] E.
  - now split.
  - exfalso. now apply (dict_find_present k1 k2 v2 d H2 E).
  - exfalso.
    assert (Hh1 : hashable k1 = true) by (now apply (py_eq_hashable k1 k2)).
    apply (dict_find_present k2 k1 v1 d H1); [|exact Hnone].
    now apply py_eq_sym.
  - now apply IH.
Qed.

Lemma classified_as_inv (b : bucket) (vehicles : list (json * json))
  (key : json) :
  In key (classified_as b vehicles) ->
  exists t : json, In (key, t) vehicles /\ classify t = b.
Proof.
  unfold classified_as. intros H. apply in_map_iff in H.
  destruct H as ([k t] & Hk & Hf). cbn [fst] in Hk. subst k.
  apply filter_In in Hf. destruct Hf as [Hin Hb]. cbn [snd] in Hb.
  exists t. split; [exact Hin|]. now destruct (classify t), b.
Qed.

Lemma classified_as_nodup (b : bucket) (vehicles : list (json * json)) :
  NoDup (map fst vehicles) -> NoDup (classified_as b vehicles).
Proof.
  unfold classified_as.
  induction vehicles as [|item vehicles IH]; cbn [map filter];
    [constructor|].
  intros Hnd. inversion Hnd as [|? ? Hn Hd]; subst.
  destruct (bucket_eqb (classify (snd item)) b); cbn [map];
    [|now apply IH].
  constructor; [|now apply IH].
  intros Hin. apply Hn. apply in_map_iff in Hin.
  destruct Hin as (x & Hx & Hf). apply filter_In in Hf.
  apply in_map_iff. exists x. now split.
Qed.

(** A batch of typed documents has a report, which agrees with the
    classification of the retained snapshots. *)
Lemma typed_batch_report (files : list string) :
  typed_batch s3 bucket_name files ->
  exists fs : fleet_status,
    analyze_fleet s3 bucket_name files = Ok fs
    /\ reports fs (dedup s3 bucket_name files)
    /\ histogram_of fs (dedup s3 bucket_name files).
Proof.
  intros Ht.
  destruct (analyze_loop_total (dedup s3 bucket_name files) initial_status)
    as [fs Hfs]; [now apply dedup_typed|].
  exists fs. split; [exact Hfs|]. split.
  - now apply analyze_fleet_reports.
  - now apply histogram_report.
Qed.

(** The snapshot retained for the vehicle of a document of the batch,
    and the one bucket that lists the vehicle. *)
Lemma vehicle_of_batch (files : list string) (fs : fleet_status) (a : json) :
  reports fs (dedup s3 bucket_name files) ->
  In a (snapshots s3 bucket_name files) ->
  is_object a = true -> hashable (snapshot_id a) = true ->
  exists key r : json,
    dict_find (snapshot_id a) (dedup s3 bucket_name files) = Some r
    /\ In (key, r) (dedup s3 bucket_name files)
    /\ py_eq key (snapshot_id a) = true
    /\ is_object r = true
    /\ In r (snapshots s3 bucket_name files)
    /\ same_vehicle r a = true
    /\ forall b : bucket, listed fs b (snapshot_id a) <-> classify r = b.
Proof.
  intros [_ Hb] Hin Ho Hh.
  destruct (dedup_present s3 bucket_name files a Hin Ho Hh) as [r Hr].
  destruct (dedup_sound s3 bucket_name files) as [Hwf Hent].
  destruct (dict_find_in _ _ _ Hr) as (key & Hkr & Ek).
  destruct (Hent key r Hkr) as (Hor & Ekr & Hrs).
  assert (Hhk : hashable key = true)
    by (now apply (py_eq_hashable_r (snapshot_id a) key)).
  assert (Eka : py_eq key (snapshot_id a) = true)
    by (now apply py_eq_sym).
  exists key, r.
  split; [exact Hr|]. split; [exact Hkr|]. split; [exact Eka|].
  split; [exact Hor|]. split; [exact Hrs|]. split.
  - unfold same_vehicle.
    assert (E : py_eq (snapshot_id a) (snapshot_id r) = true)
      by (now apply (py_eq_trans _ key)).
    rewrite py_eq_comm by (right; exact Hh). exact E.
  - intros b. unfold listed. destruct (Hb b) as [-> _]. split.
    + intros (key' & Hin' & E').
      destruct (classified_as_inv _ _ _ Hin') as (t' & Hin'' & Hc).
      assert (E : py_eq key' key = true)
        by (now apply (py_eq_trans _ (snapshot_id a))).
      destruct (dict_wf_unique _ _ _ _ _ Hwf Hin'' Hkr E) as [_ ->].
      exact Hc.
    + intros Hc. exists key. split; [|exact Eka].
      apply (classified_as_in b _ key r); [|exact Hkr|exact Hc].
      now apply dict_wf_nodup.
Qed.


Lemma listed_once (files : list string) (fs : fleet_status) :
  reports fs (dedup s3 bucket_name files) ->
  (forall (b b' : bucket) (key key' : json),
      In key (bucket_members fs b) -> In key' (bucket_members fs b') ->
      py_eq key key' = true -> key = key' /\ b = b')
  /\ forall b : bucket,
       NoDup (bucket_members fs b)
       /\ bucket_count fs b = Z.of_nat (List.length (bucket_members fs b)).
Proof.
  intros [_ Hb].
  destruct (dedup_sound s3 bucket_name files) as [Hwf _].
  split.
  - intros b b' key key' Hin Hin' E.
    rewrite (proj1 (Hb b)) in Hin. rewrite (proj1 (Hb b')) in Hin'.
    destruct (classified_as_inv _ _ _ Hin) as (t & Ht & Hc).
    destruct (classified_as_inv _ _ _ Hin') as (t' & Ht' & Hc').
    destruct (dict_wf_unique _ _ _ _ _ Hwf Ht Ht' E) as [-> ->].
    split; [reflexivity | congruence].
  - intros b. destruct (Hb b) as [-> ->]. split; [|reflexivity].
    apply classified_as_nodup. now apply dict_wf_nodup.
Qed.



Lemma classify_defaults (r : json) :
  (lacks r "status" -> classify r <> UPDATING /\ classify r <> OFFLINE)
  /\ (lacks_nested r "firmware" "current_version" ->
      classify r <> UP_TO_DATE)
  /\ (lacks_nested r "battery" "percent" -> classify r <> ELIGIBLE).
Proof.
  split; [|split]; intros Hl.
  - assert (E : snapshot_status r = JStr "unknown")
      by (unfold snapshot_status; now apply lacks_field).
    unfold classify. rewrite !E.
    change (is_str (JStr "unknown") "updating") with false.
    change (is_str (JStr "unknown") "offline") with false.
    cbv iota.
    destruct (is_str (snapshot_firmware r) LATEST_FIRMWARE_VERSION);
      [split; discriminate|].
    destruct (num_of (snapshot_battery r)) as [p|]; [|split; discriminate].
    destruct (Qlt_le_dec p (inject_Z MINIMUM_BATTERY_PERCENT));
      split; discriminate.
  - assert (E : snapshot_firmware r = JStr "unknown")
      by (unfold snapshot_firmware; now apply lacks_nested_field).
    unfold classify. rewrite !E.
    change (is_str (JStr "unknown") LATEST_FIRMWARE_VERSION) with false.
    cbv iota.
    destruct (is_str (snapshot_status r) "updating"); [discriminate|].
    destruct (is_str (snapshot_status r) "offline"); [discriminate|].
    destruct (num_of (snapshot_battery r)) as [p|]; [|discriminate].
    destruct (Qlt_le_dec p (inject_Z MINIMUM_BATTERY_PERCENT));
      discriminate.
  - assert (E : snapshot_battery r = JInt 0)
      by (unfold snapshot_battery; now apply lacks_nested_field).
    unfold classify. rewrite !E.
    destruct (is_str (snapshot_status r) "updating"); [discriminate|].
    destruct (is_str (snapshot_status r) "offline"); [discriminate|].
    destruct (is_str (snapshot_firmware r) LATEST_FIRMWARE_VERSION);
      [discriminate|].
    cbn [num_of].
    destruct (Qlt_le_dec (inject_Z 0) (inject_Z MINIMUM_BATTERY_PERCENT))
      as [_|H]; [discriminate|].
    exfalso. revert H. unfold Qle, MINIMUM_BATTERY_PERCENT. simpl. lia.
Qed.

Lemma unknown_version_counted (files : list string) (fs : fleet_status)
  (key r : json) :
  histogram_of fs (dedup s3 bucket_name files) ->
  In (key, r) (dedup s3 bucket_name files) ->
  snapshot_firmware r = JStr "unknown" ->
  1 <= version_count (JStr "unknown") (firmware_distribution fs).
Proof.
  intros (_ & _ & _ & Hc) Hin Hf.
  rewrite (Hc (JStr "unknown") eq_refl).
  assert (Hon : In (key, r)
                  (on_version (JStr "unknown") (dedup s3 bucket_name files))).
  { unfold on_version. apply filter_In. split; [exact Hin|].
    cbn [snd]. now rewrite Hf. }
  destruct (on_version (JStr "unknown") (dedup s3 bucket_name files));
    [contradiction|].
  cbn [List.length]. lia.
Qed.

(** C7, as amended.  A field that a snapshot lacks is read as its
    default: battery percent 0, update flag false, status and firmware
    version "unknown", identifier [None].  For a batch whose documents
    have the fields read by the classification absent or of their
    expected type, [analyze_fleet] raises nothing and returns a report.
    The snapshot retained for a vehicle of the batch is read with these
    defaults and the vehicle is listed in the bucket they give: with no
    status it is neither updating nor offline, with no firmware version
    it is not up to date and is counted under the version "unknown",
    with no battery percent it is not eligible.  All snapshots without
    identifier are one vehicle of key [None], which is listed once, in
    the bucket of the snapshot retained for it, and counted. *)
Theorem missing_fields_default (files : list string) :
  typed_batch s3 bucket_name files ->
  (forall t : json,
      (lacks_nested t "battery" "percent" -> snapshot_battery t = JInt 0)
      /\ (lacks_nested t "firmware" "update_available" ->
          snapshot_update_available t = JBool false)
      /\ (lacks t "status" -> snapshot_status t = JStr "unknown")
      /\ (lacks_nested t "firmware" "current_version" ->
          snapshot_firmware t = JStr "unknown")
      /\ (lacks t "vehicle_id" -> snapshot_id t = JNull))
  /\ exists fs : fleet_status,
       analyze_fleet s3 bucket_name files = Ok fs
       /\ (forall a : json,
              In a (snapshots s3 bucket_name files) ->
              is_object a = true -> hashable (snapshot_id a) = true ->
              exists r : json,
                dict_find (snapshot_id a) (dedup s3 bucket_name files)
                = Some r
                /\ In r (snapshots s3 bucket_name files)
                /\ same_vehicle r a = true
                /\ extract_info r
                   = Ok (snapshot_firmware r, snapshot_battery r,
                         snapshot_status r, snapshot_update_available r)
                /\ listed fs (classify r) (snapshot_id a)
                /\ (lacks r "status" ->
                    classify r <> UPDATING /\ classify r <> OFFLINE)
                /\ (lacks_nested r "firmware" "current_version" ->
                    classify r <> UP_TO_DATE
                    /\ 1 <= version_count (JStr "unknown")
                              (firmware_distribution fs))
                /\ (lacks_nested r "battery" "percent" ->
                    classify r <> ELIGIBLE))
       /\ (forall a : json,
              In a (snapshots s3 bucket_name files) ->
              lacks a "vehicle_id" ->
              exists r : json,
                dict_find JNull (dedup s3 bucket_name files) = Some r
                /\ In r (snapshots s3 bucket_name files)
                /\ snapshot_id r = JNull
                /\ (forall b : bucket,
                       In JNull (bucket_members fs b) <-> classify r = b)
                /\ NoDup (bucket_members fs (classify r))
                /\ 1 <= total_vehicles fs).
Proof.
  intros Ht. split.
  { intros t. unfold snapshot_battery, snapshot_update_available,
      snapshot_status, snapshot_firmware, snapshot_id.
    repeat split; first [apply lacks_nested_field | apply lacks_field]. }
  destruct (typed_batch_report files Ht) as (fs & Hfs & Hrep & Hhist).
  exists fs. split; [exact Hfs|]. split.
  - intros a Hin Ho Hh.
    destruct (vehicle_of_batch files fs a Hrep Hin Ho Hh)
      as (key & r & Hr & Hkr & _ & Hor & Hrs & Hsame & Hl).
    destruct (classify_defaults r) as (D1 & D2 & D3).
    exists r. split; [exact Hr|]. split; [exact Hrs|].
    split; [exact Hsame|].
    split; [now destruct (extract_info_typed r (Ht r Hrs Hor))|].
    split; [now apply Hl|]. split; [exact D1|]. split; [|exact D3].
    intros Hlf. split; [now apply D2|].
    apply (unknown_version_counted files fs key r Hhist Hkr).
    unfold snapshot_firmware. now apply lacks_nested_field.
  - intros a Hin Hla.
    assert (Hid : snapshot_id a = JNull) by (now apply lacks_field).
    assert (Ho : is_object a = true)
      by (now apply lacks_object with "vehicle_id").
    assert (Hh : hashable (snapshot_id a) = true) by (now rewrite Hid).
    destruct (vehicle_of_batch files fs a Hrep Hin Ho Hh)
      as (key & r & Hr & Hkr & Eka & _ & Hrs & Hsame & Hl).
    rewrite Hid in Hr, Eka, Hl.
    apply py_eq_null_r in Eka. subst key.
    destruct (dedup_sound s3 bucket_name files) as [Hwf Hent].
    destruct (Hent JNull r Hkr) as (_ & Ek & _).
    apply py_eq_null_l in Ek.
    exists r. split; [exact Hr|]. split; [exact Hrs|].
    split; [now symmetry|]. split; [|split].
    + intros b. rewrite <- (Hl b). unfold listed. split.
      * intros H. exists JNull. now split.
      * intros (key & Hk & E). apply py_eq_null_r in E. now subst key.
    + now apply (listed_once files fs Hrep).
    + destruct Hrep as [Htot _]. rewrite Htot.
      destruct (dedup s3 bucket_name files); [contradiction|].
      cbn [List.length]. lia.
Qed.

End BatchClassification.

Section BatchSamples.
Import UpdateManager BatchReport FleetReport Samples.

Ltac each_document H :=
  vm_compute in H;
  repeat (destruct H as [<- | H]); [..|contradiction].



(** C7, as stated, fails: an object that lacks status, firmware and
    timestamp but whose battery percent is a string makes the
    classification raise [TypeError], also for the snapshot without
    identifier that shares its batch; an object that lacks firmware and
    whose battery is [null] makes it raise [AttributeError], the default
    of [.get] being used for an absent key only. *)
Lemma partial_snapshot_raises :
  (download_telemetry store "fleet" "h" = Ok PartialSamples.worded_battery
   /\ is_object PartialSamples.worded_battery = true
   /\ lacks PartialSamples.worded_battery "status"
   /\ lacks_nested PartialSamples.worded_battery "firmware" "current_version"
   /\ analyze_fleet store "fleet" ["h"] = Raise TypeError)
  /\ (download_telemetry store "fleet" "f" = Ok snap_f
      /\ lacks snap_f "vehicle_id"
      /\ fields_typed snap_f = true
      /\ analyze_fleet store "fleet" ["f"; "h"] = Raise TypeError)
  /\ (download_telemetry PartialSamples.store "fleet" "n"
      = Ok PartialSamples.null_battery
      /\ is_object PartialSamples.null_battery = true
      /\ lacks_nested PartialSamples.null_battery "firmware"
           "current_version"
      /\ analyze_fleet PartialSamples.store "fleet" ["n"]
         = Raise AttributeError).
Proof. repeat split; vm_compute; reflexivity. Qed.

Lemma missing_fields_default_witness :
  (forall t : json,
      (lacks_nested t "battery" "percent" -> snapshot_battery t = JInt 0)
      /\ (lacks_nested t "firmware" "update_available" ->
          snapshot_update_available t = JBool false)
      /\ (lacks t "status" -> snapshot_status t = JStr "unknown")
      /\ (lacks_nested t "firmware" "current_version" ->
          snapshot_firmware t = JStr "unknown")
      /\ (lacks t "vehicle_id" -> snapshot_id t = JNull))
  /\ exists fs : fleet_status,
       analyze_fleet store "fleet" files = Ok fs
       /\ (forall a : json,
              In a (snapshots store "fleet" files) ->
              is_object a = true -> hashable (snapshot_id a) = true ->
              exists r : json,
                dict_find (snapshot_id a) (dedup store "fleet" files)
                = Some r
                /\ In r (snapshots store "fleet" files)
                /\ same_vehicle r a = true
                /\ extract_info r
                   = Ok (snapshot_firmware r, snapshot_battery r,
                         snapshot_status r, snapshot_update_available r)
                /\ listed fs (classify r) (snapshot_id a)
                /\ (lacks r "status" ->
                    classify r <> UPDATING /\ classify r <> OFFLINE)
                /\ (lacks_nested r "firmware" "current_version" ->
                    classify r <> UP_TO_DATE
                    /\ 1 <= version_count (JStr "unknown")
                              (firmware_distribution fs))
                /\ (lacks_nested r "battery" "percent" ->
                    classify r <> ELIGIBLE))
       /\ (forall a : json,
              In a (snapshots store "fleet" files) ->
              lacks a "vehicle_id" ->
              exists r : json,
                dict_find JNull (dedup store "fleet" files) = Some r
                /\ In r (snapshots store "fleet" files)
                /\ snapshot_id r = JNull
                /\ (forall b : bucket,
                       In JNull (bucket_members fs b) <-> classify r = b)
                /\ NoDup (bucket_members fs (classify r))
                /\ 1 <= total_vehicles fs).
Proof.
  apply (missing_fields_default store "fleet" files).
  intros t Ht _. each_document Ht; reflexivity.
Defined.

(** The sample batch holds a snapshot without identifier, battery and
    firmware: it is the vehicle [None], listed under low battery, and
    its firmware is counted as "unknown". *)
Example scenario_anonymous :
  In snap_f (snapshots store "fleet" files)
  /\ lacks snap_f "vehicle_id"
  /\ lacks_nested snap_f "battery" "percent"
  /\ lacks_nested snap_f "firmware" "current_version"
  /\ analyze_fleet store "fleet" files = Ok ReportSamples.report
  /\ In JNull (bucket_members ReportSamples.report INSUFFICIENT_BATTERY)
  /\ version_count (JStr "unknown")
       (firmware_distribution ReportSamples.report) = 1.
Proof. repeat split; vm_compute; auto 10. Qed.

End BatchSamples.
